(** * Personal finance tracker: ledger store and categorizer

    A shallow embedding of the account and transaction routes of
    [backend/server.js] over the schema of [backend/db.sql].

    - Every [pool.query] is one auto-committed SQL statement: a function
      from a database state to a database state, or to no state when the
      statement violates a constraint of [db.sql] and throws.  No route
      opens a transaction, so a statement that has run stays applied.
    - A route handler threads the state through its statements in source
      order and returns the final state with the HTTP response.
    - [req.user.id], [uuidv4()] and [getTimestamp()] are inputs of the
      handlers.
    - NUMERIC columns hold exact decimals, here rationals, and the
      arithmetic of a statement is exact.  node-postgres returns a NUMERIC
      value as a string: where a route computes on such a value in
      JavaScript (the difference of the same-account update, the negation of
      the delete) it goes through an IEEE 754 binary64 Number and back to
      text, as module [Numeric] has it, for amounts within the range of
      binary64: the statements on balances say where they need the Number
      to be finite.  A numeric field of a body stands for the decimal
      node-postgres sends for it.
    - Strings are sequences of 8-bit characters and [toLowerCase] is the
      one of ASCII text: the statements on letter case carry the hypothesis
      that the text is ASCII ([ascii_text]).
    - A table is the list of its rows in the order of a sequential scan,
      with an UPDATE in place. *)

From Stdlib Require Import ZArith List String Ascii Bool Lia QArith Qabs Qround.
From Stdlib Require Import Lqa.
From Stdlib Require Import Floats.
Import ListNotations.

Local Open Scope string_scope.
Local Open Scope Z_scope.
Local Open Scope bool_scope.
Local Open Scope list_scope.

(** ** JavaScript values *)

Module Js.

(** A text field of a JSON body, a query parameter, or a TEXT column.
    [None] is [undefined]/[null] on the JavaScript side and NULL on the
    SQL side (node-postgres sends both as NULL). *)
Definition text := option string.

(** A numeric field of a JSON body; [Num q] is a finite Number that
    node-postgres sends as the decimal [q]. *)
Inductive number :=
| Undefined
| Null
| Num (q : Q).

(** [!!v] for a text value: the empty string, [null] and [undefined] are
    falsy. *)
Definition truthy (v : text) : bool :=
  match v with
  | Some s => negb (String.eqb s "")
  | None => false
  end.

(** [v || d] *)
Definition or_else (v d : text) : text :=
  if truthy v then v else d.

(** [v === undefined] *)
Definition is_undefined (n : number) : bool :=
  match n with
  | Undefined => true
  | _ => false
  end.

(** The SQL parameter a numeric body field is sent as. *)
Definition param (n : number) : option Q :=
  match n with
  | Num q => Some q
  | _ => None
  end.

Definition is_upper (c : ascii) : bool :=
  let n := nat_of_ascii c in
  (Nat.leb 65 n && Nat.leb n 90)%bool.

Definition lower_char (c : ascii) : ascii :=
  if is_upper c then ascii_of_nat (nat_of_ascii c + 32) else c.

(** [s.toLowerCase()] on ASCII text: the letters A to Z move 32 codes up,
    every other character stays. *)
Fixpoint toLowerCase (s : string) : string :=
  match s with
  | EmptyString => EmptyString
  | String c r => String (lower_char c) (toLowerCase r)
  end.

(** [s.includes(t)]: [t] occurs in [s] at some position. *)
Fixpoint includes (s t : string) : bool :=
  String.prefix t s ||
  match s with
  | EmptyString => false
  | String _ r => includes r t
  end.

End Js.

(** ** Rows of [db.sql] *)

Module Account.
Record t := mk {
  id : string;
  user_id : string;
  account_name : string;
  account_type : string;
  initial_balance : Q;
  current_balance : Q;
  currency : string;
  created_at : string;
  updated_at : string
}.
End Account.

Module Transaction.
Record t := mk {
  id : string;
  user_id : string;
  account_id : string;
  date : string;
  amount : Q;
  transaction_type : string;
  description : Js.text;
  category_id : Js.text;
  recurrence : string;
  created_at : string;
  updated_at : string
}.
End Transaction.

(** The two columns read by [SELECT category_id, keyword FROM keyword_rules]. *)
Module KeywordRule.
Record t := mk {
  category_id : string;
  keyword : string
}.
End KeywordRule.

(** The tables the ledger routes read or write.  [users] and [categories]
    are kept as their primary keys: the routes only meet them through the
    foreign keys of [accounts] and [transactions].  [keyword_rules] is in
    the order the SELECT returns its rows. *)
Record db := mkDb {
  users : list string;
  accounts : list Account.t;
  categories : list string;
  transactions : list Transaction.t;
  keyword_rules : list KeywordRule.t
}.

Definition set_accounts (d : db) (l : list Account.t) : db :=
  mkDb (users d) l (categories d) (transactions d) (keyword_rules d).

Definition set_transactions (d : db) (l : list Transaction.t) : db :=
  mkDb (users d) (accounts d) (categories d) l (keyword_rules d).

(** ** SQL statements *)

Module Sql.

Definition mem (k : string) (keys : list string) : bool :=
  existsb (String.eqb k) keys.

(** [COALESCE($n, column)] *)
Definition coalesce {A : Type} (p : option A) (column : A) : A :=
  match p with
  | Some v => v
  | None => column
  end.

(** [COALESCE($n, column)] on a nullable column *)
Definition coalesce_null {A : Type} (p column : option A) : option A :=
  match p with
  | Some v => Some v
  | None => column
  end.

(** [fk_accounts_user_id] *)
Definition account_fk (d : db) (a : Account.t) : bool :=
  mem (Account.user_id a) (users d).

(** [fk_transactions_user_id], [fk_transactions_account_id],
    [fk_transactions_category_id] *)
Definition transaction_fk (d : db) (r : Transaction.t) : bool :=
  mem (Transaction.user_id r) (users d)
  && mem (Transaction.account_id r) (map Account.id (accounts d))
  && match Transaction.category_id r with
     | Some c => mem c (categories d)
     | None => true
     end.

(** [WHERE id = $1 AND user_id = $2] on [accounts] *)
Definition account_where (id user_id : string) (a : Account.t) : bool :=
  String.eqb (Account.id a) id && String.eqb (Account.user_id a) user_id.

(** [WHERE id = $1 AND user_id = $2] on [transactions] *)
Definition transaction_where (id user_id : string) (r : Transaction.t) : bool :=
  String.eqb (Transaction.id r) id && String.eqb (Transaction.user_id r) user_id.

(** [INSERT INTO accounts (...) VALUES ($1, $2, $3, $4, $5, $5, $6, $7, $7)
    RETURNING *].  [None] when a NOT NULL column receives NULL, the
    primary key exists, or the user is unknown. *)
Definition insert_account (d : db) (id user_id : string)
  (account_name account_type : Js.text) (initial_balance : option Q)
  (currency : Js.text) (timestamp : string) : option (db * list Account.t) :=
  match account_name, account_type, initial_balance, currency with
  | Some n, Some ty, Some b, Some c =>
      let row := Account.mk id user_id n ty b b c timestamp timestamp in
      if negb (mem id (map Account.id (accounts d))) && account_fk d row
      then Some (set_accounts d (accounts d ++ [row]), [row])
      else None
  | _, _, _, _ => None
  end.

(** [UPDATE accounts SET account_name = COALESCE($1, account_name), ...,
    updated_at = $5 WHERE id = $6 AND user_id = $7] on one row *)
Definition edit_account_row (account_name account_type : Js.text)
  (initial_balance : option Q) (currency : Js.text) (timestamp : string)
  (a : Account.t) : Account.t :=
  Account.mk (Account.id a) (Account.user_id a)
    (coalesce account_name (Account.account_name a))
    (coalesce account_type (Account.account_type a))
    (coalesce initial_balance (Account.initial_balance a))
    (Account.current_balance a)
    (coalesce currency (Account.currency a))
    (Account.created_at a) timestamp.

(** The UPDATE of [PUT /api/accounts/:account_id] with [RETURNING *]. *)
Definition update_account (d : db) (account_name account_type : Js.text)
  (initial_balance : option Q) (currency : Js.text)
  (timestamp account_id user_id : string) : db * list Account.t :=
  let edit := edit_account_row account_name account_type initial_balance
                currency timestamp in
  (set_accounts d
     (map (fun a => if account_where account_id user_id a then edit a else a)
        (accounts d)),
   map edit (filter (account_where account_id user_id) (accounts d))).

(** [SET current_balance = current_balance + $1, updated_at = $2] on one
    row *)
Definition credit_row (delta : Q) (timestamp : string) (a : Account.t)
  : Account.t :=
  Account.mk (Account.id a) (Account.user_id a) (Account.account_name a)
    (Account.account_type a) (Account.initial_balance a)
    (Account.current_balance a + delta)%Q (Account.currency a)
    (Account.created_at a) timestamp.

(** [UPDATE accounts SET current_balance = current_balance + $1,
    updated_at = $2 WHERE id = $3 AND user_id = $4]: the text of
    [balanceQuery], [addQuery], [updateBalanceQuery] and of the statement
    of the DELETE route. *)
Definition add_balance (d : db) (delta : Q) (timestamp id user_id : string)
  : db :=
  set_accounts d
    (map (fun a => if account_where id user_id a
                   then credit_row delta timestamp a else a)
       (accounts d)).

(** [UPDATE accounts SET current_balance = current_balance - $1,
    updated_at = $2 WHERE id = $3 AND user_id = $4]: [reverseQuery]. *)
Definition sub_balance (d : db) (delta : Q) (timestamp id user_id : string)
  : db :=
  set_accounts d
    (map (fun a => if account_where id user_id a
                   then credit_row (- delta)%Q timestamp a else a)
       (accounts d)).

(** [SELECT * FROM transactions WHERE id = $1 AND user_id = $2] *)
Definition select_transaction (d : db) (id user_id : string)
  : list Transaction.t :=
  filter (transaction_where id user_id) (transactions d).

(** [INSERT INTO transactions (...) VALUES ($1, ..., $10, $10) RETURNING *].
    [None] when a NOT NULL column receives NULL, the primary key exists, or
    a foreign key has no target. *)
Definition insert_transaction (d : db) (id user_id : string)
  (account_id date : Js.text) (amount : option Q)
  (transaction_type description category_id recurrence : Js.text)
  (timestamp : string) : option (db * list Transaction.t) :=
  match account_id, date, amount, transaction_type, recurrence with
  | Some a, Some dt, Some q, Some ty, Some rc =>
      let row := Transaction.mk id user_id a dt q ty description category_id
                   rc timestamp timestamp in
      if negb (mem id (map Transaction.id (transactions d)))
         && transaction_fk d row
      then Some (set_transactions d (transactions d ++ [row]), [row])
      else None
  | _, _, _, _, _ => None
  end.

(** [UPDATE transactions SET account_id = COALESCE($1, account_id), ...,
    updated_at = $8] on one row *)
Definition edit_transaction_row (account_id date : Js.text)
  (amount : option Q)
  (transaction_type description category_id recurrence : Js.text)
  (timestamp : string) (r : Transaction.t) : Transaction.t :=
  Transaction.mk (Transaction.id r) (Transaction.user_id r)
    (coalesce account_id (Transaction.account_id r))
    (coalesce date (Transaction.date r))
    (coalesce amount (Transaction.amount r))
    (coalesce transaction_type (Transaction.transaction_type r))
    (coalesce_null description (Transaction.description r))
    (coalesce_null category_id (Transaction.category_id r))
    (coalesce recurrence (Transaction.recurrence r))
    (Transaction.created_at r) timestamp.

Definition text_eqb (x y : Js.text) : bool :=
  match x, y with
  | Some a, Some b => String.eqb a b
  | None, None => true
  | _, _ => false
  end.

(** The foreign keys an UPDATE re-checks: those whose column changed. *)
Definition transaction_fk_update (d : db) (old new : Transaction.t) : bool :=
  (String.eqb (Transaction.account_id old) (Transaction.account_id new)
   || mem (Transaction.account_id new) (map Account.id (accounts d)))
  && (text_eqb (Transaction.category_id old) (Transaction.category_id new)
      || match Transaction.category_id new with
         | Some c => mem c (categories d)
         | None => true
         end).

(** The UPDATE of [PUT /api/transactions/:transaction_id] with
    [RETURNING *].  [None] when an updated row has no account or category
    to point to. *)
Definition update_transaction (d : db) (account_id date : Js.text)
  (amount : option Q)
  (transaction_type description category_id recurrence : Js.text)
  (timestamp transaction_id user_id : string)
  : option (db * list Transaction.t) :=
  let edit := edit_transaction_row account_id date amount transaction_type
                description category_id recurrence timestamp in
  let matched := filter (transaction_where transaction_id user_id)
                   (transactions d) in
  let rows := map edit matched in
  if forallb (fun r => transaction_fk_update d r (edit r)) matched
  then Some (set_transactions d
               (map (fun r => if transaction_where transaction_id user_id r
                              then edit r else r)
                  (transactions d)),
             rows)
  else None.

(** [DELETE FROM transactions WHERE id = $1 AND user_id = $2]: no table
    of [db.sql] references [transactions], so the statement cannot fail. *)
Definition delete_transaction (d : db) (id user_id : string) : db :=
  set_transactions d
    (filter (fun r => negb (transaction_where id user_id r))
       (transactions d)).

End Sql.

(** ** Categorizer *)

(** The loop of [POST /api/transactions] over [kwResult.rows]: the
    category of the first row whose lower-cased keyword occurs in the
    lower-cased description, [None] when the loop ends without [break]. *)
Fixpoint categorize (description : string) (rows : list KeywordRule.t)
  : option string :=
  match rows with
  | [] => None
  | row :: rest =>
      if Js.includes (Js.toLowerCase description)
           (Js.toLowerCase (KeywordRule.keyword row))
      then Some (KeywordRule.category_id row)
      else categorize description rest
  end.

(** ** The arithmetic of the routes on binary64 *)

Module Numeric.

(** A JavaScript Number: an IEEE 754 binary64 value. *)
Definition binary64 := spec_float.

(** The rational a finite binary64 value stands for. *)
Definition exact (x : binary64) : Q :=
  match x with
  | S754_finite s m e =>
      let v := if 0 <=? e then inject_Z (Zpos m * 2 ^ e)
               else Qmake (Zpos m) (Z.to_pos (2 ^ (- e))) in
      if s then Qopp v else v
  | _ => 0%Q
  end.

(** The binary64 value nearest to [p / q], ties to even. *)
Definition nearest (negative : bool) (p q : positive) : binary64 :=
  SFdiv prec emax (S754_finite negative p 0) (S754_finite false q 0).

(** [Number(text)] for the text of a NUMERIC value, as the operators [-]
    apply it to the columns node-postgres returns as strings, and
    [JSON.parse] for a decimal literal of a request body. *)
Definition ToNumber (v : Q) : binary64 :=
  match Qnum v with
  | Z0 => S754_zero false
  | Zpos p => nearest false p (Qden v)
  | Zneg p => nearest true p (Qden v)
  end.

(** [x - y] *)
Definition js_sub (x y : binary64) : binary64 := SFsub prec emax x y.

(** [-x] *)
Definition js_neg (x : binary64) : binary64 := SFopp x.

Definition pow10 (n : Z) : Q :=
  if 0 <=? n then inject_Z (10 ^ n) else Qmake 1 (Z.to_pos (10 ^ (- n))).

(** The least [n], from [n] on, with [v < 10 ^ n]. *)
Fixpoint magnitude (fuel : nat) (v : Q) (n : Z) : Z :=
  match fuel with
  | O => n
  | S fuel' => if Qle_bool (pow10 n) v then magnitude fuel' v (n + 1) else n
  end.

(** [n] with [10 ^ (n - 1) <= v < 10 ^ n], for [v > 0]. *)
Definition decimal_exponent (v : Q) : Z :=
  let estimate :=
    ((Z.log2 (Qnum v) - Z.log2 (Zpos (Qden v))) * 30103) / 100000 in
  magnitude 8 v (estimate - 2).

(** The integers [s] next to [v / 10 ^ (n - k)] for which
    [s * 10 ^ (n - k)] reads back as [x]. *)
Definition candidates (x : binary64) (v : Q) (n k : Z) : list Z :=
  let lo := Qfloor (Qmult v (pow10 (k - n))) in
  filter (fun s => SFeqb (ToNumber (Qmult (inject_Z s) (pow10 (n - k)))) x)
    [lo; lo + 1].

(** Of the candidates the one closest to [v], the even one on a tie. *)
Definition closest (v : Q) (n k : Z) (l : list Z) : option Z :=
  match l with
  | [] => None
  | [s] => Some s
  | s1 :: s2 :: _ =>
      let d1 := Qabs (Qminus (Qmult (inject_Z s1) (pow10 (n - k))) v) in
      let d2 := Qabs (Qminus (Qmult (inject_Z s2) (pow10 (n - k))) v) in
      match Qcompare d1 d2 with
      | Lt => Some s1
      | Gt => Some s2
      | Eq => if Z.even s1 then Some s1 else Some s2
      end
  end.

(** The decimal with the fewest digits [k] that reads back as [x]. *)
Fixpoint shortest (fuel : nat) (x : binary64) (v : Q) (n k : Z) : option Q :=
  match fuel with
  | O => None
  | S fuel' =>
      match closest v n k (candidates x v n k) with
      | Some s => Some (Qmult (inject_Z s) (pow10 (n - k)))
      | None => shortest fuel' x v n (k + 1)
      end
  end.

(** The NUMERIC value of a Number sent as a query parameter:
    node-postgres sends [x.toString()], the shortest decimal that reads
    back as [x], and PostgreSQL reads that decimal exactly.  Finite
    values only. *)
Definition to_numeric (x : binary64) : Q :=
  match x with
  | S754_finite s _ _ =>
      let v := Qabs (exact x) in
      match shortest 17 (SFabs x) v (decimal_exponent v) 1 with
      | Some d => if s then Qopp d else d
      | None => exact x
      end
  | _ => 0%Q
  end.

(** [POST /api/transactions]: the body's amount is one parameter text for
    the INSERT and for [current_balance + $1]. *)
Definition stored_amount (amount : binary64) : Q := to_numeric amount.

Definition balanceQuery (current_balance : Q) (amount : binary64) : Q :=
  Qplus current_balance (to_numeric amount).

(** [PUT /api/transactions/:transaction_id], account changed: both amounts
    go back to SQL as the strings they came as. *)
Definition reverseQuery (current_balance old_amount : Q) : Q :=
  Qminus current_balance old_amount.

Definition addQuery (current_balance updated_amount : Q) : Q :=
  Qplus current_balance updated_amount.

(** [PUT /api/transactions/:transaction_id], same account:
    [diff = updatedTransaction.amount - oldTransaction.amount] is a
    subtraction of Numbers, and [current_balance + $1] adds its text. *)
Definition updateBalanceQuery (current_balance updated_amount old_amount : Q)
  : Q :=
  let diff := js_sub (ToNumber updated_amount) (ToNumber old_amount) in
  Qplus current_balance (to_numeric diff).

(** [DELETE /api/transactions/:transaction_id]:
    [reverseAmount = -transaction.amount] is a negation of a Number. *)
Definition reverseBalance (current_balance amount : Q) : Q :=
  let reverseAmount := js_neg (ToNumber amount) in
  Qplus current_balance (to_numeric reverseAmount).

(** A Number other than [NaN], [Infinity] and [-Infinity]. *)
Definition is_finite (x : binary64) : bool :=
  match x with
  | S754_zero _ | S754_finite _ _ _ => true
  | _ => false
  end.

(** The parameter [diff] of [updateBalanceQuery] and the parameter
    [reverseAmount] of the DELETE route, as PostgreSQL reads them. *)
Definition difference (updated_amount old_amount : Q) : Q :=
  to_numeric (js_sub (ToNumber updated_amount) (ToNumber old_amount)).

Definition negation (amount : Q) : Q :=
  to_numeric (js_neg (ToNumber amount)).

End Numeric.

(** ** Route handlers *)

Module Body.
(** The body of [POST /api/transactions] and
    [PUT /api/transactions/:transaction_id]. *)
Record transaction := mkTransaction {
  account_id : Js.text;
  date : Js.text;
  amount : Js.number;
  transaction_type : Js.text;
  description : Js.text;
  category_id : Js.text;
  recurrence : Js.text
}.

(** The body of [POST /api/accounts] and [PUT /api/accounts/:account_id]. *)
Record account := mkAccount {
  account_name : Js.text;
  account_type : Js.text;
  initial_balance : Js.number;
  currency : Js.text
}.
End Body.

Inductive payload :=
| Message (m : string)
| TransactionRow (r : option Transaction.t)
| AccountRow (a : option Account.t)
| NoContent.

Record response := mkResponse {
  status : Z;
  body : payload
}.

Module Server.

(** [POST /api/accounts] *)
Definition post_accounts (d : db) (user_id : string) (b : Body.account)
  (id timestamp : string) : db * response :=
  if negb (Js.truthy (Body.account_name b))
     || negb (Js.truthy (Body.account_type b))
     || Js.is_undefined (Body.initial_balance b)
     || negb (Js.truthy (Body.currency b))
  then (d, mkResponse 400 (Message "Missing required fields"))
  else
    match Sql.insert_account d id user_id (Body.account_name b)
            (Body.account_type b) (Js.param (Body.initial_balance b))
            (Body.currency b) timestamp with
    | Some (d1, rows) => (d1, mkResponse 201 (AccountRow (hd_error rows)))
    | None => (d, mkResponse 500 (Message "Error creating account"))
    end.

(** [PUT /api/accounts/:account_id] *)
Definition put_account (d : db) (user_id account_id : string)
  (b : Body.account) (timestamp : string) : db * response :=
  let (d1, rows) :=
    Sql.update_account d (Body.account_name b) (Body.account_type b)
      (Js.param (Body.initial_balance b)) (Body.currency b) timestamp
      account_id user_id in
  match rows with
  | [] => (d1, mkResponse 404 (Message "Account not found or not authorized"))
  | row :: _ => (d1, mkResponse 200 (AccountRow (Some row)))
  end.

(** The auto-categorization step of [POST /api/transactions]: the value of
    [category_id] when the INSERT is built. *)
Definition auto_category (d : db) (b : Body.transaction) : Js.text :=
  if negb (Js.truthy (Body.category_id b)) && Js.truthy (Body.description b)
  then
    match Body.description b with
    | Some description =>
        match categorize description (keyword_rules d) with
        | Some c => Some c
        | None => Body.category_id b
        end
    | None => Body.category_id b
    end
  else Body.category_id b.

(** [POST /api/transactions] *)
Definition post_transactions (d : db) (user_id : string)
  (b : Body.transaction) (id timestamp : string) : db * response :=
  let recurrence := Js.or_else (Body.recurrence b) (Some "none"%string) in
  if negb (Js.truthy (Body.account_id b))
     || negb (Js.truthy (Body.date b))
     || Js.is_undefined (Body.amount b)
     || negb (Js.truthy (Body.transaction_type b))
  then (d, mkResponse 400 (Message "Missing required fields"))
  else
    let category_id := auto_category d b in
    match Sql.insert_transaction d id user_id (Body.account_id b)
            (Body.date b) (Js.param (Body.amount b))
            (Body.transaction_type b)
            (Js.or_else (Body.description b) (Some ""%string))
            (Js.or_else category_id None) recurrence timestamp with
    | None => (d, mkResponse 500 (Message "Error creating transaction"))
    | Some (d1, rows) =>
        match Body.account_id b, Js.param (Body.amount b) with
        | Some account_id, Some amount =>
            let d2 := Sql.add_balance d1 amount timestamp account_id user_id in
            (d2, mkResponse 201 (TransactionRow (hd_error rows)))
        | _, _ =>
            (* not reached: the INSERT throws on a NULL account or amount *)
            (d1, mkResponse 500 (Message "Error creating transaction"))
        end
    end.

(** [PUT /api/transactions/:transaction_id] *)
Definition put_transaction (d : db) (user_id transaction_id : string)
  (b : Body.transaction) (timestamp : string) : db * response :=
  match Sql.select_transaction d transaction_id user_id with
  | [] => (d, mkResponse 404 (Message "Transaction not found"))
  | oldTransaction :: _ =>
      match Sql.update_transaction d (Body.account_id b) (Body.date b)
              (Js.param (Body.amount b)) (Body.transaction_type b)
              (Body.description b) (Body.category_id b) (Body.recurrence b)
              timestamp transaction_id user_id with
      | None => (d, mkResponse 500 (Message "Error updating transaction"))
      | Some (d1, rows) =>
          let updatedTransaction := hd_error rows in
          (* the else branch: same account *)
          let same_account :=
            match updatedTransaction with
            | Some updated =>
                let diff := Numeric.difference (Transaction.amount updated)
                              (Transaction.amount oldTransaction) in
                let d2 := Sql.add_balance d1 diff timestamp
                            (Transaction.account_id oldTransaction) user_id in
                (d2, mkResponse 200 (TransactionRow updatedTransaction))
            | None =>
                (d1, mkResponse 500 (Message "Error updating transaction"))
            end in
          match Body.account_id b with
          | Some account_id =>
              if Js.truthy (Some account_id)
                 && negb (String.eqb account_id
                            (Transaction.account_id oldTransaction))
              then
                let d2 := Sql.sub_balance d1
                            (Transaction.amount oldTransaction) timestamp
                            (Transaction.account_id oldTransaction) user_id in
                match updatedTransaction with
                | Some updated =>
                    let d3 := Sql.add_balance d2 (Transaction.amount updated)
                                timestamp account_id user_id in
                    (d3, mkResponse 200 (TransactionRow updatedTransaction))
                | None =>
                    (d2, mkResponse 500 (Message "Error updating transaction"))
                end
              else same_account
          | None => same_account
          end
      end
  end.

(** [DELETE /api/transactions/:transaction_id] *)
Definition delete_transaction (d : db) (user_id transaction_id : string)
  (timestamp : string) : db * response :=
  match Sql.select_transaction d transaction_id user_id with
  | [] => (d, mkResponse 404 (Message "Transaction not found"))
  | transaction :: _ =>
      let d1 := Sql.delete_transaction d transaction_id user_id in
      let reverseAmount := Numeric.negation (Transaction.amount transaction) in
      let d2 := Sql.add_balance d1 reverseAmount timestamp
                  (Transaction.account_id transaction) user_id in
      (d2, mkResponse 204 NoContent)
  end.

End Server.

(** ** The ledger invariant *)

(** The signed sum of the amounts of the transactions that reference an
    account. *)
Definition tx_sum (account_id : string) (rows : list Transaction.t) : Q :=
  fold_right Qplus 0%Q
    (map Transaction.amount
       (filter (fun r => String.eqb (Transaction.account_id r) account_id)
          rows)).

Definition balanced (d : db) (a : Account.t) : Prop :=
  (Account.current_balance a
   == Account.initial_balance a + tx_sum (Account.id a) (transactions d))%Q.

Definition ledger_invariant (d : db) : Prop :=
  Forall (balanced d) (accounts d).

(** The first account row with a given primary key. *)
Definition find_account (d : db) (id : string) : option Account.t :=
  find (fun a => String.eqb (Account.id a) id) (accounts d).

(** The balance of the account with a given primary key. *)
Definition balance_of (d : db) (id : string) : option Q :=
  option_map Account.current_balance (find_account d id).

(** [pk_transactions]: no two transaction rows share an id. *)
Definition pk_transactions (d : db) : Prop :=
  NoDup (map Transaction.id (transactions d)).

(** ** The API as a step function *)

(** A transaction write. *)
Inductive request :=
| Create (b : Body.transaction) (id : string)
| Update (transaction_id : string) (b : Body.transaction)
| Delete (transaction_id : string).

(** One transaction write by [user_id] at time [timestamp]; [id] of a
    [Create] is the result of [uuidv4()]. *)
Definition handle (d : db) (user_id : string) (q : request)
  (timestamp : string) : db * response :=
  match q with
  | Create b id => Server.post_transactions d user_id b id timestamp
  | Update transaction_id b =>
      Server.put_transaction d user_id transaction_id b timestamp
  | Delete transaction_id =>
      Server.delete_transaction d user_id transaction_id timestamp
  end.

(** ** Vocabulary of the statements *)

(** The responses of the transaction routes that carry a message. *)
Definition bad_request : response :=
  mkResponse 400 (Message "Missing required fields").

Definition create_failed : response :=
  mkResponse 500 (Message "Error creating transaction").


Definition update_failed : response :=
  mkResponse 500 (Message "Error updating transaction").

(** A 2xx response. *)
Definition succeeded (r : response) : bool :=
  (200 <=? status r) && (status r <? 300).

(** A required field of [POST /api/transactions] is missing (or empty). *)
Definition missing_required (b : Body.transaction) : Prop :=
  Js.truthy (Body.account_id b) = false
  \/ Js.truthy (Body.date b) = false
  \/ Body.amount b = Js.Undefined
  \/ Js.truthy (Body.transaction_type b) = false.

(** No account row has the primary key the body names. *)
Definition account_absent (d : db) (b : Body.transaction) : Prop :=
  forall k, Body.account_id b = Some k -> find_account d k = None.

(** No row of the table has this id and this owner. *)
Definition no_such_transaction (d : db) (user_id id : string) : Prop :=
  forall r, In r (transactions d) ->
    Transaction.id r = id -> Transaction.user_id r <> user_id.

(** The row a successful create inserts. *)
Definition created_row (d : db) (user_id : string) (b : Body.transaction)
  (id timestamp account_id : string) (amount : Q) : Transaction.t :=
  Transaction.mk id user_id account_id
    (Sql.coalesce (Body.date b) ""%string) amount
    (Sql.coalesce (Body.transaction_type b) ""%string)
    (Js.or_else (Body.description b) (Some ""%string))
    (Js.or_else (Server.auto_category d b) None)
    (Sql.coalesce (Js.or_else (Body.recurrence b) (Some "none"%string))
       ""%string)
    timestamp timestamp.

(** The row an update writes in place of [r]. *)
Definition edited (b : Body.transaction) (timestamp : string)
  (r : Transaction.t) : Transaction.t :=
  Sql.edit_transaction_row (Body.account_id b) (Body.date b)
    (Js.param (Body.amount b)) (Body.transaction_type b)
    (Body.description b) (Body.category_id b) (Body.recurrence b)
    timestamp r.

(** The request names an account other than the one the row is on. *)
Definition moves (b : Body.transaction) (old : Transaction.t) : bool :=
  match Body.account_id b with
  | Some account_id =>
      Js.truthy (Some account_id)
      && negb (String.eqb account_id (Transaction.account_id old))
  | None => false
  end.

(** A balance statement on one row: [SET current_balance = current_balance
    + $1] where the WHERE clause holds. *)
Definition credit_if (delta : Q) (timestamp id user_id : string)
  (a : Account.t) : Account.t :=
  if Sql.account_where id user_id a then Sql.credit_row delta timestamp a
  else a.

(** What one transaction row adds to the sum of account [k]. *)
Definition contribution (r : Transaction.t) (k : string) : Q :=
  if String.eqb (Transaction.account_id r) k then Transaction.amount r
  else 0%Q.

(** Every account row with primary key [k] belongs to [user_id]: the
    account is the caller's, or absent. *)
Definition owns (d : db) (user_id k : string) : Prop :=
  forall a, In a (accounts d) -> Account.id a = k ->
    Account.user_id a = user_id.

Definition option_list {A : Type} (o : option A) : list A :=
  match o with
  | Some x => [x]
  | None => []
  end.

(** The accounts a write refers to: the one named in the body and the one
    the stored row is on. *)
Definition named_accounts (d : db) (user_id : string) (q : request)
  : list string :=
  match q with
  | Create b _ => option_list (Body.account_id b)
  | Update transaction_id b =>
      map Transaction.account_id
        (Sql.select_transaction d transaction_id user_id)
      ++ option_list (Body.account_id b)
  | Delete transaction_id =>
      map Transaction.account_id
        (Sql.select_transaction d transaction_id user_id)
  end.

(** An update does not name the empty string as its account. *)
Definition well_named (q : request) : Prop :=
  match q with
  | Update _ b => Body.account_id b <> Some ""%string
  | _ => True
  end.

(** Between [d] and [d'] every account row keeps its key, owner and
    initial balance, and its balance moves by exactly the change of the
    sum of the transactions that reference it. *)
Definition paired (d d' : db) : Prop :=
  Forall2
    (fun a a' =>
       Account.id a' = Account.id a
       /\ Account.user_id a' = Account.user_id a
       /\ Account.initial_balance a' = Account.initial_balance a
       /\ (Account.current_balance a' - Account.current_balance a
           == tx_sum (Account.id a) (transactions d')
              - tx_sum (Account.id a) (transactions d))%Q)
    (accounts d) (accounts d').

(** The same without regard to the order of the rows: every account row
    before has such a row after, and every row after comes from one
    before. *)
Definition paired_rows (d d' : db) : Prop :=
  let step a a' :=
    Account.id a' = Account.id a
    /\ Account.user_id a' = Account.user_id a
    /\ Account.initial_balance a' = Account.initial_balance a
    /\ (Account.current_balance a' - Account.current_balance a
        == tx_sum (Account.id a) (transactions d')
           - tx_sum (Account.id a) (transactions d))%Q in
  (forall a, In a (accounts d) ->
     exists a', In a' (accounts d') /\ step a a')
  /\ (forall a', In a' (accounts d') ->
        exists a, In a (accounts d) /\ step a a').

(** The ledger invariant as a test. *)
Definition ledger_invariantb (d : db) : bool :=
  forallb
    (fun a => Qeq_bool (Account.current_balance a)
                (Account.initial_balance a
                 + tx_sum (Account.id a) (transactions d))%Q)
    (accounts d).

(** Every transaction row is on an account of its own user (or on none). *)
Definition accounts_owned (d : db) : Prop :=
  forall r, In r (transactions d) ->
    owns d (Transaction.user_id r) (Transaction.account_id r).

(** The account a write names in its body is absent or the caller's. *)
Definition own_request (d : db) (user_id : string) (q : request) : Prop :=
  match q with
  | Create b _ => forall k, Body.account_id b = Some k -> owns d user_id k
  | Update _ b =>
      Body.account_id b <> Some ""
      /\ forall k, Body.account_id b = Some k -> owns d user_id k
  | Delete _ => True
  end.

(** The Number a route computes from these amounts is finite (the amounts
    are within the range of binary64). *)
Definition finite_difference (updated_amount old_amount : Q) : Prop :=
  Numeric.is_finite
    (Numeric.js_sub (Numeric.ToNumber updated_amount)
       (Numeric.ToNumber old_amount)) = true.

Definition finite_negation (amount : Q) : Prop :=
  Numeric.is_finite (Numeric.js_neg (Numeric.ToNumber amount)) = true.

(** The Number arithmetic of a route is exact on these amounts: the result
    is a finite Number and its text is the decimal of exact arithmetic. *)
Definition exact_difference (updated_amount old_amount : Q) : Prop :=
  finite_difference updated_amount old_amount
  /\ (Numeric.difference updated_amount old_amount
      == updated_amount - old_amount)%Q.

Definition exact_negation (amount : Q) : Prop :=
  finite_negation amount
  /\ (Numeric.negation amount == - amount)%Q.

(** The Number arithmetic a write goes through is exact: the difference of
    an update that stays on its account, the negation of a delete. *)
Definition exact_request (d : db) (user_id : string) (q : request) : Prop :=
  match q with
  | Create _ _ => True
  | Update transaction_id b =>
      forall old,
        In old (Sql.select_transaction d transaction_id user_id) ->
        moves b old = false ->
        exact_difference
          (Sql.coalesce (Js.param (Body.amount b)) (Transaction.amount old))
          (Transaction.amount old)
  | Delete transaction_id =>
      forall old,
        In old (Sql.select_transaction d transaction_id user_id) ->
        exact_negation (Transaction.amount old)
  end.

(** The state the ledger works on: primary key, accounts of their own
    users, balances in step with transactions. *)
Definition consistent (d : db) : Prop :=
  pk_transactions d /\ accounts_owned d /\ ledger_invariant d.

(** The databases reached from [d] by transaction writes that name only
    accounts of their callers and whose Number arithmetic is exact. *)
Inductive own_run : db -> db -> Prop :=
| own_done d : own_run d d
| own_step d user_id q timestamp d' :
    own_request d user_id q ->
    exact_request d user_id q ->
    own_run (fst (handle d user_id q timestamp)) d' ->
    own_run d d'.

(** ** Case-insensitive substrings, in the words of the specification *)

(** A text of ASCII characters only (codes below 128): on such a text the
    characters are the code units of the JavaScript string and
    [Js.toLowerCase] is [String.prototype.toLowerCase]. *)
Fixpoint ascii_text (s : string) : bool :=
  match s with
  | EmptyString => true
  | String c r => (nat_of_ascii c <? 128)%nat && ascii_text r
  end.

(** The keywords of a rule list are ASCII texts. *)
Definition ascii_rules (rows : list KeywordRule.t) : Prop :=
  forall r, In r rows -> ascii_text (KeywordRule.keyword r) = true.

(** Two characters that are equal, or the upper case (codes 65 to 90) and
    the lower case (32 further) of one letter. *)
Inductive same_letter : ascii -> ascii -> Prop :=
| same_exact c : same_letter c c
| same_upper_lower c :
    (65 <= nat_of_ascii c <= 90)%nat ->
    same_letter c (ascii_of_nat (nat_of_ascii c + 32))
| same_lower_upper c :
    (65 <= nat_of_ascii c <= 90)%nat ->
    same_letter (ascii_of_nat (nat_of_ascii c + 32)) c.

(** Two strings of the same length whose characters agree up to case. *)
Inductive same_text : string -> string -> Prop :=
| same_empty : same_text EmptyString EmptyString
| same_string x y s t :
    same_letter x y -> same_text s t -> same_text (String x s) (String y t).

(** [keyword] occurs in [description] up to the case of letters. *)
Definition ci_substring (keyword description : string) : Prop :=
  exists before middle after,
    description = (before ++ middle ++ after)%string
    /\ same_text keyword middle.

(** ** Sample data *)

Module Sample.

Definition ts0 : string := "2023-03-01T10:00:00.000Z".
Definition ts1 : string := "2023-03-10T10:00:00.000Z".
Definition ts2 : string := "2023-03-11T10:00:00.000Z".

(** Two registered users, the categories and keyword rules of the seed
    data, no account yet. *)
Definition empty : db :=
  mkDb ["user1"; "user2"]%string [] ["cat1"; "cat2"; "cat3"]%string []
    [KeywordRule.mk "cat1" "Starbucks"; KeywordRule.mk "cat2" "Uber";
     KeywordRule.mk "cat3" "Electric"].

Definition checking (balance : Q) : Body.account :=
  Body.mkAccount (Some "Checking"%string) (Some "checking"%string)
    (Js.Num balance) (Some "USD"%string).

(** user1 opens [acct1_user1] with 1200.00, user2 opens [acct1_user2] with
    2000.00 and user1 opens [acct2_user1] with 5000.00. *)
Definition opened : db :=
  let d1 := fst (Server.post_accounts empty "user1" (checking 1200)
                   "acct1_user1" ts0) in
  let d2 := fst (Server.post_accounts d1 "user2" (checking 2000)
                   "acct1_user2" ts0) in
  fst (Server.post_accounts d2 "user1" (checking 5000) "acct2_user1" ts0).

Definition entry (account_id : string) (amount : Q) (description : string)
  : Body.transaction :=
  Body.mkTransaction (Some account_id) (Some "2023-03-10"%string)
    (Js.Num amount) (Some "expense"%string) (Some description) None None.

(** A partial update that only names a new account. *)
Definition move_to (account_id : string) : Body.transaction :=
  Body.mkTransaction (Some account_id) None Js.Undefined None None None None.

(** A partial update that only names a new amount. *)
Definition reprice (amount : Q) : Body.transaction :=
  Body.mkTransaction None None (Js.Num amount) None None None None.

End Sample.

(** * The other routes of [backend/server.js] *)

(** The reply of a route: [res.status(s).json(value)],
    [res.status(s).json({ message })] or [res.status(s).send()]. *)
Inductive reply (A : Type) : Type :=
| Json (status : Z) (value : A)
| Failure (status : Z) (message : string)
| Sent (status : Z).

Arguments Json {A} status value.
Arguments Failure {A} status message.
Arguments Sent {A} status.

Definition code {A : Type} (r : reply A) : Z :=
  match r with
  | Json s _ => s
  | Failure s _ => s
  | Sent s => s
  end.

(** ** Account and transaction routes outside the ledger writes *)

(** [req.query] of [GET /api/transactions]. *)
Module Filters.
Record t := mk {
  account_id : Js.text;
  category_id : Js.text;
  start_date : Js.text;
  end_date : Js.text;
  transaction_type : Js.text
}.
End Filters.

Module Query.

(** [DELETE FROM accounts WHERE id = $1 AND user_id = $2].
    [fk_transactions_account_id] has no ON DELETE action: the statement
    throws when a transaction references a row it would delete. *)
Definition delete_account (d : db) (id user_id : string) : option db :=
  let doomed := filter (Sql.account_where id user_id) (accounts d) in
  if existsb
       (fun r => Sql.mem (Transaction.account_id r) (map Account.id doomed))
       (transactions d)
  then None
  else Some (set_accounts d
               (filter (fun a => negb (Sql.account_where id user_id a))
                  (accounts d))).

Section Listing.

(** [a <= b] on TEXT values, in the collation of the database. *)
Variable text_le : string -> string -> bool.

(** The conjuncts [GET /api/transactions] appends to its WHERE clause: one
    for every query parameter that is truthy. *)
Definition keeps (q : Filters.t) (r : Transaction.t) : bool :=
  (match Filters.account_id q with
   | Some v => if Js.truthy (Some v)
               then String.eqb (Transaction.account_id r) v else true
   | None => true
   end)
  && (match Filters.category_id q with
      | Some v => if Js.truthy (Some v)
                  then Sql.text_eqb (Transaction.category_id r) (Some v)
                  else true
      | None => true
      end)
  && (match Filters.start_date q with
      | Some v => if Js.truthy (Some v)
                  then text_le v (Transaction.date r) else true
      | None => true
      end)
  && (match Filters.end_date q with
      | Some v => if Js.truthy (Some v)
                  then text_le (Transaction.date r) v else true
      | None => true
      end)
  && (match Filters.transaction_type q with
      | Some v => if Js.truthy (Some v)
                  then String.eqb (Transaction.transaction_type r) v else true
      | None => true
      end).

(** [SELECT * FROM transactions WHERE user_id = $1 AND ...] *)
Definition select_transactions (d : db) (user_id : string) (q : Filters.t)
  : list Transaction.t :=
  filter
    (fun r => String.eqb (Transaction.user_id r) user_id && keeps q r)
    (transactions d).

End Listing.

End Query.

Module Routes.

(** [GET /api/accounts] *)
Definition get_accounts (d : db) (user_id : string)
  : reply (list Account.t) :=
  Json 200
    (filter (fun a => String.eqb (Account.user_id a) user_id) (accounts d)).

(** [GET /api/accounts/:account_id] *)
Definition get_account (d : db) (user_id account_id : string)
  : reply Account.t :=
  match filter (Sql.account_where account_id user_id) (accounts d) with
  | [] => Failure 404 "Account not found"
  | row :: _ => Json 200 row
  end.

(** [DELETE /api/accounts/:account_id] *)
Definition delete_account (d : db) (user_id account_id : string)
  : db * reply unit :=
  match Query.delete_account d account_id user_id with
  | Some d1 => (d1, Sent 204)
  | None => (d, Failure 500 "Error deleting account")
  end.

(** [GET /api/transactions] *)
Definition get_transactions (text_le : string -> string -> bool) (d : db)
  (user_id : string) (q : Filters.t) : reply (list Transaction.t) :=
  Json 200 (Query.select_transactions text_le d user_id q).

(** [GET /api/transactions/:transaction_id] *)
Definition get_transaction (d : db) (user_id transaction_id : string)
  : reply Transaction.t :=
  match Sql.select_transaction d transaction_id user_id with
  | [] => Failure 404 "Transaction not found"
  | row :: _ => Json 200 row
  end.

End Routes.

(** ** Keyword rule routes *)

(** A row of [keyword_rules] with all its columns. *)
Module Rule.
Record t := mk {
  id : string;
  keyword : string;
  category_id : string;
  created_at : string;
  updated_at : string
}.
End Rule.

(** The [keyword_rules] table, in the order a SELECT without ORDER BY
    returns it (the order of insertion: no route updates or deletes a
    rule), and the primary keys of [categories]. *)
Record rulebook := mkRulebook {
  rule_categories : list string;
  rules : list Rule.t
}.

(** [SELECT category_id, keyword FROM keyword_rules] *)
Definition selected_rules (s : rulebook) : list KeywordRule.t :=
  map (fun r => KeywordRule.mk (Rule.category_id r) (Rule.keyword r))
    (rules s).

Module RuleRoutes.

(** [INSERT INTO keyword_rules (...) VALUES ($1, $2, $3, $4, $4)
    RETURNING *] *)
Definition insert_rule (s : rulebook) (id : string)
  (keyword category_id : Js.text) (timestamp : string)
  : option (rulebook * list Rule.t) :=
  match keyword, category_id with
  | Some k, Some c =>
      let row := Rule.mk id k c timestamp timestamp in
      if negb (Sql.mem id (map Rule.id (rules s)))
         && Sql.mem c (rule_categories s)
      then Some (mkRulebook (rule_categories s) (rules s ++ [row]), [row])
      else None
  | _, _ => None
  end.

(** [GET /api/keyword_rules] *)
Definition get_keyword_rules (s : rulebook) : reply (list Rule.t) :=
  Json 200 (rules s).

(** [POST /api/keyword_rules] *)
Definition post_keyword_rules (s : rulebook) (keyword category_id : Js.text)
  (id timestamp : string) : rulebook * reply (option Rule.t) :=
  if negb (Js.truthy keyword) || negb (Js.truthy category_id)
  then (s, Failure 400 "Missing required fields")
  else
    match insert_rule s id keyword category_id timestamp with
    | Some (s1, rows) => (s1, Json 201 (hd_error rows))
    | None => (s, Failure 500 "Error creating keyword rule")
    end.

End RuleRoutes.

(** ** Authentication and user routes *)

(** The payload of a token: [{ id, email }]. *)
Record claims := mkClaims {
  claim_id : string;
  claim_email : string
}.

(** What the middleware does with a request: hand it on with [req.user]
    set, or answer it. *)
Inductive gate :=
| Next (user : claims)
| Refused (status : Z) (message : string).

Module Auth.

(** [s.split(' ')], with the piece read so far. *)
Fixpoint split_from (piece s : string) : list string :=
  match s with
  | EmptyString => [piece]
  | String c rest =>
      if Ascii.eqb c " "
      then piece :: split_from "" rest
      else split_from (piece ++ String c "") rest
  end.

Definition split (s : string) : list string := split_from "" s.

Section Middleware.

(** [jwt.verify(token, JWT_SECRET)]: the decoded payload, or an error. *)
Variable verify : string -> option claims.

(** [authenticateToken] *)
Definition authenticateToken (authorization : Js.text) : gate :=
  let token :=
    match authorization with
    | Some authHeader =>
        if Js.truthy authorization then nth_error (split authHeader) 1
        else authorization
    | None => None
    end in
  match token with
  | Some t =>
      if Js.truthy token
      then match verify t with
           | Some user => Next user
           | None => Refused 403 "Invalid token"
           end
      else Refused 401 "Missing token"
  | None => Refused 401 "Missing token"
  end.

End Middleware.

End Auth.

Module User.
Record t := mk {
  id : string;
  email : string;
  password_hash : string;
  name : Js.text;
  created_at : string;
  updated_at : string
}.
End User.

(** [RETURNING id, email, name, created_at, updated_at], and the user of a
    login reply after [delete user.password_hash]. *)
Module Profile.
Record t := mk {
  id : string;
  email : string;
  name : Js.text;
  created_at : string;
  updated_at : string
}.
End Profile.

Definition profile (u : User.t) : Profile.t :=
  Profile.mk (User.id u) (User.email u) (User.name u) (User.created_at u)
    (User.updated_at u).

Module Users.

(** [SELECT ... FROM users WHERE email = $1] *)
Definition by_email (users : list User.t) (email : string) : list User.t :=
  filter (fun u => String.eqb (User.email u) email) users.

(** [SELECT ... FROM users WHERE id = $1] *)
Definition by_id (users : list User.t) (id : string) : list User.t :=
  filter (fun u => String.eqb (User.id u) id) users.

(** [INSERT INTO users (...) VALUES ($1, ..., $6) RETURNING ...] under
    [pk_users] and [uq_users_email]. *)
Definition insert_user (users : list User.t) (row : User.t)
  : option (list User.t * list Profile.t) :=
  if negb (Sql.mem (User.id row) (map User.id users))
     && negb (Sql.mem (User.email row) (map User.email users))
  then Some (users ++ [row], [profile row])
  else None.

(** [POST /api/auth/register]; [hashedPassword] is the result of
    [bcrypt.hash(password, 10)]. *)
Definition register (users : list User.t) (email password name : Js.text)
  (hashedPassword id timestamp : string)
  : list User.t * reply (option Profile.t) :=
  match email with
  | Some e =>
      if negb (Js.truthy email) || negb (Js.truthy password)
      then (users, Failure 400 "Email and password required")
      else
        match by_email users e with
        | _ :: _ => (users, Failure 409 "User with this email already exists")
        | [] =>
            let row := User.mk id e hashedPassword
                         (Js.or_else name (Some "")) timestamp timestamp in
            match insert_user users row with
            | Some (users1, rows) => (users1, Json 201 (hd_error rows))
            | None => (users, Failure 500 "Error registering user")
            end
        end
  | None => (users, Failure 400 "Email and password required")
  end.

Section Login.

(** [bcrypt.compare(password, hash)] *)
Variable compare : string -> string -> bool.

(** [jwt.sign({ id, email }, JWT_SECRET, { expiresIn: '1h' })] *)
Variable sign : claims -> string.

(** [POST /api/auth/login]: the reply carries the token and the user
    without its password hash. *)
Definition login (users : list User.t) (email password : Js.text)
  : reply (string * Profile.t) :=
  match email, password with
  | Some e, Some p =>
      if negb (Js.truthy email) || negb (Js.truthy password)
      then Failure 400 "Email and password required"
      else
        match by_email users e with
        | [] => Failure 401 "Invalid credentials"
        | user :: _ =>
            if compare p (User.password_hash user)
            then Json 200
                   (sign (mkClaims (User.id user) (User.email user)),
                    profile user)
            else Failure 401 "Invalid credentials"
        end
  | _, _ => Failure 400 "Email and password required"
  end.

End Login.

(** [GET /api/users/me] *)
Definition get_me (users : list User.t) (user_id : string)
  : reply Profile.t :=
  match by_id users user_id with
  | [] => Failure 404 "User not found"
  | user :: _ => Json 200 (profile user)
  end.

(** [UPDATE users SET name = $1, updated_at = $2 WHERE id = $3] on one
    row *)
Definition rename (name : Js.text) (timestamp : string) (u : User.t)
  : User.t :=
  User.mk (User.id u) (User.email u) (User.password_hash u) name
    (User.created_at u) timestamp.

(** [PATCH /api/users/me] *)
Definition patch_me (users : list User.t) (user_id : string)
  (name : Js.text) (timestamp : string)
  : list User.t * reply Profile.t :=
  let users1 :=
    map (fun u => if String.eqb (User.id u) user_id
                  then rename name timestamp u else u) users in
  match map (rename name timestamp) (by_id users user_id) with
  | [] => (users1, Failure 404 "User not found")
  | row :: _ => (users1, Json 200 (profile row))
  end.

End Users.

(** ** Notification route *)

Module Notification.
Record t := mk {
  id : string;
  user_id : string;
  notification_type : string;
  message : string;
  is_read : bool;
  created_at : string
}.
End Notification.

Module Notifications.

Definition mine (id user_id : string) (n : Notification.t) : bool :=
  String.eqb (Notification.id n) id
  && String.eqb (Notification.user_id n) user_id.

Definition mark (is_read : bool) (n : Notification.t) : Notification.t :=
  Notification.mk (Notification.id n) (Notification.user_id n)
    (Notification.notification_type n) (Notification.message n) is_read
    (Notification.created_at n).

(** [UPDATE notifications SET is_read = $1 WHERE id = $2 AND user_id = $3
    RETURNING *]: [is_read] is NOT NULL, so a NULL parameter throws as soon
    as one row matches. *)
Definition update_is_read (rows : list Notification.t)
  (is_read : option bool) (id user_id : string)
  : option (list Notification.t * list Notification.t) :=
  match is_read with
  | Some v =>
      Some (map (fun n => if mine id user_id n then mark v n else n) rows,
            map (mark v) (filter (mine id user_id) rows))
  | None =>
      match filter (mine id user_id) rows with
      | [] => Some (rows, [])
      | _ :: _ => None
      end
  end.

(** [GET /api/notifications] *)
Definition get_notifications (rows : list Notification.t)
  (user_id : string) : reply (list Notification.t) :=
  Json 200
    (filter (fun n => String.eqb (Notification.user_id n) user_id) rows).

(** [PATCH /api/notifications/:notification_id] *)
Definition patch_notification (rows : list Notification.t)
  (user_id notification_id : string) (is_read : option bool)
  : list Notification.t * reply Notification.t :=
  match update_is_read rows is_read notification_id user_id with
  | None => (rows, Failure 500 "Error updating notification")
  | Some (rows1, []) => (rows1, Failure 404 "Notification not found")
  | Some (rows1, row :: _) => (rows1, Json 200 row)
  end.

End Notifications.

(** ** User settings routes *)

Module Setting.
Record t := mk {
  id : string;
  user_id : string;
  notification_preferences : string;
  other_preferences : string;
  created_at : string;
  updated_at : string
}.
End Setting.

(** [user_settings] with the primary keys of [users].  A preference is the
    JSON text of the column; a body field is [None] when it is [undefined]
    (then [JSON.stringify] gives [undefined], sent as NULL) and otherwise
    the text [JSON.stringify] gives. *)
Record settings_store := mkSettings {
  setting_users : list string;
  settings : list Setting.t
}.

Module Settings.

Definition of_user (user_id : string) (r : Setting.t) : bool :=
  String.eqb (Setting.user_id r) user_id.

(** [INSERT INTO user_settings (...) VALUES ($1, $2, $3, $4, $5, $5)
    RETURNING *] *)
Definition insert_settings (s : settings_store) (id user_id : string)
  (notification_preferences other_preferences : Js.text)
  (timestamp : string) : option (settings_store * list Setting.t) :=
  match notification_preferences, other_preferences with
  | Some n, Some o =>
      let row := Setting.mk id user_id n o timestamp timestamp in
      if negb (Sql.mem id (map Setting.id (settings s)))
         && Sql.mem user_id (setting_users s)
      then Some (mkSettings (setting_users s) (settings s ++ [row]), [row])
      else None
  | _, _ => None
  end.

Definition rewrite (n o timestamp : string) (r : Setting.t) : Setting.t :=
  Setting.mk (Setting.id r) (Setting.user_id r) n o (Setting.created_at r)
    timestamp.

(** [UPDATE user_settings SET notification_preferences = $1,
    other_preferences = $2, updated_at = $3 WHERE user_id = $4
    RETURNING *] *)
Definition update_settings (s : settings_store)
  (notification_preferences other_preferences : Js.text)
  (timestamp user_id : string) : option (settings_store * list Setting.t) :=
  match filter (of_user user_id) (settings s) with
  | [] => Some (s, [])
  | matched =>
      match notification_preferences, other_preferences with
      | Some n, Some o =>
          Some (mkSettings (setting_users s)
                  (map (fun r => if of_user user_id r
                                 then rewrite n o timestamp r else r)
                     (settings s)),
                map (rewrite n o timestamp) matched)
      | _, _ => None
      end
  end.

(** [GET /api/user_settings] *)
Definition get_user_settings (s : settings_store) (user_id : string)
  (id timestamp : string) : settings_store * reply (option Setting.t) :=
  match filter (of_user user_id) (settings s) with
  | [] =>
      match insert_settings s id user_id (Some "{}") (Some "{}") timestamp
      with
      | Some (s1, rows) => (s1, Json 200 (hd_error rows))
      | None => (s, Failure 500 "Error retrieving user settings")
      end
  | row :: _ => (s, Json 200 (Some row))
  end.

(** [PUT /api/user_settings] *)
Definition put_user_settings (s : settings_store) (user_id : string)
  (notification_preferences other_preferences : Js.text)
  (id timestamp : string) : settings_store * reply (option Setting.t) :=
  match filter (of_user user_id) (settings s) with
  | [] =>
      match insert_settings s id user_id notification_preferences
              other_preferences timestamp with
      | Some (s1, rows) => (s1, Json 200 (hd_error rows))
      | None => (s, Failure 500 "Error updating user settings")
      end
  | _ :: _ =>
      match update_settings s notification_preferences other_preferences
              timestamp user_id with
      | Some (s1, rows) => (s1, Json 200 (hd_error rows))
      | None => (s, Failure 500 "Error updating user settings")
      end
  end.

End Settings.

(** ** Bill routes *)

Module Bill.
Record t := mk {
  id : string;
  user_id : string;
  bill_name : string;
  amount : Q;
  due_date : string;
  recurrence : string;
  reminder_offset : Q;
  status : string;
  created_at : string;
  updated_at : string
}.
End Bill.

(** The [users] (ids only) and [bills] tables. *)
Record bill_store := mkBills {
  bill_users : list string;
  bills : list Bill.t
}.

(** [req.body] of the bill routes. *)
Module BillBody.
Record t := mk {
  bill_name : Js.text;
  amount : Js.number;
  due_date : Js.text;
  recurrence : Js.text;
  reminder_offset : Js.number;
  status : Js.text
}.
End BillBody.

Module Bills.

(** [WHERE user_id = $1] *)
Definition of_user (user_id : string) (b : Bill.t) : bool :=
  String.eqb (Bill.user_id b) user_id.

(** [WHERE id = $1 AND user_id = $2] *)
Definition bill_where (id user_id : string) (b : Bill.t) : bool :=
  String.eqb (Bill.id b) id && String.eqb (Bill.user_id b) user_id.

(** [INSERT INTO bills (...) VALUES ($1, $2, $3, $4, $5, $6, $7, 'pending',
    $8, $8) RETURNING *].  [None] when a NOT NULL column receives NULL, the
    primary key exists, or the user is unknown. *)
Definition insert_bill (s : bill_store) (id user_id : string)
  (bill_name : Js.text) (amount : option Q) (due_date recurrence : Js.text)
  (reminder_offset : option Q) (timestamp : string)
  : option (bill_store * list Bill.t) :=
  match bill_name, amount, due_date, recurrence, reminder_offset with
  | Some n, Some a, Some d, Some r, Some o =>
      let row := Bill.mk id user_id n a d r o "pending" timestamp timestamp in
      if negb (Sql.mem id (map Bill.id (bills s)))
         && Sql.mem user_id (bill_users s)
      then Some (mkBills (bill_users s) (bills s ++ [row]), [row])
      else None
  | _, _, _, _, _ => None
  end.

(** [UPDATE bills SET bill_name = COALESCE($1, bill_name), ...,
    updated_at = $7] on one row *)
Definition edit_bill_row (bill_name : Js.text) (amount : option Q)
  (due_date recurrence : Js.text) (reminder_offset : option Q)
  (status : Js.text) (timestamp : string) (b : Bill.t) : Bill.t :=
  Bill.mk (Bill.id b) (Bill.user_id b)
    (Sql.coalesce bill_name (Bill.bill_name b))
    (Sql.coalesce amount (Bill.amount b))
    (Sql.coalesce due_date (Bill.due_date b))
    (Sql.coalesce recurrence (Bill.recurrence b))
    (Sql.coalesce reminder_offset (Bill.reminder_offset b))
    (Sql.coalesce status (Bill.status b))
    (Bill.created_at b) timestamp.

(** The UPDATE of [PUT /api/bills/:bill_id] with [RETURNING *]. *)
Definition update_bill (s : bill_store) (bill_name : Js.text)
  (amount : option Q) (due_date recurrence : Js.text)
  (reminder_offset : option Q) (status : Js.text)
  (timestamp bill_id user_id : string) : bill_store * list Bill.t :=
  let edit := edit_bill_row bill_name amount due_date recurrence
                reminder_offset status timestamp in
  (mkBills (bill_users s)
     (map (fun b => if bill_where bill_id user_id b then edit b else b)
        (bills s)),
   map edit (filter (bill_where bill_id user_id) (bills s))).

(** [DELETE FROM bills WHERE id = $1 AND user_id = $2]: no table of
    [db.sql] references [bills]. *)
Definition delete_bill_row (s : bill_store) (id user_id : string)
  : bill_store :=
  mkBills (bill_users s)
    (filter (fun b => negb (bill_where id user_id b)) (bills s)).

(** [GET /api/bills] *)
Definition get_bills (s : bill_store) (user_id : string)
  : reply (list Bill.t) :=
  Json 200 (filter (of_user user_id) (bills s)).

(** [POST /api/bills] *)
Definition post_bills (s : bill_store) (user_id : string) (b : BillBody.t)
  (id timestamp : string) : bill_store * reply (option Bill.t) :=
  if negb (Js.truthy (BillBody.bill_name b))
     || Js.is_undefined (BillBody.amount b)
     || negb (Js.truthy (BillBody.due_date b))
     || Js.is_undefined (BillBody.reminder_offset b)
  then (s, Failure 400 "Missing required fields")
  else
    match insert_bill s id user_id (BillBody.bill_name b)
            (Js.param (BillBody.amount b)) (BillBody.due_date b)
            (Js.or_else (BillBody.recurrence b) (Some "none"))
            (Js.param (BillBody.reminder_offset b)) timestamp with
    | Some (s1, rows) => (s1, Json 201 (hd_error rows))
    | None => (s, Failure 500 "Error creating bill")
    end.

(** [GET /api/bills/:bill_id] *)
Definition get_bill (s : bill_store) (user_id bill_id : string)
  : reply Bill.t :=
  match filter (bill_where bill_id user_id) (bills s) with
  | [] => Failure 404 "Bill not found"
  | row :: _ => Json 200 row
  end.

(** [PUT /api/bills/:bill_id] *)
Definition put_bill (s : bill_store) (user_id bill_id : string)
  (b : BillBody.t) (timestamp : string) : bill_store * reply Bill.t :=
  let (s1, rows) :=
    update_bill s (BillBody.bill_name b) (Js.param (BillBody.amount b))
      (BillBody.due_date b) (BillBody.recurrence b)
      (Js.param (BillBody.reminder_offset b)) (BillBody.status b) timestamp
      bill_id user_id in
  match rows with
  | [] => (s1, Failure 404 "Bill not found")
  | row :: _ => (s1, Json 200 row)
  end.

(** [DELETE /api/bills/:bill_id] *)
Definition delete_bill (s : bill_store) (user_id bill_id : string)
  : bill_store * reply unit :=
  (delete_bill_row s bill_id user_id, Sent 204).

End Bills.

(** ** Budget routes *)

Module Budget.
Record t := mk {
  id : string;
  user_id : string;
  budget_amount : Q;
  period : string;
  start_date : string;
  end_date : string;
  category_id : Js.text;
  created_at : string;
  updated_at : string
}.
End Budget.

(** The [users] and [categories] tables (ids only) and [budgets]. *)
Record budget_store := mkBudgets {
  budget_users : list string;
  budget_categories : list string;
  budgets : list Budget.t
}.

(** [req.body] of the budget routes. *)
Module BudgetBody.
Record t := mk {
  budget_amount : Js.number;
  period : Js.text;
  start_date : Js.text;
  end_date : Js.text;
  category_id : Js.text
}.
End BudgetBody.

Module Budgets.

(** [WHERE user_id = $1] *)
Definition of_user (user_id : string) (b : Budget.t) : bool :=
  String.eqb (Budget.user_id b) user_id.

(** [WHERE id = $1 AND user_id = $2] *)
Definition budget_where (id user_id : string) (b : Budget.t) : bool :=
  String.eqb (Budget.id b) id && String.eqb (Budget.user_id b) user_id.

(** [fk_budgets_category_id] on a value of the column *)
Definition category_fk (s : budget_store) (category_id : Js.text) : bool :=
  match category_id with
  | Some c => Sql.mem c (budget_categories s)
  | None => true
  end.

(** [INSERT INTO budgets (...) VALUES ($1, $2, $3, $4, $5, $6, $7, $8, $8)
    RETURNING *].  [None] when a NOT NULL column receives NULL, the
    primary key exists, or the user or the category is unknown. *)
Definition insert_budget (s : budget_store) (id user_id : string)
  (budget_amount : option Q) (period start_date end_date : Js.text)
  (category_id : Js.text) (timestamp : string)
  : option (budget_store * list Budget.t) :=
  match budget_amount, period, start_date, end_date with
  | Some a, Some p, Some sd, Some ed =>
      let row := Budget.mk id user_id a p sd ed category_id timestamp
                   timestamp in
      if negb (Sql.mem id (map Budget.id (budgets s)))
         && Sql.mem user_id (budget_users s)
         && category_fk s category_id
      then Some (mkBudgets (budget_users s) (budget_categories s)
                   (budgets s ++ [row]), [row])
      else None
  | _, _, _, _ => None
  end.

(** [UPDATE budgets SET budget_amount = COALESCE($1, budget_amount), ...,
    updated_at = $6] on one row *)
Definition edit_budget_row (budget_amount : option Q)
  (period start_date end_date category_id : Js.text) (timestamp : string)
  (b : Budget.t) : Budget.t :=
  Budget.mk (Budget.id b) (Budget.user_id b)
    (Sql.coalesce budget_amount (Budget.budget_amount b))
    (Sql.coalesce period (Budget.period b))
    (Sql.coalesce start_date (Budget.start_date b))
    (Sql.coalesce end_date (Budget.end_date b))
    (Sql.coalesce_null category_id (Budget.category_id b))
    (Budget.created_at b) timestamp.

(** The UPDATE of [PUT /api/budgets/:budget_id] with [RETURNING *]; the
    foreign key is checked again on the rows whose category changed.
    [None] when such a row names an unknown category. *)
Definition update_budget (s : budget_store) (budget_amount : option Q)
  (period start_date end_date category_id : Js.text)
  (timestamp budget_id user_id : string)
  : option (budget_store * list Budget.t) :=
  let edit := edit_budget_row budget_amount period start_date end_date
                category_id timestamp in
  let matched := filter (budget_where budget_id user_id) (budgets s) in
  if forallb
       (fun b => Sql.text_eqb (Budget.category_id b)
                   (Budget.category_id (edit b))
                 || category_fk s (Budget.category_id (edit b)))
       matched
  then Some (mkBudgets (budget_users s) (budget_categories s)
               (map (fun b => if budget_where budget_id user_id b
                              then edit b else b)
                  (budgets s)),
             map edit matched)
  else None.

(** [DELETE FROM budgets WHERE id = $1 AND user_id = $2]: no table of
    [db.sql] references [budgets]. *)
Definition delete_budget_row (s : budget_store) (id user_id : string)
  : budget_store :=
  mkBudgets (budget_users s) (budget_categories s)
    (filter (fun b => negb (budget_where id user_id b)) (budgets s)).

(** [GET /api/budgets] *)
Definition get_budgets (s : budget_store) (user_id : string)
  : reply (list Budget.t) :=
  Json 200 (filter (of_user user_id) (budgets s)).

(** [POST /api/budgets] *)
Definition post_budgets (s : budget_store) (user_id : string)
  (b : BudgetBody.t) (id timestamp : string)
  : budget_store * reply (option Budget.t) :=
  if Js.is_undefined (BudgetBody.budget_amount b)
     || negb (Js.truthy (BudgetBody.period b))
     || negb (Js.truthy (BudgetBody.start_date b))
     || negb (Js.truthy (BudgetBody.end_date b))
  then (s, Failure 400 "Missing required fields")
  else
    match insert_budget s id user_id (Js.param (BudgetBody.budget_amount b))
            (BudgetBody.period b) (BudgetBody.start_date b)
            (BudgetBody.end_date b)
            (Js.or_else (BudgetBody.category_id b) None) timestamp with
    | Some (s1, rows) => (s1, Json 201 (hd_error rows))
    | None => (s, Failure 500 "Error creating budget")
    end.

(** [GET /api/budgets/:budget_id] *)
Definition get_budget (s : budget_store) (user_id budget_id : string)
  : reply Budget.t :=
  match filter (budget_where budget_id user_id) (budgets s) with
  | [] => Failure 404 "Budget not found"
  | row :: _ => Json 200 row
  end.

(** [PUT /api/budgets/:budget_id] *)
Definition put_budget (s : budget_store) (user_id budget_id : string)
  (b : BudgetBody.t) (timestamp : string) : budget_store * reply Budget.t :=
  match update_budget s (Js.param (BudgetBody.budget_amount b))
          (BudgetBody.period b) (BudgetBody.start_date b)
          (BudgetBody.end_date b) (BudgetBody.category_id b) timestamp
          budget_id user_id with
  | Some (s1, []) => (s1, Failure 404 "Budget not found")
  | Some (s1, row :: _) => (s1, Json 200 row)
  | None => (s, Failure 500 "Error updating budget")
  end.

(** [DELETE /api/budgets/:budget_id] *)
Definition delete_budget (s : budget_store) (user_id budget_id : string)
  : budget_store * reply unit :=
  (delete_budget_row s budget_id user_id, Sent 204).

End Budgets.

(** ** The notification slice of the client store
    ([vitereact/src/store/main.tsx]) *)

Module Store.

(** [interface Notification] *)
Record Notification := mkNotification {
  id : string;
  notification_type : string;
  message : string;
  is_read : bool;
  created_at : string
}.

(** [add_notification] *)
Definition add_notification (notification : Notification)
  (state : list Notification) : list Notification :=
  state ++ [notification].

(** [mark_notification_as_read] *)
Definition mark_notification_as_read (id' : string)
  (state : list Notification) : list Notification :=
  map (fun notification =>
         if String.eqb (id notification) id'
         then mkNotification (id notification)
                (notification_type notification) (message notification)
                true (created_at notification)
         else notification)
    state.

End Store.

(** ** Vocabulary of the statements on the other routes *)

(** [fk_transactions_account_id] as a property of the state: every
    transaction row is on an account that exists. *)
Definition referential (d : db) : Prop :=
  forall r, In r (transactions d) ->
    In (Transaction.account_id r) (map Account.id (accounts d)).

(** The rows a list route sends. *)
Definition sent_rows {A : Type} (r : reply (list A)) : list A :=
  match r with
  | Json _ rows => rows
  | _ => []
  end.

(** No query parameter. *)
Definition no_filter : Filters.t := Filters.mk None None None None None.

(** The transaction rows and the account rows of one user, in table
    order. *)
Definition transactions_of (d : db) (user_id : string)
  : list Transaction.t :=
  filter (fun r => String.eqb (Transaction.user_id r) user_id)
    (transactions d).

Definition accounts_of (d : db) (user_id : string) : list Account.t :=
  filter (fun a => String.eqb (Account.user_id a) user_id) (accounts d).

(** A string without a space character. *)
Definition spaceless (s : string) : bool := negb (Js.includes s " ").

(** No two users share an id or an email: [pk_users], [uq_users_email]. *)
Definition users_unique (users : list User.t) : Prop :=
  NoDup (map User.id users) /\ NoDup (map User.email users).

(** A user has at most one row of settings. *)
Definition one_setting_each (s : settings_store) : Prop :=
  forall user_id,
    (List.length (filter (Settings.of_user user_id) (settings s)) <= 1)%nat.

(** [l'] is [l] without its elements that satisfy [P], the others in
    their order. *)
Inductive without {A : Type} (P : A -> Prop) : list A -> list A -> Prop :=
| without_nil : without P [] []
| without_drop a l l' : P a -> without P l l' -> without P (a :: l) l'
| without_keep a l l' :
    ~ P a -> without P l l' -> without P (a :: l) (a :: l').

(** [pk_accounts] *)
Definition pk_accounts (d : db) : Prop := NoDup (map Account.id (accounts d)).

(** [pk_bills], [pk_budgets] *)
Definition pk_bills (s : bill_store) : Prop := NoDup (map Bill.id (bills s)).

Definition pk_budgets (s : budget_store) : Prop :=
  NoDup (map Budget.id (budgets s)).

(** The value a column has after [COALESCE($n, column)]: the parameter
    when the body gave one, what it was otherwise. *)
Definition given_or_kept {A : Type} (given : option A) (old new : A)
  : Prop :=
  match given with
  | Some v => new = v
  | None => new = old
  end.

(** * Properties *)

(** ** Basic facts about the statements *)

Lemma mem_In (k : string) (keys : list string) :
  Sql.mem k keys = true <-> In k keys.
Proof.
  unfold Sql.mem. rewrite existsb_exists. split.
  - intros (x & Hx & E). apply String.eqb_eq in E. now subst.
  - intros H. exists k. split; [assumption | apply String.eqb_refl].
Qed.

Lemma find_account_some (d : db) (id : string) (a : Account.t) :
  find_account d id = Some a -> In a (accounts d) /\ Account.id a = id.
Proof.
  unfold find_account. intros H. apply find_some in H.
  destruct H as [Hin E]. apply String.eqb_eq in E. now split.
Qed.

Lemma find_account_mem (d : db) (id : string) :
  Sql.mem id (map Account.id (accounts d)) = true ->
  exists a, find_account d id = Some a.
Proof.
  intros H. apply mem_In in H. apply in_map_iff in H.
  destruct H as (a & E & Hin). unfold find_account.
  destruct (find _ (accounts d)) as [a'|] eqn:F; [now exists a'|].
  exfalso. apply (find_none _ _ F) in Hin. rewrite E in Hin.
  now rewrite String.eqb_refl in Hin.
Qed.

(** A balance statement rewrites the first row of every primary key in
    place. *)
Lemma find_map_account (f : Account.t -> Account.t) (l : list Account.t)
  (id : string) :
  (forall a, Account.id (f a) = Account.id a) ->
  find (fun a => String.eqb (Account.id a) id) (map f l)
  = option_map f (find (fun a => String.eqb (Account.id a) id) l).
Proof.
  intros Hid. induction l as [|a l IH]; simpl; [reflexivity|].
  rewrite Hid. destruct (String.eqb (Account.id a) id); [reflexivity|exact IH].
Qed.

Lemma credit_if_id delta timestamp id user_id a :
  Account.id (credit_if delta timestamp id user_id a) = Account.id a.
Proof. unfold credit_if. now destruct (Sql.account_where id user_id a). Qed.

Lemma find_account_add_balance (d : db) (delta : Q)
  (timestamp id user_id k : string) :
  find_account (Sql.add_balance d delta timestamp id user_id) k
  = option_map (credit_if delta timestamp id user_id) (find_account d k).
Proof.
  unfold find_account, Sql.add_balance. simpl.
  apply (find_map_account (credit_if delta timestamp id user_id)).
  intros a. apply credit_if_id.
Qed.

Lemma find_account_sub_balance (d : db) (delta : Q)
  (timestamp id user_id k : string) :
  find_account (Sql.sub_balance d delta timestamp id user_id) k
  = option_map (credit_if (- delta)%Q timestamp id user_id) (find_account d k).
Proof.
  unfold find_account, Sql.sub_balance. simpl.
  apply (find_map_account (credit_if (- delta)%Q timestamp id user_id)).
  intros a. apply credit_if_id.
Qed.


Lemma accounts_add_balance d delta timestamp id user_id :
  accounts (Sql.add_balance d delta timestamp id user_id)
  = map (credit_if delta timestamp id user_id) (accounts d).
Proof. reflexivity. Qed.

Lemma accounts_sub_balance d delta timestamp id user_id :
  accounts (Sql.sub_balance d delta timestamp id user_id)
  = map (credit_if (- delta)%Q timestamp id user_id) (accounts d).
Proof. reflexivity. Qed.

Lemma transactions_add_balance d delta timestamp id user_id :
  transactions (Sql.add_balance d delta timestamp id user_id)
  = transactions d.
Proof. reflexivity. Qed.

Lemma transactions_sub_balance d delta timestamp id user_id :
  transactions (Sql.sub_balance d delta timestamp id user_id)
  = transactions d.
Proof. reflexivity. Qed.

Lemma credit_if_hit delta timestamp id user_id a :
  Account.id a = id -> Account.user_id a = user_id ->
  credit_if delta timestamp id user_id a = Sql.credit_row delta timestamp a.
Proof.
  intros <- <-. unfold credit_if, Sql.account_where.
  now rewrite !String.eqb_refl.
Qed.

Lemma credit_if_other_id delta timestamp id user_id a :
  Account.id a <> id -> credit_if delta timestamp id user_id a = a.
Proof.
  intros N. unfold credit_if, Sql.account_where.
  apply String.eqb_neq in N. now rewrite N.
Qed.

(** ** What a create does *)

Lemma missing_required_dec (b : Body.transaction) :
  (negb (Js.truthy (Body.account_id b))
   || negb (Js.truthy (Body.date b))
   || Js.is_undefined (Body.amount b)
   || negb (Js.truthy (Body.transaction_type b))) = true
  <-> missing_required b.
Proof.
  unfold missing_required.
  rewrite !orb_true_iff, !negb_true_iff.
  assert (U : Js.is_undefined (Body.amount b) = true
              <-> Body.amount b = Js.Undefined).
  { destruct (Body.amount b); simpl; split; congruence. }
  rewrite U. tauto.
Qed.

(** The three outcomes of [POST /api/transactions]. *)
Lemma post_transactions_cases (d : db) (user_id : string)
  (b : Body.transaction) (id timestamp : string) :
  let r := Server.post_transactions d user_id b id timestamp in
  (missing_required b /\ r = (d, bad_request))
  \/ (~ missing_required b /\ r = (d, create_failed)
      /\ (Body.amount b = Js.Null
          \/ Sql.mem id (map Transaction.id (transactions d)) = true
          \/ exists account_id amount,
               Body.account_id b = Some account_id
               /\ Body.amount b = Js.Num amount
               /\ Sql.transaction_fk d
                    (created_row d user_id b id timestamp account_id amount)
                  = false))
  \/ (exists account_id amount,
        let row := created_row d user_id b id timestamp account_id amount in
        ~ missing_required b
        /\ Body.account_id b = Some account_id
        /\ Body.amount b = Js.Num amount
        /\ Sql.mem id (map Transaction.id (transactions d)) = false
        /\ Sql.transaction_fk d row = true
        /\ r = (Sql.add_balance
                  (set_transactions d (transactions d ++ [row]))
                  amount timestamp account_id user_id,
                mkResponse 201 (TransactionRow (Some row)))).
Proof.
  intros r. subst r. unfold Server.post_transactions.
  destruct (negb (Js.truthy (Body.account_id b)) || _ || _ || _) eqn:V.
  - left. split; [now apply missing_required_dec | reflexivity].
  - assert (NM : ~ missing_required b).
    { intros M. apply missing_required_dec in M. congruence. }
    right.
    rewrite !orb_false_iff, !negb_false_iff in V.
    destruct V as [[[Va Vd] Vu] Vt].
    destruct (Body.account_id b) as [account_id|] eqn:Ea; [|discriminate].
    destruct (Body.date b) as [dt|] eqn:Ed; [|discriminate].
    destruct (Body.transaction_type b) as [ty|] eqn:Et; [|discriminate].
    destruct (Body.amount b) as [| |amount] eqn:Em; [discriminate| |].
    + left. simpl. repeat split; auto.
    + assert (Er : exists rc,
                 Js.or_else (Body.recurrence b) (Some "none"%string) = Some rc).
      { unfold Js.or_else.
        destruct (Js.truthy (Body.recurrence b)) eqn:T; [|now eexists].
        destruct (Body.recurrence b); [now eexists | discriminate]. }
      destruct Er as [rc Er].
      unfold Sql.insert_transaction. simpl Js.param. cbv iota beta.
      rewrite Er.
      assert (Erow : Transaction.mk id user_id account_id dt amount ty
                       (Js.or_else (Body.description b) (Some ""%string))
                       (Js.or_else (Server.auto_category d b) None)
                       rc timestamp timestamp
                     = created_row d user_id b id timestamp account_id amount).
      { unfold created_row. now rewrite Ed, Et, Er. }
      rewrite Erow.
      destruct (Sql.mem id (map Transaction.id (transactions d))) eqn:Pk;
        simpl negb; cbv iota beta.
      * left. repeat split; auto.
      * rewrite andb_true_l.
        destruct (Sql.transaction_fk d _) eqn:Fk.
        -- right. exists account_id, amount. repeat split; auto.
        -- left. repeat split; auto. right. right.
           exists account_id, amount. repeat split; auto.
Qed.

(** ** Sums over the transaction table *)

Lemma tx_sum_nil k : tx_sum k [] = 0%Q.
Proof. reflexivity. Qed.

Lemma tx_sum_cons k r l :
  (tx_sum k (r :: l) == contribution r k + tx_sum k l)%Q.
Proof.
  unfold tx_sum, contribution. simpl.
  destruct (String.eqb (Transaction.account_id r) k); simpl; lra.
Qed.

Lemma tx_sum_app k l1 l2 :
  (tx_sum k (l1 ++ l2) == tx_sum k l1 + tx_sum k l2)%Q.
Proof.
  induction l1 as [|r l1 IH]; cbn [app].
  - rewrite tx_sum_nil. lra.
  - pose proof (tx_sum_cons k r (l1 ++ l2)) as A.
    pose proof (tx_sum_cons k r l1) as B. lra.
Qed.

Section OneRow.

(** Under the primary key, [WHERE id = $1 AND user_id = $2] selects at most
    one row: the table splits around it. *)
Variables (id user_id : string) (old : Transaction.t).
Variable rows : list Transaction.t.
Hypothesis pk : NoDup (map Transaction.id rows).
Hypothesis old_in : In old rows.
Hypothesis old_id : Transaction.id old = id.
Hypothesis old_user : Transaction.user_id old = user_id.

Lemma where_old : Sql.transaction_where id user_id old = true.
Proof.
  unfold Sql.transaction_where. rewrite old_id, old_user.
  now rewrite !String.eqb_refl.
Qed.

Lemma split_at_old :
  exists l1 l2, rows = l1 ++ old :: l2
    /\ forall r, In r (l1 ++ l2) -> Sql.transaction_where id user_id r = false.
Proof.
  destruct (in_split _ _ old_in) as (l1 & l2 & E).
  exists l1, l2. split; [exact E|].
  intros r Hr. unfold Sql.transaction_where.
  destruct (String.eqb (Transaction.id r) id) eqn:Q; [|reflexivity].
  exfalso. apply String.eqb_eq in Q.
  rewrite E, map_app in pk. simpl in pk.
  apply NoDup_remove_2 in pk. apply pk.
  rewrite <- map_app, old_id, <- Q. now apply in_map.
Qed.

Lemma filter_none (f : Transaction.t -> bool) (l : list Transaction.t) :
  (forall r, In r l -> f r = false) -> filter f l = [].
Proof.
  induction l as [|r l IH]; simpl; intros H; [reflexivity|].
  rewrite (H r (or_introl eq_refl)). apply IH. intros; apply H; now right.
Qed.

Lemma filter_all (f : Transaction.t -> bool) (l : list Transaction.t) :
  (forall r, In r l -> f r = true) -> filter f l = l.
Proof.
  induction l as [|r l IH]; simpl; intros H; [reflexivity|].
  rewrite (H r (or_introl eq_refl)). f_equal. apply IH.
  intros; apply H; now right.
Qed.

Lemma map_untouched (f : Transaction.t -> bool)
  (g : Transaction.t -> Transaction.t) (l : list Transaction.t) :
  (forall r, In r l -> f r = false) ->
  map (fun r => if f r then g r else r) l = l.
Proof.
  induction l as [|r l IH]; simpl; intros H; [reflexivity|].
  rewrite (H r (or_introl eq_refl)). f_equal. apply IH.
  intros; apply H; now right.
Qed.

Lemma select_one :
  filter (Sql.transaction_where id user_id) rows = [old].
Proof.
  destruct split_at_old as (l1 & l2 & E & N). rewrite E.
  rewrite filter_app. simpl. rewrite where_old.
  rewrite !filter_none; [reflexivity | |];
    intros r Hr; apply N, in_or_app; auto.
Qed.

Lemma delete_one :
  exists l1 l2, rows = l1 ++ old :: l2
    /\ filter (fun r => negb (Sql.transaction_where id user_id r)) rows
       = l1 ++ l2.
Proof.
  destruct split_at_old as (l1 & l2 & E & N). exists l1, l2.
  split; [exact E|]. rewrite E.
  rewrite filter_app. simpl. rewrite where_old. simpl.
  rewrite !filter_all; [reflexivity | |];
    intros r Hr; rewrite N; auto; apply in_or_app; auto.
Qed.

Lemma update_one (g : Transaction.t -> Transaction.t) :
  exists l1 l2, rows = l1 ++ old :: l2
    /\ map (fun r => if Sql.transaction_where id user_id r then g r else r)
         rows = l1 ++ g old :: l2.
Proof.
  destruct split_at_old as (l1 & l2 & E & N). exists l1, l2.
  split; [exact E|]. rewrite E.
  rewrite map_app. simpl. rewrite where_old.
  rewrite !map_untouched; [reflexivity | |];
    intros r Hr; apply N, in_or_app; auto.
Qed.

Lemma tx_sum_delete k :
  (tx_sum k (filter (fun r => negb (Sql.transaction_where id user_id r)) rows)
   == tx_sum k rows - contribution old k)%Q.
Proof.
  destruct delete_one as (l1 & l2 & E & F). rewrite F, E.
  pose proof (tx_sum_app k l1 l2) as A.
  pose proof (tx_sum_app k l1 (old :: l2)) as B.
  pose proof (tx_sum_cons k old l2) as C. lra.
Qed.

Lemma tx_sum_update (g : Transaction.t -> Transaction.t) k :
  (tx_sum k
     (map (fun r => if Sql.transaction_where id user_id r then g r else r)
        rows)
   == tx_sum k rows - contribution old k + contribution (g old) k)%Q.
Proof.
  destruct (update_one g) as (l1 & l2 & E & F). rewrite F, E.
  pose proof (tx_sum_app k l1 (g old :: l2)) as A.
  pose proof (tx_sum_app k l1 (old :: l2)) as B.
  pose proof (tx_sum_cons k old l2) as C.
  pose proof (tx_sum_cons k (g old) l2) as D. lra.
Qed.

End OneRow.

(** ** What a delete and an update do *)


Lemma select_something (d : db) (user_id id : string) (r : Transaction.t)
  (rest : list Transaction.t) :
  Sql.select_transaction d id user_id = r :: rest ->
  In r (transactions d) /\ Transaction.id r = id
  /\ Transaction.user_id r = user_id.
Proof.
  intros S. assert (H : In r (Sql.select_transaction d id user_id)).
  { rewrite S. now left. }
  unfold Sql.select_transaction in H. apply filter_In in H.
  destruct H as [Hin W]. unfold Sql.transaction_where in W.
  apply andb_true_iff in W. destruct W as [W1 W2].
  apply String.eqb_eq in W1, W2. auto.
Qed.

(** Case analysis on the SELECT of the update and delete routes: no row, or
    a first row [old] of the caller with the id asked for. *)
Ltac on_select d tid user_id :=
  destruct (Sql.select_transaction d tid user_id) as [|old rest] eqn:S;
  [|pose proof (select_something _ _ _ _ _ S) as (Hin & Hid & Hu)].

Section Found.

Variables (d : db) (user_id id : string) (old : Transaction.t).
Hypothesis pk : pk_transactions d.
Hypothesis old_in : In old (transactions d).
Hypothesis old_id : Transaction.id old = id.
Hypothesis old_user : Transaction.user_id old = user_id.

Lemma select_found : Sql.select_transaction d id user_id = [old].
Proof. now apply select_one. Qed.

Lemma delete_transaction_found (timestamp : string) :
  Server.delete_transaction d user_id id timestamp
  = (Sql.add_balance (Sql.delete_transaction d id user_id)
       (Numeric.negation (Transaction.amount old)) timestamp
       (Transaction.account_id old) user_id,
     mkResponse 204 NoContent).
Proof.
  unfold Server.delete_transaction. now rewrite select_found.
Qed.

Lemma update_transaction_found (b : Body.transaction) (timestamp : string) :
  Sql.update_transaction d (Body.account_id b) (Body.date b)
    (Js.param (Body.amount b)) (Body.transaction_type b)
    (Body.description b) (Body.category_id b) (Body.recurrence b)
    timestamp id user_id
  = if Sql.transaction_fk_update d old (edited b timestamp old)
    then Some (set_transactions d
                 (map (fun r => if Sql.transaction_where id user_id r
                                then edited b timestamp r else r)
                    (transactions d)),
               [edited b timestamp old])
    else None.
Proof.
  unfold Sql.update_transaction.
  fold (Sql.select_transaction d id user_id). rewrite select_found.
  simpl. fold (edited b timestamp old). rewrite andb_true_r.
  reflexivity.
Qed.

Lemma put_transaction_found (b : Body.transaction) (timestamp : string) :
  let new := edited b timestamp old in
  let d1 := set_transactions d
              (map (fun r => if Sql.transaction_where id user_id r
                             then edited b timestamp r else r)
                 (transactions d)) in
  Server.put_transaction d user_id id b timestamp
  = if Sql.transaction_fk_update d old new
    then
      (if moves b old
       then Sql.add_balance
              (Sql.sub_balance d1 (Transaction.amount old) timestamp
                 (Transaction.account_id old) user_id)
              (Transaction.amount new) timestamp (Transaction.account_id new)
              user_id
       else Sql.add_balance d1
              (Numeric.difference (Transaction.amount new)
                 (Transaction.amount old)) timestamp
              (Transaction.account_id old) user_id,
       mkResponse 200 (TransactionRow (Some new)))
    else (d, update_failed).
Proof.
  intros new d1. unfold Server.put_transaction.
  rewrite select_found, update_transaction_found.
  fold new. fold d1.
  destruct (Sql.transaction_fk_update d old new); [|reflexivity].
  unfold moves. simpl hd_error. cbv iota beta.
  destruct (Body.account_id b) as [a|] eqn:Ea; [|reflexivity].
  destruct (Js.truthy (Some a) && negb (String.eqb a _)); [|reflexivity].
  subst new. unfold edited, Sql.edit_transaction_row. rewrite Ea. reflexivity.
Qed.

End Found.

(** ** Record and balance move together on the caller's accounts *)

Lemma Forall2_map_self {A : Type} (P : A -> A -> Prop) (f : A -> A)
  (l : list A) :
  (forall a, In a l -> P a (f a)) -> Forall2 P l (map f l).
Proof.
  induction l as [|a l IH]; simpl; intros H; constructor.
  - apply H. now left.
  - apply IH. intros; apply H; now right.
Qed.

Lemma paired_refl (d : db) : paired d d.
Proof.
  unfold paired. rewrite <- (map_id (accounts d)) at 2.
  apply Forall2_map_self. intros a _. repeat split; lra.
Qed.

(** The effect of a balance statement on a row whose key, if it is the
    statement's, is the caller's. *)
Lemma credit_if_owned (delta : Q) (timestamp k user_id : string)
  (a : Account.t) :
  (Account.id a = k -> Account.user_id a = user_id) ->
  let a' := credit_if delta timestamp k user_id a in
  Account.id a' = Account.id a
  /\ Account.user_id a' = Account.user_id a
  /\ Account.initial_balance a' = Account.initial_balance a
  /\ (Account.current_balance a'
      == Account.current_balance a
         + (if String.eqb k (Account.id a) then delta else 0))%Q.
Proof.
  intros O a'. subst a'.
  destruct (String.eqb_spec k (Account.id a)) as [E|N].
  - rewrite credit_if_hit;
      [simpl; repeat split; reflexivity | now symmetry | apply O; now symmetry].
  - rewrite credit_if_other_id; [repeat split; lra | congruence].
Qed.

Lemma paired_create (d : db) (user_id account_id timestamp : string)
  (amount : Q) (row : Transaction.t) :
  owns d user_id account_id ->
  Transaction.account_id row = account_id ->
  Transaction.amount row = amount ->
  paired d
    (Sql.add_balance (set_transactions d (transactions d ++ [row]))
       amount timestamp account_id user_id).
Proof.
  intros O Ea Em. unfold paired.
  rewrite accounts_add_balance, transactions_add_balance.
  cbn [accounts transactions set_transactions].
  apply Forall2_map_self. intros a Ha.
  destruct (credit_if_owned amount timestamp account_id user_id a)
    as (I & U & N & C); [now apply O|].
  repeat split; auto.
  pose proof (tx_sum_app (Account.id a) (transactions d) [row]) as A.
  pose proof (tx_sum_cons (Account.id a) row []) as B.
  rewrite tx_sum_nil in B. unfold contribution in B. rewrite Ea, Em in B.
  destruct (String.eqb account_id (Account.id a)); lra.
Qed.

Section PairedFound.

Variables (d : db) (user_id id : string) (old : Transaction.t).
Hypothesis pk : pk_transactions d.
Hypothesis old_in : In old (transactions d).
Hypothesis old_id : Transaction.id old = id.
Hypothesis old_user : Transaction.user_id old = user_id.
Hypothesis old_owned : owns d user_id (Transaction.account_id old).

Lemma paired_delete (timestamp : string) :
  exact_negation (Transaction.amount old) ->
  paired d (fst (Server.delete_transaction d user_id id timestamp)).
Proof.
  intros [_ X].
  rewrite (delete_transaction_found d user_id id old); auto.
  unfold paired. cbn [fst].
  rewrite accounts_add_balance, transactions_add_balance.
  unfold Sql.delete_transaction. cbn [accounts transactions set_transactions].
  apply Forall2_map_self. intros a Ha.
  destruct (credit_if_owned (Numeric.negation (Transaction.amount old))
              timestamp (Transaction.account_id old) user_id a)
    as (I & U & N & C); [now apply old_owned|].
  repeat split; auto.
  pose proof (tx_sum_delete id user_id old (transactions d) pk old_in old_id
                old_user (Account.id a)) as T.
  unfold contribution in T.
  destruct (String.eqb (Transaction.account_id old) (Account.id a)); lra.
Qed.

Lemma moved_account (b : Body.transaction) (timestamp : string) :
  Body.account_id b <> Some ""%string ->
  Transaction.account_id (edited b timestamp old)
  = if moves b old
    then Sql.coalesce (Body.account_id b) ""%string
    else Transaction.account_id old.
Proof.
  intros NE. unfold moves, edited. simpl.
  destruct (Body.account_id b) as [a|]; simpl; [|reflexivity].
  destruct (String.eqb_spec a ""%string) as [->|_]; [congruence|].
  simpl. destruct (String.eqb_spec a (Transaction.account_id old)); auto.
Qed.

Lemma paired_update (b : Body.transaction) (timestamp : string) :
  Body.account_id b <> Some ""%string ->
  (forall k, Body.account_id b = Some k -> owns d user_id k) ->
  (moves b old = false ->
   exact_difference (Transaction.amount (edited b timestamp old))
     (Transaction.amount old)) ->
  paired d (fst (Server.put_transaction d user_id id b timestamp)).
Proof.
  intros NE NO X.
  rewrite (put_transaction_found d user_id id old); auto.
  cbv zeta.
  destruct (Sql.transaction_fk_update d old (edited b timestamp old));
    [|apply paired_refl].
  pose proof (moved_account b timestamp NE) as M.
  set (new := edited b timestamp old) in *.
  destruct (moves b old) eqn:Mv; unfold paired; cbn [fst].
  - rewrite accounts_add_balance, accounts_sub_balance,
      transactions_add_balance, transactions_sub_balance.
    cbn [accounts transactions set_transactions].
    rewrite map_map. apply Forall2_map_self. intros a Ha.
    set (a1 := credit_if (- Transaction.amount old)%Q timestamp
                 (Transaction.account_id old) user_id a).
    destruct (credit_if_owned (- Transaction.amount old)%Q timestamp
                (Transaction.account_id old) user_id a)
      as (I & U & N & C); [now apply old_owned|]. fold a1 in I, U, N, C.
    assert (On : owns d user_id (Transaction.account_id new)).
    { apply NO. rewrite M. unfold moves in Mv.
      destruct (Body.account_id b); [reflexivity|discriminate]. }
    destruct (credit_if_owned (Transaction.amount new) timestamp
                (Transaction.account_id new) user_id a1)
      as (I' & U' & N' & C').
    { rewrite I, U. now apply On. }
    repeat split; try congruence.
    rewrite I in C'.
    pose proof (tx_sum_update id user_id old (transactions d) pk old_in
                  old_id old_user (edited b timestamp) (Account.id a)) as T.
    fold new in T. unfold contribution in T.
    destruct (String.eqb (Transaction.account_id old) (Account.id a));
      destruct (String.eqb (Transaction.account_id new) (Account.id a)); lra.
  - destruct (X eq_refl) as [_ D].
    rewrite accounts_add_balance, transactions_add_balance.
    cbn [accounts transactions set_transactions].
    apply Forall2_map_self. intros a Ha.
    destruct (credit_if_owned
                (Numeric.difference (Transaction.amount new)
                   (Transaction.amount old)) timestamp
                (Transaction.account_id old) user_id a)
      as (I & U & N & C); [now apply old_owned|].
    repeat split; auto.
    pose proof (tx_sum_update id user_id old (transactions d) pk old_in
                  old_id old_user (edited b timestamp) (Account.id a)) as T.
    fold new in T. unfold contribution in T. rewrite M in T.
    destruct (String.eqb (Transaction.account_id old) (Account.id a)); lra.
Qed.

End PairedFound.

(** ** Failures of a create *)

Lemma fk_needs_account d user_id b id timestamp account_id amount :
  Sql.transaction_fk d
    (created_row d user_id b id timestamp account_id amount) = true ->
  Sql.mem account_id (map Account.id (accounts d)) = true.
Proof.
  unfold Sql.transaction_fk. simpl. rewrite !andb_true_iff. tauto.
Qed.

Lemma post_transactions_missing d user_id b id timestamp :
  missing_required b ->
  Server.post_transactions d user_id b id timestamp = (d, bad_request).
Proof.
  intros M.
  destruct (post_transactions_cases d user_id b id timestamp)
    as [[_ E]|[[N _]|(k & z & N & _)]]; tauto.
Qed.

Lemma post_transactions_absent d user_id b id timestamp :
  ~ missing_required b -> account_absent d b ->
  Server.post_transactions d user_id b id timestamp = (d, create_failed).
Proof.
  intros NM A.
  destruct (post_transactions_cases d user_id b id timestamp)
    as [[M _]|[(_ & E & _)|(k & z & _ & Ek & _ & _ & Fk & _)]];
    [tauto | exact E | exfalso].
  apply fk_needs_account, find_account_mem in Fk. destruct Fk as [a Fk].
  rewrite (A k Ek) in Fk. discriminate.
Qed.

Lemma post_transactions_unchanged d user_id b id timestamp :
  status (snd (Server.post_transactions d user_id b id timestamp)) <> 201 ->
  fst (Server.post_transactions d user_id b id timestamp) = d.
Proof.
  destruct (post_transactions_cases d user_id b id timestamp)
    as [[_ E]|[(_ & E & _)|(k & z & _ & _ & _ & _ & _ & E)]];
    rewrite E; simpl; congruence.
Qed.

Lemma post_transactions_status d user_id b id timestamp :
  let s := status (snd (Server.post_transactions d user_id b id timestamp)) in
  s = 400 \/ s = 500 \/ s = 201.
Proof.
  destruct (post_transactions_cases d user_id b id timestamp)
    as [[_ E]|[(_ & E & _)|(k & z & _ & _ & _ & _ & _ & E)]];
    cbv zeta; rewrite E; simpl; auto.
Qed.

(** ** Deciding the ledger invariant *)

Lemma ledger_invariantb_spec (d : db) :
  ledger_invariantb d = true <-> ledger_invariant d.
Proof.
  unfold ledger_invariantb, ledger_invariant, balanced.
  rewrite forallb_forall, Forall_forall.
  split; intros H a Ha; specialize (H a Ha); now apply Qeq_bool_iff.
Qed.

(** ** Claims on creation *)

(** C1, at the failing input.  From a database in which the ledger
    invariant holds, user1 creates a transaction of 100.00 on
    [acct1_user2], an account of user2.  The route answers 201 and stores
    the row, the balance statement matches no row, and the account is left
    with [current_balance = 2000.00] against an initial balance plus
    transactions of 2100.00: the invariant no longer holds. *)
Theorem foreign_create_breaks_ledger :
  let d := Sample.opened in
  let r := Server.post_transactions d "user1"
             (Sample.entry "acct1_user2" 100 "Refund") "tx1" Sample.ts1 in
  ledger_invariant d
  /\ status (snd r) = 201
  /\ (exists a, find_account (fst r) "acct1_user2" = Some a
        /\ Account.user_id a = "user2"%string
        /\ Account.current_balance a = 2000%Q
        /\ (Account.initial_balance a
            + tx_sum "acct1_user2" (transactions (fst r)) = 2100)%Q)
  /\ ~ ledger_invariant (fst r).
Proof.
  cbv zeta. split; [|split; [|split]].
  - apply ledger_invariantb_spec. vm_compute. reflexivity.
  - vm_compute. reflexivity.
  - eexists. split; [vm_compute; reflexivity|]. vm_compute. auto.
  - rewrite <- ledger_invariantb_spec. vm_compute. discriminate.
Qed.

(** C2, at the failing input.  The create of user1 on [acct1_user2], an
    account of user2, persists the transaction row while no account row
    changes: one effect of the write without the other. *)
Lemma foreign_create_is_partial :
  let d := Sample.opened in
  let r := Server.post_transactions d "user1"
             (Sample.entry "acct1_user2" 100 "Refund") "tx1" Sample.ts1 in
  find_account d "acct1_user2"
  = Some (Account.mk "acct1_user2" "user2" "Checking" "checking" 2000
            2000 "USD" Sample.ts0 Sample.ts0)
  /\ map Transaction.id (transactions d) = []
  /\ map Transaction.id (transactions (fst r)) = ["tx1"%string]
  /\ accounts (fst r) = accounts d.
Proof. vm_compute. repeat split; reflexivity. Qed.

Lemma handle_paired (d : db) (user_id : string) (q : request)
  (timestamp : string) :
  pk_transactions d ->
  (forall k, In k (named_accounts d user_id q) -> owns d user_id k) ->
  well_named q ->
  exact_request d user_id q ->
  paired d (fst (handle d user_id q timestamp)).
Proof.
  intros pk O W X. destruct q as [b id|tid b|tid]; simpl handle.
  - destruct (post_transactions_cases d user_id b id timestamp)
      as [[_ E]|[(_ & E & _)|(k & z & _ & Ek & _ & _ & _ & E)]];
      rewrite E; [apply paired_refl | apply paired_refl |].
    apply paired_create; [|reflexivity|reflexivity].
    apply O. simpl. rewrite Ek. now left.
  - on_select d tid user_id.
    + unfold Server.put_transaction. rewrite S. apply paired_refl.
    + apply (paired_update d user_id tid old); auto.
      * apply O. simpl. rewrite S. now left.
      * intros k Ek. apply O. simpl. apply in_or_app. right.
        rewrite Ek. now left.
      * intros Mv. apply (X old); [|exact Mv].
        simpl. rewrite S. now left.
  - on_select d tid user_id.
    + unfold Server.delete_transaction. rewrite S. apply paired_refl.
    + apply (paired_delete d user_id tid old); auto.
      * apply O. simpl. rewrite S. now left.
      * apply (X old). rewrite S. now left.
Qed.

Lemma handle_unchanged (d : db) (user_id : string) (q : request)
  (timestamp : string) :
  pk_transactions d ->
  succeeded (snd (handle d user_id q timestamp)) = false ->
  fst (handle d user_id q timestamp) = d.
Proof.
  intros pk. destruct q as [b id|tid b|tid]; simpl handle.
  - intros F. apply post_transactions_unchanged. intros E.
    unfold succeeded in F. rewrite E in F. discriminate.
  - on_select d tid user_id.
    + unfold Server.put_transaction. now rewrite S.
    + rewrite (put_transaction_found d user_id tid old); auto. cbv zeta.
      destruct (Sql.transaction_fk_update _ _ _); [discriminate|reflexivity].
  - on_select d tid user_id.
    + unfold Server.delete_transaction. now rewrite S.
    + rewrite (delete_transaction_found d user_id tid old); auto.
      discriminate.
Qed.

Lemma Forall2_In_r {A : Type} (P : A -> A -> Prop) (l l' : list A) (y : A) :
  Forall2 P l l' -> In y l' -> exists x, In x l /\ P x y.
Proof.
  induction 1 as [|x y' l l' Hp _ IH]; intros Hin; [destruct Hin|].
  destruct Hin as [<-|Hin].
  - exists x. split; [now left | exact Hp].
  - destruct (IH Hin) as (x' & Hx & Hp'). exists x'. split; [now right|exact Hp'].
Qed.

Lemma Forall2_In_l {A : Type} (P : A -> A -> Prop) (l l' : list A) (x : A) :
  Forall2 P l l' -> In x l -> exists y, In y l' /\ P x y.
Proof.
  induction 1 as [|x' y l l' Hp _ IH]; intros Hin; [destruct Hin|].
  destruct Hin as [<-|Hin].
  - exists y. split; [now left | exact Hp].
  - destruct (IH Hin) as (y' & Hy & Hp'). exists y'. split; [now right|exact Hp'].
Qed.

Lemma paired_unordered (d d' : db) : paired d d' -> paired_rows d d'.
Proof.
  intros P. split.
  - intros a Ha. exact (Forall2_In_l _ _ _ _ P Ha).
  - intros a' Ha'. exact (Forall2_In_r _ _ _ _ P Ha').
Qed.

(** X30.  When the accounts a transaction write refers to are absent or
    belong to the caller and the Number arithmetic of the write is exact,
    the write is all or nothing: a response other than 2xx leaves the
    database as it was, a create on an absent account leaves the database
    as it was, and in every case each account balance moves by exactly the
    change of the sum of the transactions on that account. *)
Theorem writes_are_paired (d : db) (user_id : string) (q : request)
  (timestamp : string) :
  pk_transactions d ->
  (forall k, In k (named_accounts d user_id q) -> owns d user_id k) ->
  well_named q ->
  exact_request d user_id q ->
  let r := handle d user_id q timestamp in
  (succeeded (snd r) = false -> fst r = d)
  /\ (forall b id, q = Create b id -> account_absent d b -> fst r = d)
  /\ paired_rows d (fst r).
Proof.
  intros pk O W X r. subst r. split; [|split].
  - now apply handle_unchanged.
  - intros b id -> A. simpl handle.
    destruct (post_transactions_cases d user_id b id timestamp)
      as [[_ E]|[(_ & E & _)|(k & z & NM & _)]];
      [now rewrite E | now rewrite E |].
    now rewrite post_transactions_absent.
  - now apply paired_unordered, handle_paired.
Qed.

(** C3, counterexample.  A create on another user's account answers 201
    and stores the row; a create on an account that does not exist answers
    500, not 404. *)
Lemma create_never_answers_not_found :
  let d := Sample.opened in
  let foreign := Server.post_transactions d "user1"
                   (Sample.entry "acct1_user2" 100 "Refund") "tx1"
                   Sample.ts1 in
  let absent := Server.post_transactions d "user1"
                  (Sample.entry "acct9" 100 "Refund") "tx1" Sample.ts1 in
  (status (snd foreign) = 201
   /\ map Transaction.account_id (transactions (fst foreign))
      = ["acct1_user2"%string])
  /\ find_account d "acct9" = None
  /\ absent = (d, create_failed).
Proof. vm_compute. repeat split; reflexivity. Qed.

(** C3, as amended.  CreateTransaction answers 400 when a required field
    (account, date, amount, type) is missing and 500 when the fields are
    there but the referenced account does not exist; it never answers 404;
    and whenever it does not answer 201 the database is as it was, so no
    transaction is persisted. *)
Theorem create_failures (d : db) (user_id : string) (b : Body.transaction)
  (id timestamp : string) :
  let r := Server.post_transactions d user_id b id timestamp in
  (missing_required b -> r = (d, bad_request))
  /\ (~ missing_required b -> account_absent d b -> r = (d, create_failed))
  /\ status (snd r) <> 404
  /\ (status (snd r) <> 201 -> fst r = d).
Proof.
  cbv zeta. split; [|split; [|split]].
  - apply post_transactions_missing.
  - apply post_transactions_absent.
  - destruct (post_transactions_status d user_id b id timestamp)
      as [E|[E|E]]; rewrite E; discriminate.
  - apply post_transactions_unchanged.
Qed.

Lemma writes_are_paired_witness :
  let d := fst (Server.post_transactions Sample.opened "user1"
                  (Sample.entry "acct1_user1" (-50) "Grocery shopping")
                  "tx1" Sample.ts1) in
  let q := Update "tx1" (Sample.reprice (-75)) in
  paired_rows d (fst (handle d "user1" q Sample.ts2)).
Proof.
  intros d q.
  apply (writes_are_paired d "user1" q Sample.ts2).
  - repeat constructor. intros [].
  - intros k [<-|[]] a Ha Hid. vm_compute in Ha.
    destruct Ha as [<-|[<-|[<-|[]]]]; [reflexivity|discriminate|discriminate].
  - discriminate.
  - intros old [<-|[]] _. split; vm_compute; reflexivity.
Defined.

Lemma create_failures_witness :
  let d := Sample.opened in
  let undated := Body.mkTransaction (Some "acct1_user1"%string) None
                   (Js.Num (-50)) (Some "expense"%string) None None None in
  let nowhere := Sample.entry "acct9" (-50) "Starbucks coffee run" in
  Server.post_transactions d "user1" undated "tx1" Sample.ts1
  = (d, bad_request)
  /\ Server.post_transactions d "user1" nowhere "tx1" Sample.ts1
     = (d, create_failed).
Proof.
  intros d undated nowhere. split.
  - apply (create_failures d "user1" undated "tx1" Sample.ts1).
    right. left. reflexivity.
  - apply (create_failures d "user1" nowhere "tx1" Sample.ts1).
    + intros [M|[M|[M|M]]]; discriminate.
    + intros k E. injection E as <-. reflexivity.
Defined.

(** ** Claims on deletion *)

Lemma find_account_credited (d : db) (delta : Q) (timestamp k user_id : string)
  (a : Account.t) :
  find_account d k = Some a -> Account.user_id a = user_id ->
  find_account (Sql.add_balance d delta timestamp k user_id) k
  = Some (Sql.credit_row delta timestamp a).
Proof.
  intros F U. rewrite find_account_add_balance, F. simpl.
  apply find_account_some in F. destruct F as [_ E].
  now rewrite credit_if_hit.
Qed.

Lemma find_account_framed (d : db) (delta : Q)
  (timestamp k user_id k' : string) :
  k' <> k ->
  find_account (Sql.add_balance d delta timestamp k user_id) k'
  = find_account d k'.
Proof.
  intros N. rewrite find_account_add_balance.
  destruct (find_account d k') as [a|] eqn:F; [|reflexivity]. simpl.
  apply find_account_some in F. destruct F as [_ E].
  rewrite credit_if_other_id; congruence.
Qed.




(** ** Claims on update *)

Lemma find_account_debited (d : db) (delta : Q) (timestamp k user_id : string)
  (a : Account.t) :
  find_account d k = Some a -> Account.user_id a = user_id ->
  find_account (Sql.sub_balance d delta timestamp k user_id) k
  = Some (Sql.credit_row (- delta) timestamp a).
Proof.
  intros F U. rewrite find_account_sub_balance, F. simpl.
  apply find_account_some in F. destruct F as [_ E].
  now rewrite credit_if_hit.
Qed.

Lemma find_account_debit_framed (d : db) (delta : Q)
  (timestamp k user_id k' : string) :
  k' <> k ->
  find_account (Sql.sub_balance d delta timestamp k user_id) k'
  = find_account d k'.
Proof.
  intros N. rewrite find_account_sub_balance.
  destruct (find_account d k') as [a|] eqn:F; [|reflexivity]. simpl.
  apply find_account_some in F. destruct F as [_ E].
  rewrite credit_if_other_id; congruence.
Qed.

(** C4, at the failing input.  user1 moves a transaction of +300.00 from
    the own account [acct1_user1] to [acct1_user2], an account of user2.
    The route answers 200 and re-points the row; the old account is debited
    by 300.00 and the new account is not credited. *)
Lemma move_to_foreign_account_loses_amount :
  let d := fst (Server.post_transactions Sample.opened "user1"
                  (Sample.entry "acct1_user1" 300 "Freelance project")
                  "tx7" Sample.ts1) in
  let r := Server.put_transaction d "user1" "tx7"
             (Sample.move_to "acct1_user2") Sample.ts2 in
  status (snd r) = 200
  /\ map (fun t => (Transaction.id t, Transaction.account_id t,
                    Transaction.amount t)) (transactions (fst r))
     = [("tx7"%string, "acct1_user2"%string, 300%Q)]
  /\ balance_of d "acct1_user1" = Some 1500%Q
  /\ balance_of (fst r) "acct1_user1" = Some 1200%Q
  /\ balance_of d "acct1_user2" = Some 2000%Q
  /\ balance_of (fst r) "acct1_user2" = Some 2000%Q.
Proof. vm_compute. repeat split; reflexivity. Qed.

(** X29.  For an update that answers 200 on the transaction [old] of the
    caller (the request not naming the empty string as its account, the
    difference of a same-account update a finite Number), with [new] the
    stored row after the update:
    - if the account reference is unchanged, the balance of that account,
      when it belongs to the caller, moves by the difference of the two
      amounts as Numbers compute it, which is [amount new - amount old]
      when that subtraction is exact, and no other account changes;
    - if the account reference changed, the balance of the old account,
      when it belongs to the caller, decreases by [amount old], the balance
      of the new account, when it belongs to the caller, increases by
      [amount new], no other account changes, and when both belong to the
      caller and the amount is unchanged the sum of the two balances is
      preserved. *)
Theorem update_balances (d : db) (user_id id : string) (old : Transaction.t)
  (b : Body.transaction) (timestamp : string) :
  pk_transactions d -> In old (transactions d) ->
  Transaction.id old = id -> Transaction.user_id old = user_id ->
  Body.account_id b <> Some ""%string ->
  let r := Server.put_transaction d user_id id b timestamp in
  let new := edited b timestamp old in
  let k_old := Transaction.account_id old in
  let k_new := Transaction.account_id new in
  (k_new = k_old ->
   finite_difference (Transaction.amount new) (Transaction.amount old)) ->
  status (snd r) = 200 ->
  snd r = mkResponse 200 (TransactionRow (Some new))
  /\ In new (transactions (fst r))
  /\ (k_new = k_old ->
      (forall a, find_account d k_old = Some a ->
                 Account.user_id a = user_id ->
         exists a', find_account (fst r) k_old = Some a'
           /\ Account.current_balance a'
              = (Account.current_balance a
                 + Numeric.difference (Transaction.amount new)
                     (Transaction.amount old))%Q
           /\ (exact_difference (Transaction.amount new)
                 (Transaction.amount old) ->
               (Account.current_balance a'
                == Account.current_balance a
                   + (Transaction.amount new - Transaction.amount old))%Q))
      /\ (forall k, k <> k_old -> find_account (fst r) k = find_account d k))
  /\ (k_new <> k_old ->
      (forall a, find_account d k_old = Some a ->
                 Account.user_id a = user_id ->
         exists a', find_account (fst r) k_old = Some a'
           /\ Account.current_balance a'
              = (Account.current_balance a - Transaction.amount old)%Q)
      /\ (forall a, find_account d k_new = Some a ->
                    Account.user_id a = user_id ->
            exists a', find_account (fst r) k_new = Some a'
              /\ Account.current_balance a'
                 = (Account.current_balance a + Transaction.amount new)%Q)
      /\ (forall k, k <> k_old -> k <> k_new ->
            find_account (fst r) k = find_account d k)
      /\ (forall a_old a_new,
            find_account d k_old = Some a_old ->
            Account.user_id a_old = user_id ->
            find_account d k_new = Some a_new ->
            Account.user_id a_new = user_id ->
            Transaction.amount new = Transaction.amount old ->
            exists a_old' a_new',
              find_account (fst r) k_old = Some a_old'
              /\ find_account (fst r) k_new = Some a_new'
              /\ (Account.current_balance a_old'
                  + Account.current_balance a_new'
                  == Account.current_balance a_old
                     + Account.current_balance a_new)%Q)).
Proof.
  intros pk Hin Hid Hu NE r new k_old k_new _. subst r.
  rewrite (put_transaction_found d user_id id old); auto. cbv zeta.
  fold new. fold k_old. fold k_new.
  destruct (Sql.transaction_fk_update d old new); [|discriminate].
  intros _. cbn [fst snd].
  pose proof (moved_account old b timestamp NE) as M.
  fold new in M. fold k_new in M. fold k_old in M.
  set (d1 := set_transactions d _).
  assert (In1 : In new (transactions d1)).
  { unfold d1. cbn [transactions set_transactions].
    destruct (update_one id user_id old (transactions d) pk Hin Hid Hu
                (edited b timestamp)) as (l1 & l2 & _ & E).
    rewrite E. apply in_or_app. right. now left. }
  assert (F1 : forall k, find_account d1 k = find_account d k)
    by reflexivity.
  split; [reflexivity|].
  destruct (moves b old) eqn:Mv.
  - assert (N : k_new <> k_old).
    { rewrite M. unfold moves in Mv.
      destruct (Body.account_id b) as [x|]; [|discriminate]. simpl.
      apply andb_true_iff in Mv. destruct Mv as [_ Mv].
      apply negb_true_iff, String.eqb_neq in Mv. exact Mv. }
    assert (Ho : forall a, find_account d k_old = Some a ->
                   Account.user_id a = user_id ->
                   find_account
                     (Sql.add_balance
                        (Sql.sub_balance d1 (Transaction.amount old)
                           timestamp k_old user_id)
                        (Transaction.amount new) timestamp k_new user_id)
                     k_old
                   = Some (Sql.credit_row (- Transaction.amount old)%Q
                             timestamp a)).
    { intros a F U. rewrite find_account_framed by congruence.
      apply find_account_debited; [now rewrite F1 | exact U]. }
    assert (Hn : forall a, find_account d k_new = Some a ->
                   Account.user_id a = user_id ->
                   find_account
                     (Sql.add_balance
                        (Sql.sub_balance d1 (Transaction.amount old)
                           timestamp k_old user_id)
                        (Transaction.amount new) timestamp k_new user_id)
                     k_new
                   = Some (Sql.credit_row (Transaction.amount new)
                             timestamp a)).
    { intros a F U. apply find_account_credited; [|exact U].
      rewrite find_account_debit_framed by congruence.
      now rewrite F1. }
    split; [now rewrite transactions_add_balance, transactions_sub_balance|].
    split; [intros E; congruence|]. intros _.
    split; [|split; [|split]].
    + intros a F U. eexists. split; [exact (Ho a F U)|]. reflexivity.
    + intros a F U. eexists. split; [exact (Hn a F U)|]. reflexivity.
    + intros k N1 N2. rewrite find_account_framed by congruence.
      rewrite find_account_debit_framed by congruence. apply F1.
    + intros a_old a_new Fo Uo Fn Un Eq. do 2 eexists.
      split; [exact (Ho a_old Fo Uo)|]. split; [exact (Hn a_new Fn Un)|].
      unfold Sql.credit_row. cbn [Account.current_balance]. rewrite Eq. lra.
  - split; [now rewrite transactions_add_balance|].
    split; [|intros N; congruence]. intros _. split.
    + intros a F U. eexists. split.
      * apply (find_account_credited d1 _ _ _ _ a); [|exact U].
        rewrite F1. exact F.
      * split; [reflexivity|]. intros [_ X].
        unfold Sql.credit_row. cbn [Account.current_balance]. lra.
    + intros k N. rewrite find_account_framed by congruence. apply F1.
Qed.

(** The Update examples of the specification: repricing -50.00 to -75.00
    on the same account moves its balance by -25.00; moving +300.00 from
    one account of the caller to another keeps the sum of the two. *)
Lemma update_balances_witness :
  let d := fst (Server.post_transactions Sample.opened "user1"
                  (Sample.entry "acct1_user1" (-50) "Grocery shopping")
                  "tx1" Sample.ts1) in
  let r := Server.put_transaction d "user1" "tx1" (Sample.reprice (-75))
             Sample.ts2 in
  let d7 := fst (Server.post_transactions Sample.opened "user1"
                   (Sample.entry "acct1_user1" 300 "Freelance project")
                   "tx7" Sample.ts1) in
  let r7 := Server.put_transaction d7 "user1" "tx7"
              (Sample.move_to "acct2_user1") Sample.ts2 in
  (balance_of d "acct1_user1" = Some 1150%Q
   /\ exists x, balance_of (fst r) "acct1_user1" = Some x
               /\ (x == 1150 + (-75 - -50))%Q)
  /\ (balance_of d7 "acct1_user1" = Some 1500%Q
      /\ balance_of d7 "acct2_user1" = Some 5000%Q
      /\ exists x y, balance_of (fst r7) "acct1_user1" = Some x
           /\ balance_of (fst r7) "acct2_user1" = Some y
           /\ (x + y == 1500 + 5000)%Q).
Proof.
  intros d r d7 r7. split.
  - split; [reflexivity|].
    pose (old := Transaction.mk "tx1" "user1" "acct1_user1" "2023-03-10"
                   (-50) "expense" (Some "Grocery shopping"%string) None
                   "none" Sample.ts1 Sample.ts1).
    pose (a := Account.mk "acct1_user1" "user1" "Checking" "checking"
                 1200 1150 "USD" Sample.ts0 Sample.ts1).
    assert (pk : pk_transactions d) by (repeat constructor; intros []).
    assert (Hin : In old (transactions d)) by (left; reflexivity).
    assert (NE : Body.account_id (Sample.reprice (-75)) <> Some ""%string)
      by discriminate.
    assert (Fin : Transaction.account_id
                    (edited (Sample.reprice (-75)) Sample.ts2 old)
                  = Transaction.account_id old ->
                  finite_difference
                    (Transaction.amount
                       (edited (Sample.reprice (-75)) Sample.ts2 old))
                    (Transaction.amount old))
      by (intros _; vm_compute; reflexivity).
    pose proof (update_balances d "user1" "tx1" old (Sample.reprice (-75))
                  Sample.ts2 pk Hin eq_refl eq_refl NE Fin eq_refl) as H.
    destruct H as (_ & _ & Same & _).
    destruct (Same eq_refl) as [B _].
    destruct (B a eq_refl eq_refl) as (a' & F & _ & C).
    assert (F' : find_account (fst r) "acct1_user1" = Some a') by exact F.
    exists (Account.current_balance a').
    unfold balance_of. rewrite F'. split; [reflexivity|].
    apply C. split; vm_compute; reflexivity.
  - split; [reflexivity|]. split; [reflexivity|].
    pose (old := Transaction.mk "tx7" "user1" "acct1_user1" "2023-03-10"
                   300 "expense" (Some "Freelance project"%string) None
                   "none" Sample.ts1 Sample.ts1).
    pose (a1 := Account.mk "acct1_user1" "user1" "Checking" "checking"
                  1200 1500 "USD" Sample.ts0 Sample.ts1).
    pose (a2 := Account.mk "acct2_user1" "user1" "Checking" "checking"
                  5000 5000 "USD" Sample.ts0 Sample.ts0).
    assert (pk : pk_transactions d7) by (repeat constructor; intros []).
    assert (Hin : In old (transactions d7)) by (left; reflexivity).
    assert (NE : Body.account_id (Sample.move_to "acct2_user1")
                 <> Some ""%string) by discriminate.
    assert (Fin : Transaction.account_id
                    (edited (Sample.move_to "acct2_user1") Sample.ts2 old)
                  = Transaction.account_id old ->
                  finite_difference
                    (Transaction.amount
                       (edited (Sample.move_to "acct2_user1") Sample.ts2
                          old))
                    (Transaction.amount old))
      by (intros X; discriminate X).
    pose proof (update_balances d7 "user1" "tx7" old
                  (Sample.move_to "acct2_user1") Sample.ts2 pk Hin eq_refl
                  eq_refl NE Fin eq_refl) as H.
    destruct H as (_ & _ & _ & Moved).
    destruct Moved as (_ & _ & _ & Sum); [discriminate|].
    destruct (Sum a1 a2 eq_refl eq_refl eq_refl eq_refl eq_refl)
      as (x & y & Fx & Fy & E).
    assert (Fx' : find_account (fst r7) "acct1_user1" = Some x) by exact Fx.
    assert (Fy' : find_account (fst r7) "acct2_user1" = Some y) by exact Fy.
    exists (Account.current_balance x), (Account.current_balance y).
    unfold balance_of. rewrite Fx', Fy'. repeat split. exact E.
Defined.

(** C10.  An update never turns a non-null category into null: between
    the transaction table before and after any
    [PUT /api/transactions/:transaction_id], row by row, the id is kept
    and the category was null before or is not null afterwards. *)
Theorem update_keeps_category (d : db) (user_id id : string)
  (b : Body.transaction) (timestamp : string) :
  Forall2
    (fun t t' =>
       Transaction.id t' = Transaction.id t
       /\ (Transaction.category_id t = None
           \/ Transaction.category_id t' <> None))
    (transactions d)
    (transactions (fst (Server.put_transaction d user_id id b timestamp))).
Proof.
  assert (Same : Forall2
            (fun t t' =>
               Transaction.id t' = Transaction.id t
               /\ (Transaction.category_id t = None
                   \/ Transaction.category_id t' <> None))
            (transactions d) (transactions d)).
  { rewrite <- (map_id (transactions d)) at 2. apply Forall2_map_self.
    intros t _. split; [reflexivity|].
    destruct (Transaction.category_id t); [right; discriminate | now left]. }
  unfold Server.put_transaction.
  destruct (Sql.select_transaction d id user_id) as [|old rest];
    [exact Same|].
  unfold Sql.update_transaction.
  destruct (forallb _ _); [|exact Same].
  set (d1 := set_transactions d _).
  assert (Edited : Forall2
            (fun t t' =>
               Transaction.id t' = Transaction.id t
               /\ (Transaction.category_id t = None
                   \/ Transaction.category_id t' <> None))
            (transactions d) (transactions d1)).
  { unfold d1. cbn [transactions set_transactions].
    apply Forall2_map_self. intros t _.
    destruct (Sql.transaction_where id user_id t).
    - split; [reflexivity|]. cbn [Sql.edit_transaction_row
        Transaction.category_id].
      destruct (Body.category_id b); simpl; [right; discriminate|].
      destruct (Transaction.category_id t); [right; discriminate | now left].
    - split; [reflexivity|].
      destruct (Transaction.category_id t); [right; discriminate | now left]. }
  cbv zeta.
  destruct (hd_error _) as [updated|];
    destruct (Body.account_id b) as [k|];
    try destruct (Js.truthy (Some k) && _); exact Edited.
Qed.

(** ** Claims on the account edit route *)

(** C6, counterexample.  [PUT /api/accounts/acct1_user1] with
    [initial_balance = 9999.99] answers 200 and rewrites the initial
    balance from 1200.00 to 9999.99; the current balance stays 1200.00. *)
Lemma account_edit_rewrites_initial_balance :
  let d := Sample.opened in
  let b := Body.mkAccount None None (Js.Num 9999.99) None in
  let r := Server.put_account d "user1" "acct1_user1" b Sample.ts1 in
  status (snd r) = 200
  /\ option_map Account.initial_balance (find_account d "acct1_user1")
     = Some 1200%Q
  /\ option_map Account.initial_balance (find_account (fst r) "acct1_user1")
     = Some 9999.99%Q
  /\ balance_of d "acct1_user1" = Some 1200%Q
  /\ balance_of (fst r) "acct1_user1" = Some 1200%Q.
Proof. vm_compute. repeat split; reflexivity. Qed.

(** C6, as amended.  The account edit route leaves every other table as
    it was and, row by row, keeps the id, the owner, the creation time and
    the current balance of every account; the initial balance of a row is
    kept or becomes the [initial_balance] of the request.  What it may
    change is the name, the type, the initial balance, the currency and
    [updated_at]. *)
Theorem account_edit_frame (d : db) (user_id account_id : string)
  (b : Body.account) (timestamp : string) :
  let d' := fst (Server.put_account d user_id account_id b timestamp) in
  users d' = users d
  /\ categories d' = categories d
  /\ transactions d' = transactions d
  /\ keyword_rules d' = keyword_rules d
  /\ Forall2
       (fun a a' =>
          Account.id a' = Account.id a
          /\ Account.user_id a' = Account.user_id a
          /\ Account.created_at a' = Account.created_at a
          /\ Account.current_balance a' = Account.current_balance a
          /\ (Account.initial_balance a' = Account.initial_balance a
              \/ Body.initial_balance b
                 = Js.Num (Account.initial_balance a')))
       (accounts d) (accounts d').
Proof.
  assert (E : fst (Server.put_account d user_id account_id b timestamp)
              = fst (Sql.update_account d (Body.account_name b)
                       (Body.account_type b)
                       (Js.param (Body.initial_balance b))
                       (Body.currency b) timestamp account_id user_id)).
  { unfold Server.put_account.
    destruct (Sql.update_account _ _ _ _ _ _ _ _) as [d1 rows].
    now destruct rows. }
  cbv zeta. rewrite E. unfold Sql.update_account. cbn [fst].
  repeat split.
  cbn [accounts set_accounts]. apply Forall2_map_self. intros a _.
  destruct (Sql.account_where account_id user_id a).
  - cbn. repeat split.
    destruct (Body.initial_balance b); simpl; auto.
  - repeat split. now left.
Qed.

(** ** Case-insensitive substrings *)

Lemma is_upper_range (c : ascii) :
  Js.is_upper c = true <-> (65 <= nat_of_ascii c <= 90)%nat.
Proof.
  unfold Js.is_upper. cbv zeta. rewrite andb_true_iff, !Nat.leb_le. tauto.
Qed.

Lemma lower_of_upper (c : ascii) :
  Js.is_upper c = true ->
  nat_of_ascii (ascii_of_nat (nat_of_ascii c + 32)) = (nat_of_ascii c + 32)%nat
  /\ Js.is_upper (ascii_of_nat (nat_of_ascii c + 32)) = false.
Proof.
  intros U. apply is_upper_range in U.
  assert (E : nat_of_ascii (ascii_of_nat (nat_of_ascii c + 32))
              = (nat_of_ascii c + 32)%nat)
    by (apply nat_ascii_embedding; lia).
  split; [exact E|]. unfold Js.is_upper. cbv zeta. rewrite E.
  apply andb_false_iff. right. apply Nat.leb_gt. lia.
Qed.

Lemma same_letter_lower (x y : ascii) :
  same_letter x y <-> Js.lower_char x = Js.lower_char y.
Proof.
  split.
  - intros [c|c U|c U]; [reflexivity| |]; apply is_upper_range in U.
    + unfold Js.lower_char. rewrite U.
      destruct (lower_of_upper c U) as [_ ->]. reflexivity.
    + unfold Js.lower_char. rewrite U.
      destruct (lower_of_upper c U) as [_ ->]. reflexivity.
  - unfold Js.lower_char.
    destruct (Js.is_upper x) eqn:Ux, (Js.is_upper y) eqn:Uy; intros E.
    + assert (N : nat_of_ascii x = nat_of_ascii y).
      { destruct (lower_of_upper x Ux) as [Nx _].
        destruct (lower_of_upper y Uy) as [Ny _].
        rewrite E in Nx. lia. }
      rewrite <- (ascii_nat_embedding x), N, ascii_nat_embedding.
      constructor.
    + subst y. apply same_upper_lower. now apply is_upper_range.
    + subst x. apply same_lower_upper. now apply is_upper_range.
    + subst y. constructor.
Qed.

Lemma same_text_lower (s t : string) :
  same_text s t <-> Js.toLowerCase s = Js.toLowerCase t.
Proof.
  split.
  - induction 1 as [|x y s t L _ IH]; simpl; [reflexivity|].
    apply same_letter_lower in L. now rewrite L, IH.
  - revert t. induction s as [|x s IH]; intros [|y t]; simpl; intros E;
      try discriminate; [constructor|].
    injection E as L E. constructor; [now apply same_letter_lower|].
    now apply IH.
Qed.

Lemma toLowerCase_append (s t : string) :
  Js.toLowerCase (s ++ t)
  = (Js.toLowerCase s ++ Js.toLowerCase t)%string.
Proof. induction s as [|c s IH]; simpl; [reflexivity|]. now rewrite IH. Qed.

(** A split of the lower-cased string is the image of a split of the
    string. *)
Lemma toLowerCase_split (s x y : string) :
  Js.toLowerCase s = (x ++ y)%string ->
  exists s1 s2, s = (s1 ++ s2)%string
    /\ Js.toLowerCase s1 = x /\ Js.toLowerCase s2 = y.
Proof.
  revert s. induction x as [|c x IH]; intros s E.
  - exists EmptyString, s. auto.
  - destruct s as [|c' s]; simpl in E; [discriminate|].
    injection E as Ec E. destruct (IH s E) as (s1 & s2 & -> & E1 & E2).
    exists (String c' s1), s2. simpl. rewrite Ec, E1. auto.
Qed.

Lemma prefix_append (t s : string) :
  String.prefix t s = true <-> exists rest, s = (t ++ rest)%string.
Proof.
  revert s. induction t as [|c t IH]; intros s.
  - destruct s; simpl; split; intros; eauto.
  - destruct s as [|c' s]; simpl.
    + split; [discriminate | intros [rest E]; discriminate].
    + destruct (ascii_dec c c') as [->|N].
      * rewrite IH. split; intros [rest E]; exists rest; congruence.
      * split; [discriminate | intros [rest E]; congruence].
Qed.

Lemma includes_occurs (s t : string) :
  Js.includes s t = true
  <-> exists before after, s = (before ++ t ++ after)%string.
Proof.
  induction s as [|c s IH].
  - cbn [Js.includes]. rewrite orb_false_r, prefix_append. split.
    + intros [rest E]. exists EmptyString, rest. exact E.
    + intros ([|c b] & a & E); [now exists a | discriminate].
  - cbn [Js.includes]. rewrite orb_true_iff, prefix_append, IH. split.
    + intros [[rest E]|(b & a & E)].
      * exists EmptyString, rest. exact E.
      * exists (String c b), a. simpl. now rewrite E.
    + intros ([|c' b] & a & E).
      * left. now exists a.
      * right. simpl in E. injection E as _ E. now exists b, a.
Qed.

(** The test of the loop is the case-insensitive substring test. *)
Lemma includes_ci_substring (description keyword : string) :
  Js.includes (Js.toLowerCase description) (Js.toLowerCase keyword) = true
  <-> ci_substring keyword description.
Proof.
  rewrite includes_occurs. unfold ci_substring. split.
  - intros (x & z & E).
    destruct (toLowerCase_split _ _ _ E) as (before & rest & -> & _ & E').
    destruct (toLowerCase_split _ _ _ E') as (middle & after & -> & Em & _).
    exists before, middle, after. split; [reflexivity|].
    now apply same_text_lower.
  - intros (before & middle & after & -> & T).
    apply same_text_lower in T.
    exists (Js.toLowerCase before), (Js.toLowerCase after).
    now rewrite !toLowerCase_append, T.
Qed.

(** ** Claims on categorization *)







(** ** Drift of the balance on binary64 *)

(** The software binary64 subtraction agrees with the machine one where the
    drift below is computed. *)
Example js_sub_is_machine_sub :
  Prim2SF (SF2Prim (Numeric.ToNumber (3 # 10))
           - SF2Prim (Numeric.ToNumber (1 # 10)))%float
  = Numeric.js_sub (Numeric.ToNumber (3 # 10)) (Numeric.ToNumber (1 # 10)).
Proof. vm_compute. reflexivity. Qed.

(** C5, at the failing input.  An account with initial balance 0 receives
    a transaction of 0.1, which is then updated to 0.3 on the same account.
    Both amounts are stored exactly, the create adds exactly 0.1, and the
    update adds the text of the Number [0.3 - 0.1], which is
    0.19999999999999998: the balance ends at 0.29999999999999998 and not at
    the exact sum 0.3. *)
Theorem same_account_update_drifts :
  let initial_balance := 0%Q in
  let old_amount := Numeric.stored_amount (Numeric.ToNumber (1 # 10)) in
  let balance := Numeric.balanceQuery initial_balance
                   (Numeric.ToNumber (1 # 10)) in
  let updated_amount := Numeric.stored_amount (Numeric.ToNumber (3 # 10)) in
  let balance' := Numeric.updateBalanceQuery balance updated_amount
                    old_amount in
  (old_amount == 1 # 10)%Q
  /\ (balance == initial_balance + old_amount)%Q
  /\ (updated_amount == 3 # 10)%Q
  /\ (Numeric.to_numeric
        (Numeric.js_sub (Numeric.ToNumber updated_amount)
           (Numeric.ToNumber old_amount))
      == 19999999999999998 # 100000000000000000)%Q
  /\ (balance' == 29999999999999998 # 100000000000000000)%Q
  /\ ~ (balance' == initial_balance + updated_amount)%Q.
Proof.
  cbv zeta. repeat split; try (vm_compute; reflexivity).
  intros H. vm_compute in H. discriminate.
Qed.

(** The reversal of a delete goes through a Number as well: an amount of
    more than seventeen digits is not reversed exactly. *)
Lemma delete_reversal_rounds :
  let amount := (1234567890123456789 # 10000000000000000000)%Q in
  let balance := Numeric.addQuery 0 amount in
  ~ (Numeric.reverseBalance balance amount == 0)%Q.
Proof. cbv zeta. intros H. vm_compute in H. discriminate. Qed.

(** The same drift on the routes: on an own account, a create of 0.1
    followed by a same-account update to 0.3 leaves the balance at
    1200.29999999999999998, and the ledger invariant no longer holds. *)
Lemma own_account_update_breaks_ledger :
  let d := fst (Server.post_transactions Sample.opened "user1"
                  (Sample.entry "acct1_user1" 0.1 "Coffee") "tx1"
                  Sample.ts1) in
  let r := Server.put_transaction d "user1" "tx1" (Sample.reprice 0.3)
             Sample.ts2 in
  ledger_invariant d
  /\ status (snd r) = 200
  /\ (exists x, balance_of (fst r) "acct1_user1" = Some x
                /\ (x == 1200.29999999999999998)%Q)
  /\ ~ ledger_invariant (fst r).
Proof.
  cbv zeta. split; [|split; [|split]].
  - apply ledger_invariantb_spec. vm_compute. reflexivity.
  - vm_compute. reflexivity.
  - eexists. split; [vm_compute; reflexivity|]. vm_compute. reflexivity.
  - rewrite <- ledger_invariantb_spec. vm_compute. discriminate.
Qed.

(** ** The ledger invariant along writes on the caller's own accounts *)

Lemma paired_owns (d d' : db) (user_id k : string) :
  paired d d' -> owns d user_id k -> owns d' user_id k.
Proof.
  intros P O a' Ha' E.
  destruct (Forall2_In_r _ _ _ _ P Ha') as (a & Ha & I & U & _).
  rewrite U. apply O; [exact Ha | congruence].
Qed.

Lemma paired_invariant (d d' : db) :
  paired d d' -> ledger_invariant d -> ledger_invariant d'.
Proof.
  unfold paired, ledger_invariant, balanced. intros P.
  induction P as [|a a' l l' (I & U & N & C) _ IH]; intros L; constructor.
  - apply Forall_inv in L. rewrite I, N. lra.
  - apply IH. now apply Forall_inv_tail in L.
Qed.

Lemma named_accounts_owned (d : db) (user_id : string) (q : request) :
  accounts_owned d -> own_request d user_id q ->
  forall k, In k (named_accounts d user_id q) -> owns d user_id k.
Proof.
  intros AO OR k Hk.
  assert (Stored : forall tid,
             In k (map Transaction.account_id
                     (Sql.select_transaction d tid user_id)) ->
             owns d user_id k).
  { intros tid H. apply in_map_iff in H. destruct H as (r & <- & Hr).
    unfold Sql.select_transaction in Hr. apply filter_In in Hr.
    destruct Hr as [Hin W]. unfold Sql.transaction_where in W.
    apply andb_true_iff in W. destruct W as [_ W].
    apply String.eqb_eq in W. rewrite <- W. now apply AO. }
  destruct q as [b id|tid b|tid]; simpl in Hk, OR.
  - destruct (Body.account_id b) as [x|]; [|destruct Hk].
    destruct Hk as [<-|[]]. now apply OR.
  - apply in_app_or in Hk. destruct Hk as [Hk|Hk]; [now apply (Stored tid)|].
    destruct (Body.account_id b) as [x|]; [|destruct Hk].
    destruct Hk as [<-|[]]. now apply OR.
  - now apply (Stored tid).
Qed.

Lemma own_request_well_named (d : db) (user_id : string) (q : request) :
  own_request d user_id q -> well_named q.
Proof. destruct q; simpl; tauto. Qed.

Lemma handle_pk (d : db) (user_id : string) (q : request)
  (timestamp : string) :
  pk_transactions d -> pk_transactions (fst (handle d user_id q timestamp)).
Proof.
  intros pk. destruct q as [b id|tid b|tid]; simpl handle.
  - destruct (post_transactions_cases d user_id b id timestamp)
      as [[_ E]|[(_ & E & _)|(k & z & _ & _ & _ & Pk & _ & E)]];
      rewrite E; [exact pk | exact pk |].
    unfold pk_transactions. cbn [fst]. rewrite transactions_add_balance.
    cbn [transactions set_transactions]. rewrite map_app.
    apply NoDup_app; [exact pk | repeat constructor; intros [] |].
    intros x Hx [<-|[]]. apply mem_In in Hx. simpl in Hx. congruence.
  - on_select d tid user_id.
    + unfold Server.put_transaction. now rewrite S.
    + rewrite (put_transaction_found d user_id tid old); auto. cbv zeta.
      destruct (Sql.transaction_fk_update _ _ _); [|exact pk].
      assert (E : map Transaction.id
                    (map (fun r => if Sql.transaction_where tid user_id r
                                   then edited b timestamp r else r)
                       (transactions d))
                  = map Transaction.id (transactions d)).
      { rewrite map_map. apply map_ext. intros r.
        now destruct (Sql.transaction_where tid user_id r). }
      unfold pk_transactions.
      destruct (moves b old); cbn [fst];
        rewrite ?transactions_add_balance, ?transactions_sub_balance;
        cbn [transactions set_transactions]; rewrite E; exact pk.
  - on_select d tid user_id.
    + unfold Server.delete_transaction. now rewrite S.
    + rewrite (delete_transaction_found d user_id tid old); auto.
      unfold pk_transactions. cbn [fst]. rewrite transactions_add_balance.
      unfold Sql.delete_transaction. cbn [transactions set_transactions].
      destruct (delete_one tid user_id old (transactions d) pk Hin Hid Hu)
        as (l1 & l2 & E1 & E2).
      rewrite E2. unfold pk_transactions in pk. rewrite E1, map_app in pk.
      simpl in pk. apply NoDup_remove_1 in pk. now rewrite map_app.
Qed.

Lemma handle_accounts_owned (d : db) (user_id : string) (q : request)
  (timestamp : string) :
  pk_transactions d -> accounts_owned d -> own_request d user_id q ->
  exact_request d user_id q ->
  accounts_owned (fst (handle d user_id q timestamp)).
Proof.
  intros pk AO OR X.
  assert (P : paired d (fst (handle d user_id q timestamp))).
  { apply handle_paired; auto.
    - now apply named_accounts_owned.
    - now apply (own_request_well_named d user_id). }
  intros r Hr. apply (paired_owns d _ _ _ P). revert r Hr.
  destruct q as [b id|tid b|tid]; simpl handle; simpl in OR.
  - destruct (post_transactions_cases d user_id b id timestamp)
      as [[_ E]|[(_ & E & _)|(k & z & _ & Ek & _ & _ & _ & E)]];
      rewrite E; cbn [fst]; [exact AO | exact AO |].
    rewrite transactions_add_balance. cbn [transactions set_transactions].
    intros r Hr. apply in_app_or in Hr. destruct Hr as [Hr|[<-|[]]].
    + now apply AO.
    + simpl. now apply OR.
  - destruct OR as [NE OR].
    on_select d tid user_id.
    + unfold Server.put_transaction. now rewrite S.
    + rewrite (put_transaction_found d user_id tid old); auto. cbv zeta.
      destruct (Sql.transaction_fk_update _ _ _); [|exact AO].
      assert (T : forall r,
                 In r (map (fun r => if Sql.transaction_where tid user_id r
                                     then edited b timestamp r else r)
                         (transactions d)) ->
                 owns d (Transaction.user_id r) (Transaction.account_id r)).
      { intros r Hr.
        destruct (update_one tid user_id old (transactions d) pk Hin Hid Hu
                    (edited b timestamp)) as (l1 & l2 & E1 & E2).
        rewrite E2 in Hr.
        assert (Sub : forall x, In x (l1 ++ l2) -> In x (transactions d)).
        { intros x Hx. rewrite E1. apply in_app_or in Hx.
          apply in_or_app. destruct Hx; [now left | right; now right]. }
        apply in_app_or in Hr. destruct Hr as [Hr|[<-|Hr]].
        - apply AO, Sub, in_or_app. now left.
        - rewrite (moved_account old b timestamp NE).
          change (Transaction.user_id (edited b timestamp old))
            with (Transaction.user_id old). rewrite Hu.
          destruct (moves b old) eqn:Mv.
          + unfold moves in Mv.
            destruct (Body.account_id b) as [x|]; [|discriminate].
            simpl. now apply OR.
          + rewrite <- Hu. now apply AO.
        - apply AO, Sub, in_or_app. now right. }
      destruct (moves b old); cbn [fst];
        rewrite ?transactions_add_balance, ?transactions_sub_balance;
        cbn [transactions set_transactions]; exact T.
  - on_select d tid user_id.
    + unfold Server.delete_transaction. now rewrite S.
    + rewrite (delete_transaction_found d user_id tid old); auto.
      cbn [fst]. rewrite transactions_add_balance.
      unfold Sql.delete_transaction. cbn [transactions set_transactions].
      intros r Hr. apply filter_In in Hr. now apply AO.
Qed.

(** One transaction write that names only accounts of its caller and whose
    Number arithmetic is exact keeps the primary key, the ownership of
    accounts and the ledger invariant. *)
Lemma handle_consistent (d : db) (user_id : string) (q : request)
  (timestamp : string) :
  consistent d -> own_request d user_id q -> exact_request d user_id q ->
  consistent (fst (handle d user_id q timestamp)).
Proof.
  intros (pk & AO & L) OR X. split; [|split].
  - now apply handle_pk.
  - now apply handle_accounts_owned.
  - apply (paired_invariant d); [|exact L]. apply handle_paired; auto.
    + now apply named_accounts_owned.
    + now apply (own_request_well_named d user_id).
Qed.

(** X28.  The ledger invariant holds after every sequence of creates,
    updates and deletes in which each write names only accounts of its
    caller and the Number arithmetic of each write (the difference of a
    same-account update, the negation of a delete) is exact. *)
Theorem ledger_invariant_on_own_accounts (d d' : db) :
  consistent d -> own_run d d' -> ledger_invariant d'.
Proof.
  intros C R. induction R as [d|d user_id q timestamp d' OR X _ IH].
  - apply C.
  - apply IH. now apply handle_consistent.
Qed.

(** * Properties of the other routes *)

(** ** Selections and updates under a primary key *)

Lemma filter_nothing {A : Type} (p : A -> bool) (l : list A) :
  (forall x, In x l -> p x = false) -> filter p l = [].
Proof.
  induction l as [|x l IH]; simpl; intros H; [reflexivity|].
  rewrite (H x (or_introl eq_refl)). apply IH. intros; apply H; now right.
Qed.

Lemma filter_key {A : Type} (key : A -> string) (p : A -> bool)
  (l : list A) (old : A) :
  NoDup (map key l) -> In old l -> p old = true ->
  (forall x, p x = true -> key x = key old) ->
  filter p l = [old].
Proof.
  intros N I P K. destruct (in_split _ _ I) as (l1 & l2 & ->).
  rewrite map_app in N. simpl in N. apply NoDup_remove_2 in N.
  rewrite filter_app. simpl. rewrite P.
  rewrite !filter_nothing; [reflexivity | |]; intros x Hx;
    destruct (p x) eqn:E; auto; exfalso; apply N; rewrite <- (K x E);
    apply in_or_app; [right | left]; now apply in_map.
Qed.

Lemma filter_map_if {A : Type} (p q : A -> bool) (e : A -> A)
  (l : list A) :
  (forall x, q (e x) = q x) ->
  filter q (map (fun x => if p x then e x else x) l)
  = map (fun x => if p x then e x else x) (filter q l).
Proof.
  intros Q. induction l as [|x l IH]; [reflexivity|]. simpl.
  assert (K : q (if p x then e x else x) = q x)
    by (destruct (p x); auto).
  rewrite K. destruct (q x); simpl; now rewrite IH.
Qed.

Lemma map_if_none {A : Type} (p : A -> bool) (e : A -> A) (l : list A) :
  (forall x, In x l -> p x = false) ->
  map (fun x => if p x then e x else x) l = l.
Proof.
  intros N. rewrite <- (map_id l) at 2. apply map_ext_in. intros x Hx.
  now rewrite (N x Hx).
Qed.

(** ** Creating, reading and deleting accounts *)

Lemma tx_sum_unreferenced (k : string) (rows : list Transaction.t) :
  (forall r, In r rows -> Transaction.account_id r <> k) ->
  tx_sum k rows = 0%Q.
Proof.
  induction rows as [|r rows IH]; intros N; [reflexivity|].
  unfold tx_sum. simpl.
  destruct (String.eqb_spec (Transaction.account_id r) k) as [E|_].
  - exfalso. apply (N r); [now left | exact E].
  - apply IH. intros; apply N; now right.
Qed.

(** The three outcomes of [POST /api/accounts]. *)
Lemma post_accounts_cases (d : db) (user_id : string) (b : Body.account)
  (id timestamp : string) :
  let r := Server.post_accounts d user_id b id timestamp in
  r = (d, mkResponse 400 (Message "Missing required fields"))
  \/ r = (d, mkResponse 500 (Message "Error creating account"))
  \/ exists n ty z c,
       let row := Account.mk id user_id n ty z z c timestamp timestamp in
       Body.account_name b = Some n /\ Body.account_type b = Some ty
       /\ Body.initial_balance b = Js.Num z /\ Body.currency b = Some c
       /\ Sql.mem id (map Account.id (accounts d)) = false
       /\ In user_id (users d)
       /\ r = (set_accounts d (accounts d ++ [row]),
               mkResponse 201 (AccountRow (Some row))).
Proof.
  cbv zeta. unfold Server.post_accounts.
  destruct (negb (Js.truthy (Body.account_name b)) || _ || _ || _);
    [now left|]. right.
  unfold Sql.insert_account.
  destruct (Body.account_name b) as [n|]; [|now left].
  destruct (Body.account_type b) as [ty|]; [|now left].
  destruct (Body.initial_balance b) as [| |z]; simpl Js.param;
    [now left | now left |].
  destruct (Body.currency b) as [c|]; [|now left].
  destruct (Sql.mem id (map Account.id (accounts d))) eqn:Pk; simpl negb;
    cbv iota beta; [now left|].
  rewrite andb_true_l. unfold Sql.account_fk. simpl Account.user_id.
  destruct (Sql.mem user_id (users d)) eqn:Fk; [|now left].
  right. exists n, ty, z, c. apply mem_In in Fk. repeat split; auto.
Qed.

(** X1.  Opening an account keeps the ledger invariant and the
    referential integrity of the transaction table: the new account starts
    with [current_balance = initial_balance], and no transaction can
    already be on it. *)
Theorem post_accounts_keeps_ledger (d : db) (user_id : string)
  (b : Body.account) (id timestamp : string) :
  ledger_invariant d -> referential d ->
  let d' := fst (Server.post_accounts d user_id b id timestamp) in
  ledger_invariant d' /\ referential d'.
Proof.
  intros L R. cbv zeta.
  destruct (post_accounts_cases d user_id b id timestamp)
    as [E|[E|(n & ty & z & c & _ & _ & _ & _ & Pk & _ & E)]];
    rewrite E; cbn [fst]; [now split | now split |].
  split.
  - unfold ledger_invariant. cbn [accounts transactions set_accounts].
    apply Forall_app. split; [exact L|].
    constructor; [|constructor]. unfold balanced.
    cbn [Account.current_balance Account.initial_balance Account.id
         transactions set_accounts].
    rewrite tx_sum_unreferenced; [lra|].
    intros r Hr E'. apply R in Hr. rewrite E' in Hr.
    apply mem_In in Hr. congruence.
  - intros r Hr. cbn [accounts transactions set_accounts] in *.
    rewrite map_app. apply in_or_app. left. now apply R.
Qed.

Lemma post_accounts_keeps_ledger_witness :
  ledger_invariant Sample.opened /\ referential Sample.opened.
Proof.
  assert (L : ledger_invariant Sample.empty) by constructor.
  assert (R : referential Sample.empty) by (intros r []).
  destruct (post_accounts_keeps_ledger Sample.empty "user1"
              (Sample.checking 1200) "acct1_user1" Sample.ts0 L R)
    as [L1 R1].
  destruct (post_accounts_keeps_ledger _ "user2"
              (Sample.checking 2000) "acct1_user2" Sample.ts0 L1 R1)
    as [L2 R2].
  exact (post_accounts_keeps_ledger _ "user1"
           (Sample.checking 5000) "acct2_user1" Sample.ts0 L2 R2).
Defined.

Lemma filter_where_fresh (id user_id : string) (l : list Account.t) :
  Sql.mem id (map Account.id l) = false ->
  filter (Sql.account_where id user_id) l = [].
Proof.
  intros M. induction l as [|a l IH]; [reflexivity|].
  simpl in M. apply orb_false_iff in M. destruct M as [Ma Ml].
  simpl. unfold Sql.account_where at 1.
  rewrite String.eqb_sym, Ma. simpl. now apply IH.
Qed.

(** X2.  An account that was just opened can be read back: after a 201,
    [GET /api/accounts/:account_id] of the caller answers the created row,
    whose current balance is its initial balance, and [GET /api/accounts]
    lists it after the accounts the caller had. *)
Theorem account_read_back (d : db) (user_id : string) (b : Body.account)
  (id timestamp : string) (d' : db) (row : Account.t) :
  Server.post_accounts d user_id b id timestamp
  = (d', mkResponse 201 (AccountRow (Some row))) ->
  Routes.get_account d' user_id id = Json 200 row
  /\ Routes.get_accounts d' user_id
     = Json 200 (sent_rows (Routes.get_accounts d user_id) ++ [row])
  /\ Account.current_balance row = Account.initial_balance row
  /\ Body.initial_balance b = Js.Num (Account.initial_balance row).
Proof.
  intros E.
  destruct (post_accounts_cases d user_id b id timestamp)
    as [E'|[E'|(n & ty & z & c & _ & _ & Ez & _ & Pk & _ & E')]];
    rewrite E in E'; try discriminate.
  injection E' as -> ->. repeat split; auto.
  - unfold Routes.get_account. cbn [accounts set_accounts].
    rewrite filter_app, (filter_where_fresh _ _ _ Pk). simpl.
    unfold Sql.account_where. simpl. now rewrite !String.eqb_refl.
  - unfold Routes.get_accounts. cbn [accounts set_accounts sent_rows].
    rewrite filter_app. simpl. now rewrite String.eqb_refl.
Qed.

Lemma account_read_back_witness :
  Routes.get_account
    (fst (Server.post_accounts Sample.empty "user1" (Sample.checking 1200)
            "acct1_user1" Sample.ts0))
    "user1" "acct1_user1"
  = Json 200
      (Account.mk "acct1_user1" "user1" "Checking" "checking" 1200 1200
         "USD" Sample.ts0 Sample.ts0).
Proof.
  apply (account_read_back Sample.empty "user1" (Sample.checking 1200)
           "acct1_user1" Sample.ts0).
  reflexivity.
Defined.

(** X3.  An account that has a transaction on it cannot be deleted: the
    route answers 500 and the database is as it was. *)
Theorem account_in_use_is_kept (d : db) (user_id account_id : string)
  (a : Account.t) (r : Transaction.t) :
  In a (accounts d) -> Account.id a = account_id ->
  Account.user_id a = user_id ->
  In r (transactions d) -> Transaction.account_id r = account_id ->
  Routes.delete_account d user_id account_id
  = (d, Failure 500 "Error deleting account").
Proof.
  intros Ha Hid Hu Hr Hk. unfold Routes.delete_account, Query.delete_account.
  assert (X : existsb
                (fun r => Sql.mem (Transaction.account_id r)
                            (map Account.id
                               (filter (Sql.account_where account_id user_id)
                                  (accounts d))))
                (transactions d) = true).
  { apply existsb_exists. exists r. split; [exact Hr|].
    apply mem_In, in_map_iff. exists a. split; [congruence|].
    apply filter_In. split; [exact Ha|].
    unfold Sql.account_where. rewrite Hid, Hu. now rewrite !String.eqb_refl. }
  now rewrite X.
Qed.

Lemma account_in_use_is_kept_witness :
  let d := fst (Server.post_transactions Sample.opened "user1"
                  (Sample.entry "acct1_user1" (-50) "Grocery shopping")
                  "tx1" Sample.ts1) in
  Routes.delete_account d "user1" "acct1_user1"
  = (d, Failure 500 "Error deleting account").
Proof.
  intros d.
  apply (account_in_use_is_kept d "user1" "acct1_user1"
           (Account.mk "acct1_user1" "user1" "Checking" "checking" 1200
              1150 "USD" Sample.ts0 Sample.ts1)
           (Transaction.mk "tx1" "user1" "acct1_user1" "2023-03-10" (-50)
              "expense" (Some "Grocery shopping") None "none" Sample.ts1
              Sample.ts1));
    try reflexivity; left; reflexivity.
Defined.

Lemma filter_without {A : Type} (p : A -> bool) (P : A -> Prop)
  (l : list A) :
  (forall a, p a = true <-> P a) ->
  without P l (filter (fun a => negb (p a)) l).
Proof.
  intros S. induction l as [|a l IH]; simpl; [constructor|].
  destruct (p a) eqn:E; simpl.
  - apply without_drop; [now apply S | exact IH].
  - apply without_keep; [|exact IH]. intros X. apply S in X. congruence.
Qed.

(** X4.  When no transaction is on the account, the delete answers 204 and
    removes exactly the rows with that id that belong to the caller: every
    other account row stays, in order, and the transactions are untouched.
    It answers 204 as well when the caller has no such account, and then
    no account row changes. *)
Theorem delete_account_effects (d : db) (user_id account_id : string) :
  (forall r, In r (transactions d) ->
     Transaction.account_id r <> account_id) ->
  let r := Routes.delete_account d user_id account_id in
  snd r = Sent 204
  /\ transactions (fst r) = transactions d
  /\ without
       (fun a => Account.id a = account_id /\ Account.user_id a = user_id)
       (accounts d) (accounts (fst r))
  /\ (forall a, In a (accounts (fst r)) <->
        In a (accounts d)
        /\ ~ (Account.id a = account_id /\ Account.user_id a = user_id))
  /\ ((forall a, In a (accounts d) -> Account.id a = account_id ->
         Account.user_id a <> user_id) ->
      accounts (fst r) = accounts d).
Proof.
  intros N. cbv zeta. unfold Routes.delete_account, Query.delete_account.
  assert (X : existsb
                (fun r => Sql.mem (Transaction.account_id r)
                            (map Account.id
                               (filter (Sql.account_where account_id user_id)
                                  (accounts d))))
                (transactions d) = false).
  { destruct (existsb _ _) eqn:X; [|reflexivity]. exfalso.
    apply existsb_exists in X. destruct X as (r & Hr & M).
    apply mem_In, in_map_iff in M. destruct M as (a & E & Ha).
    apply filter_In in Ha. destruct Ha as [_ W].
    unfold Sql.account_where in W. apply andb_true_iff in W.
    destruct W as [W _]. apply String.eqb_eq in W.
    apply (N r Hr). congruence. }
  rewrite X. cbn [fst snd accounts transactions set_accounts].
  split; [reflexivity|]. split; [reflexivity|]. split; [|split].
  - apply filter_without. intros a. unfold Sql.account_where.
    now rewrite andb_true_iff, !String.eqb_eq.
  - intros a. rewrite filter_In. unfold Sql.account_where.
    destruct (String.eqb_spec (Account.id a) account_id);
      destruct (String.eqb_spec (Account.user_id a) user_id);
      simpl; intuition congruence.
  - intros O. clear X. induction (accounts d) as [|a l IH]; [reflexivity|].
    simpl. unfold Sql.account_where at 1.
    destruct (String.eqb_spec (Account.id a) account_id) as [E|_]; simpl.
    + assert (U : Account.user_id a <> user_id)
        by (apply O; [now left | exact E]).
      apply String.eqb_neq in U. rewrite U. simpl. f_equal.
      apply IH. intros; apply O; auto. now right.
    + f_equal. apply IH. intros; apply O; auto. now right.
Qed.

Lemma delete_account_effects_witness :
  let r := Routes.delete_account Sample.opened "user1" "acct2_user1" in
  snd r = Sent 204
  /\ map Account.id (accounts (fst r)) = ["acct1_user1"; "acct1_user2"].
Proof.
  cbv zeta.
  destruct (delete_account_effects Sample.opened "user1" "acct2_user1")
    as (S & _); [intros r []|].
  split; [exact S | reflexivity].
Defined.

(** X5.  Deleting an account, whatever the outcome, keeps the ledger
    invariant and leaves no transaction without its account. *)
Theorem delete_account_keeps_ledger (d : db) (user_id account_id : string) :
  ledger_invariant d -> referential d ->
  let d' := fst (Routes.delete_account d user_id account_id) in
  ledger_invariant d' /\ referential d'.
Proof.
  intros L R. cbv zeta. unfold Routes.delete_account, Query.delete_account.
  destruct (existsb _ _) eqn:X; cbn [fst]; [now split|].
  split.
  - unfold ledger_invariant in *. cbn [accounts transactions set_accounts].
    rewrite Forall_forall in *. intros a Ha. apply filter_In in Ha.
    apply L, Ha.
  - intros r Hr. cbn [accounts transactions set_accounts] in *.
    pose proof (R r Hr) as Hin. apply in_map_iff in Hin.
    destruct Hin as (a & E & Ha). apply in_map_iff. exists a.
    split; [exact E|]. apply filter_In. split; [exact Ha|].
    destruct (Sql.account_where account_id user_id a) eqn:W; [|reflexivity].
    exfalso.
    assert (T : existsb
                  (fun r => Sql.mem (Transaction.account_id r)
                              (map Account.id
                                 (filter
                                    (Sql.account_where account_id user_id)
                                    (accounts d))))
                  (transactions d) = true); [|congruence].
    apply existsb_exists. exists r. split; [exact Hr|].
    apply mem_In, in_map_iff. exists a. split; [exact E|].
    apply filter_In. now split.
Qed.

Lemma delete_account_keeps_ledger_witness :
  ledger_invariant
    (fst (Routes.delete_account Sample.opened "user1" "acct2_user1")).
Proof.
  apply (delete_account_keeps_ledger Sample.opened "user1" "acct2_user1").
  - apply ledger_invariantb_spec. reflexivity.
  - intros r [].
Defined.

(** ** Reading transactions *)

(** X6.  Every read route of accounts and transactions answers only rows
    of the table that belong to the caller; the single-row routes answer a
    row with the id asked for, and 404 exactly when the caller has none. *)
Theorem reads_are_scoped (text_le : string -> string -> bool) (d : db)
  (user_id : string) :
  (forall a, In a (sent_rows (Routes.get_accounts d user_id)) ->
     In a (accounts d) /\ Account.user_id a = user_id)
  /\ (forall q r,
        In r (sent_rows (Routes.get_transactions text_le d user_id q)) ->
        In r (transactions d) /\ Transaction.user_id r = user_id)
  /\ (forall id,
        match Routes.get_account d user_id id with
        | Json s a => s = 200 /\ In a (accounts d)
                      /\ Account.id a = id /\ Account.user_id a = user_id
        | Failure s _ => s = 404
                         /\ forall a, In a (accounts d) ->
                              Account.id a = id ->
                              Account.user_id a <> user_id
        | Sent _ => False
        end)
  /\ (forall id,
        match Routes.get_transaction d user_id id with
        | Json s r => s = 200 /\ In r (transactions d)
                      /\ Transaction.id r = id
                      /\ Transaction.user_id r = user_id
        | Failure s _ => s = 404 /\ no_such_transaction d user_id id
        | Sent _ => False
        end).
Proof.
  split; [|split; [|split]].
  - intros a Ha. simpl in Ha. apply filter_In in Ha.
    destruct Ha as [Hin E]. apply String.eqb_eq in E. now split.
  - intros q r Hr. simpl in Hr. unfold Query.select_transactions in Hr.
    apply filter_In in Hr. destruct Hr as [Hin E].
    apply andb_true_iff in E. destruct E as [E _].
    apply String.eqb_eq in E. now split.
  - intros id. unfold Routes.get_account.
    destruct (filter _ (accounts d)) as [|a rest] eqn:F.
    + split; [reflexivity|]. intros a Ha Hid Hu.
      assert (X : In a (filter (Sql.account_where id user_id) (accounts d))).
      { apply filter_In. split; [exact Ha|]. unfold Sql.account_where.
        rewrite Hid, Hu. now rewrite !String.eqb_refl. }
      rewrite F in X. destruct X.
    + assert (X : In a (filter (Sql.account_where id user_id) (accounts d)))
        by (rewrite F; now left).
      apply filter_In in X. destruct X as [Hin W].
      unfold Sql.account_where in W. apply andb_true_iff in W.
      destruct W as [W1 W2]. apply String.eqb_eq in W1, W2. auto.
  - intros id. unfold Routes.get_transaction.
    destruct (Sql.select_transaction d id user_id) as [|r rest] eqn:S.
    + split; [reflexivity|]. intros r Hr Hid Hu.
      assert (X : In r (Sql.select_transaction d id user_id)).
      { apply filter_In. split; [exact Hr|]. unfold Sql.transaction_where.
        rewrite Hid, Hu. now rewrite !String.eqb_refl. }
      rewrite S in X. destruct X.
    + apply select_something in S. tauto.
Qed.

Lemma truthy_text (v : string) :
  Js.truthy (Some v) = true <-> v <> "".
Proof.
  simpl. rewrite negb_true_iff. apply String.eqb_neq.
Qed.

Lemma text_eqb_some (x : Js.text) (v : string) :
  Sql.text_eqb x (Some v) = true <-> x = Some v.
Proof.
  destruct x as [y|]; simpl; [|split; discriminate].
  rewrite String.eqb_eq. split; congruence.
Qed.

(** One conjunct of the WHERE clause: present when the parameter is a
    non-empty string. *)
Lemma conjunct_spec (p : Js.text) (test : string -> bool) :
  match p with
  | Some v => if Js.truthy (Some v) then test v else true
  | None => true
  end = true
  <-> forall v, p = Some v -> v <> "" -> test v = true.
Proof.
  destruct p as [v|]; [|split; [intros _ v E; discriminate | reflexivity]].
  destruct (Js.truthy (Some v)) eqn:T.
  - apply truthy_text in T. split.
    + intros H w E. injection E as <-. auto.
    + intros H. now apply H.
  - split; [|reflexivity]. intros _ w E N. injection E as <-.
    apply truthy_text in N. congruence.
Qed.

(** X7.  [GET /api/transactions] answers, in table order, the rows of the
    caller that pass every filter that is present and not empty: account
    and type by equality, category by equality with a non-null category,
    dates by [start_date <= date] and [date <= end_date].  An empty filter
    counts as absent, and listing with filters is filtering the listing
    without filters. *)
Theorem listing_filters (text_le : string -> string -> bool) (d : db)
  (user_id : string) (q : Filters.t) :
  (forall r,
     In r (sent_rows (Routes.get_transactions text_le d user_id q)) <->
     In r (transactions d) /\ Transaction.user_id r = user_id
     /\ (forall v, Filters.account_id q = Some v -> v <> "" ->
           Transaction.account_id r = v)
     /\ (forall v, Filters.category_id q = Some v -> v <> "" ->
           Transaction.category_id r = Some v)
     /\ (forall v, Filters.start_date q = Some v -> v <> "" ->
           text_le v (Transaction.date r) = true)
     /\ (forall v, Filters.end_date q = Some v -> v <> "" ->
           text_le (Transaction.date r) v = true)
     /\ (forall v, Filters.transaction_type q = Some v -> v <> "" ->
           Transaction.transaction_type r = v))
  /\ sent_rows (Routes.get_transactions text_le d user_id q)
     = filter (Query.keeps text_le q)
         (sent_rows (Routes.get_transactions text_le d user_id no_filter))
  /\ sent_rows (Routes.get_transactions text_le d user_id no_filter)
     = filter (fun r => String.eqb (Transaction.user_id r) user_id)
         (transactions d).
Proof.
  split; [|split].
  - intros r. cbn [sent_rows Routes.get_transactions].
    unfold Query.select_transactions. rewrite filter_In.
    unfold Query.keeps. rewrite !andb_true_iff, String.eqb_eq.
    rewrite (conjunct_spec (Filters.account_id q)
               (String.eqb (Transaction.account_id r))).
    rewrite (conjunct_spec (Filters.category_id q)
               (fun v => Sql.text_eqb (Transaction.category_id r) (Some v))).
    rewrite (conjunct_spec (Filters.start_date q)
               (fun v => text_le v (Transaction.date r))).
    rewrite (conjunct_spec (Filters.end_date q)
               (fun v => text_le (Transaction.date r) v)).
    rewrite (conjunct_spec (Filters.transaction_type q)
               (String.eqb (Transaction.transaction_type r))).
    split.
    + intros (Hin & U & ((((A & C) & S) & E) & T)).
      repeat split; auto.
      * intros v Ev Nv. now apply String.eqb_eq, A.
      * intros v Ev Nv. now apply text_eqb_some, C.
      * intros v Ev Nv. now apply String.eqb_eq, T.
    + intros (Hin & U & A & C & S & E & T).
      repeat split; auto.
      * intros v Ev Nv. now apply String.eqb_eq, A.
      * intros v Ev Nv. now apply text_eqb_some, C.
      * intros v Ev Nv. now apply String.eqb_eq, T.
  - cbn [sent_rows Routes.get_transactions].
    unfold Query.select_transactions.
    induction (transactions d) as [|r l IH]; [reflexivity|]. simpl.
    destruct (String.eqb (Transaction.user_id r) user_id); simpl;
      [|exact IH].
    destruct (Query.keeps text_le q r); [now rewrite IH | exact IH].
  - cbn [sent_rows Routes.get_transactions].
    unfold Query.select_transactions. apply filter_ext. intros r.
    apply andb_true_r.
Qed.

(** ** Reading a transaction back after a write *)

Lemma update_one_split (id user_id : string) (old : Transaction.t)
  (rows : list Transaction.t) :
  NoDup (map Transaction.id rows) -> In old rows ->
  Transaction.id old = id -> Transaction.user_id old = user_id ->
  forall g : Transaction.t -> Transaction.t,
  exists l1 l2, rows = l1 ++ old :: l2
    /\ map (fun r => if Sql.transaction_where id user_id r then g r else r)
         rows = l1 ++ g old :: l2
    /\ forall r, In r (l1 ++ l2) ->
         Sql.transaction_where id user_id r = false.
Proof.
  intros pk Hin Hid Hu g.
  destruct (split_at_old id user_id old rows pk Hin Hid) as (l1 & l2 & E & N).
  exists l1, l2. split; [exact E|]. split; [|exact N]. rewrite E.
  rewrite map_app. simpl. rewrite (where_old id user_id old Hid Hu).
  rewrite !map_untouched; [reflexivity | |];
    intros r Hr; apply N, in_or_app; auto.
Qed.

Lemma select_fresh (id user_id : string) (l : list Transaction.t) :
  Sql.mem id (map Transaction.id l) = false ->
  filter (Sql.transaction_where id user_id) l = [].
Proof.
  intros M. apply filter_none. intros r Hr. unfold Sql.transaction_where.
  destruct (String.eqb_spec (Transaction.id r) id) as [E|_]; [|reflexivity].
  exfalso. assert (X : Sql.mem id (map Transaction.id l) = true);
    [|congruence].
  apply mem_In, in_map_iff. now exists r.
Qed.

(** X8.  A transaction write can be read back by its caller: after a 201
    the [GET] of the new id answers the created row; with unique ids, after
    a 200 of an update the [GET] answers the updated row, and after a
    delete of a transaction of the caller the [GET] answers 404. *)
Theorem transaction_read_back (d : db) (user_id : string) :
  (forall b id timestamp d' row,
     Server.post_transactions d user_id b id timestamp
     = (d', mkResponse 201 (TransactionRow (Some row))) ->
     Routes.get_transaction d' user_id id = Json 200 row)
  /\ (forall old b id timestamp,
        pk_transactions d -> In old (transactions d) ->
        Transaction.id old = id -> Transaction.user_id old = user_id ->
        let r := Server.put_transaction d user_id id b timestamp in
        status (snd r) = 200 ->
        Routes.get_transaction (fst r) user_id id
        = Json 200 (edited b timestamp old))
  /\ (forall old id timestamp,
        pk_transactions d -> In old (transactions d) ->
        Transaction.id old = id -> Transaction.user_id old = user_id ->
        Routes.get_transaction
          (fst (Server.delete_transaction d user_id id timestamp))
          user_id id
        = Failure 404 "Transaction not found").
Proof.
  split; [|split].
  - intros b id timestamp d' row E.
    destruct (post_transactions_cases d user_id b id timestamp)
      as [[_ E']|[(_ & E' & _)|(k & z & _ & _ & _ & Pk & _ & E')]];
      rewrite E in E'; try discriminate.
    injection E' as -> ->.
    unfold Routes.get_transaction, Sql.select_transaction.
    rewrite transactions_add_balance. cbn [transactions set_transactions].
    rewrite filter_app, (select_fresh _ _ _ Pk). simpl.
    unfold Sql.transaction_where. simpl. now rewrite !String.eqb_refl.
  - intros old b id timestamp pk Hin Hid Hu. cbv zeta.
    rewrite (put_transaction_found d user_id id old); auto. cbv zeta.
    destruct (Sql.transaction_fk_update _ _ _); [|discriminate]. intros _.
    assert (T : forall x,
               transactions x
               = map (fun r => if Sql.transaction_where id user_id r
                               then edited b timestamp r else r)
                   (transactions d) ->
               Routes.get_transaction x user_id id
               = Json 200 (edited b timestamp old)).
    { intros x Ex. unfold Routes.get_transaction, Sql.select_transaction.
      rewrite Ex.
      destruct (update_one_split id user_id old (transactions d) pk Hin Hid
                  Hu (edited b timestamp)) as (m1 & m2 & _ & E2 & Nm).
      rewrite E2.
      change (m1 ++ edited b timestamp old :: m2)
        with (m1 ++ [edited b timestamp old] ++ m2).
      rewrite !filter_app.
      rewrite (filter_none _ m1) by (intros; apply Nm, in_or_app; auto).
      rewrite (filter_none _ m2) by (intros; apply Nm, in_or_app; auto).
      assert (W : Sql.transaction_where id user_id (edited b timestamp old)
                  = true).
      { unfold Sql.transaction_where, edited. simpl.
        rewrite Hid, Hu. now rewrite !String.eqb_refl. }
      simpl. rewrite W. reflexivity. }
    destruct (moves b old); apply T; reflexivity.
  - intros old id timestamp pk Hin Hid Hu.
    rewrite (delete_transaction_found d user_id id old); auto. cbn [fst].
    unfold Routes.get_transaction, Sql.select_transaction.
    rewrite transactions_add_balance. unfold Sql.delete_transaction.
    cbn [transactions set_transactions].
    rewrite filter_none; [reflexivity|].
    intros r Hr. apply filter_In in Hr. destruct Hr as [_ W].
    now apply negb_true_iff in W.
Qed.

Lemma transaction_read_back_witness :
  let b := Sample.entry "acct1_user1" (-50) "Grocery shopping" in
  let d := fst (Server.post_transactions Sample.opened "user1" b "tx1"
                  Sample.ts1) in
  code (Routes.get_transaction d "user1" "tx1") = 200
  /\ Routes.get_transaction
       (fst (Server.delete_transaction d "user1" "tx1" Sample.ts2))
       "user1" "tx1"
     = Failure 404 "Transaction not found".
Proof.
  intros b d.
  destruct (transaction_read_back Sample.opened "user1") as (C & _ & _).
  destruct (transaction_read_back d "user1") as (_ & _ & D).
  split.
  - erewrite (C b "tx1" Sample.ts1 d); reflexivity.
  - apply (D (Transaction.mk "tx1" "user1" "acct1_user1" "2023-03-10"
                (-50) "expense" (Some "Grocery shopping") None "none"
                Sample.ts1 Sample.ts1)).
    + repeat constructor. intros [].
    + left. reflexivity.
    + reflexivity.
    + reflexivity.
Defined.

(** ** What a write of one user leaves alone *)

Lemma credit_if_keeps_other delta timestamp id user_id a :
  Account.user_id a <> user_id -> credit_if delta timestamp id user_id a = a.
Proof.
  intros N. unfold credit_if, Sql.account_where.
  apply String.eqb_neq in N. rewrite N. now rewrite andb_false_r.
Qed.

Lemma credit_if_user delta timestamp id user_id a :
  Account.user_id (credit_if delta timestamp id user_id a)
  = Account.user_id a.
Proof. unfold credit_if. now destruct (Sql.account_where id user_id a). Qed.

Lemma accounts_of_credit (l : list Account.t) (delta : Q)
  (timestamp id user_id other : string) :
  other <> user_id ->
  filter (fun a => String.eqb (Account.user_id a) other)
    (map (credit_if delta timestamp id user_id) l)
  = filter (fun a => String.eqb (Account.user_id a) other) l.
Proof.
  intros N. induction l as [|a l IH]; [reflexivity|]. simpl.
  rewrite credit_if_user.
  destruct (String.eqb_spec (Account.user_id a) other) as [E|_];
    [|exact IH].
  rewrite credit_if_keeps_other by congruence. now rewrite IH.
Qed.

Lemma accounts_of_add_balance d delta timestamp id user_id other :
  other <> user_id ->
  accounts_of (Sql.add_balance d delta timestamp id user_id) other
  = accounts_of d other.
Proof.
  intros N. unfold accounts_of. rewrite accounts_add_balance.
  now apply accounts_of_credit.
Qed.

Lemma accounts_of_sub_balance d delta timestamp id user_id other :
  other <> user_id ->
  accounts_of (Sql.sub_balance d delta timestamp id user_id) other
  = accounts_of d other.
Proof.
  intros N. unfold accounts_of. rewrite accounts_sub_balance.
  now apply accounts_of_credit.
Qed.

Lemma transactions_of_edit (l : list Transaction.t)
  (g : Transaction.t -> Transaction.t) (id user_id other : string) :
  (forall r, Transaction.user_id (g r) = Transaction.user_id r) ->
  other <> user_id ->
  filter (fun r => String.eqb (Transaction.user_id r) other)
    (map (fun r => if Sql.transaction_where id user_id r then g r else r) l)
  = filter (fun r => String.eqb (Transaction.user_id r) other) l.
Proof.
  intros K N. induction l as [|r l IH]; [reflexivity|]. simpl.
  destruct (Sql.transaction_where id user_id r) eqn:W.
  - rewrite K. unfold Sql.transaction_where in W.
    apply andb_true_iff in W. destruct W as [_ W].
    apply String.eqb_eq in W. rewrite W.
    apply String.eqb_neq in N. rewrite String.eqb_sym, N. exact IH.
  - destruct (String.eqb (Transaction.user_id r) other); [f_equal|];
      exact IH.
Qed.

Lemma transactions_of_delete (l : list Transaction.t)
  (id user_id other : string) :
  other <> user_id ->
  filter (fun r => String.eqb (Transaction.user_id r) other)
    (filter (fun r => negb (Sql.transaction_where id user_id r)) l)
  = filter (fun r => String.eqb (Transaction.user_id r) other) l.
Proof.
  intros N. induction l as [|r l IH]; [reflexivity|]. simpl.
  destruct (Sql.transaction_where id user_id r) eqn:W; simpl.
  - unfold Sql.transaction_where in W. apply andb_true_iff in W.
    destruct W as [_ W]. apply String.eqb_eq in W. rewrite W.
    apply String.eqb_neq in N. rewrite String.eqb_sym, N. exact IH.
  - destruct (String.eqb (Transaction.user_id r) other); [f_equal|];
      exact IH.
Qed.

(** X9.  A transaction write of one user leaves the rows of every other
    user alone: the transactions and the accounts of another user are the
    same rows, in the same order, before and after any create, update or
    delete, whatever the request names. *)
Theorem writes_leave_others_alone (d : db) (user_id : string) (q : request)
  (timestamp other : string) :
  other <> user_id ->
  let d' := fst (handle d user_id q timestamp) in
  transactions_of d' other = transactions_of d other
  /\ accounts_of d' other = accounts_of d other.
Proof.
  intros N. cbv zeta. destruct q as [b id|tid b|tid]; simpl handle.
  - destruct (post_transactions_cases d user_id b id timestamp)
      as [[_ E]|[(_ & E & _)|(k & z & _ & _ & _ & _ & _ & E)]];
      rewrite E; cbn [fst]; [now split | now split |].
    split.
    + unfold transactions_of. rewrite transactions_add_balance.
      cbn [transactions set_transactions]. rewrite filter_app. simpl.
      apply String.eqb_neq in N. rewrite String.eqb_sym, N.
      apply app_nil_r.
    + now rewrite accounts_of_add_balance.
  - unfold Server.put_transaction.
    destruct (Sql.select_transaction d tid user_id) as [|old rest];
      [now split|].
    unfold Sql.update_transaction.
    destruct (forallb _ _); [|now split].
    set (d1 := set_transactions d _).
    assert (T1 : transactions_of d1 other = transactions_of d other).
    { unfold transactions_of, d1. cbn [transactions set_transactions].
      apply transactions_of_edit; [reflexivity | exact N]. }
    assert (A1 : accounts_of d1 other = accounts_of d other) by reflexivity.
    cbv zeta.
    destruct (hd_error _) as [updated|];
      destruct (Body.account_id b) as [k|];
      try destruct (Js.truthy (Some k) && _); cbn [fst];
      rewrite ?accounts_of_add_balance, ?accounts_of_sub_balance by exact N;
      split; solve [exact T1 | exact A1].
  - unfold Server.delete_transaction.
    destruct (Sql.select_transaction d tid user_id) as [|old rest];
      [now split|].
    cbn [fst]. rewrite accounts_of_add_balance by exact N. split.
    + unfold transactions_of. rewrite transactions_add_balance.
      unfold Sql.delete_transaction. cbn [transactions set_transactions].
      now apply transactions_of_delete.
    + reflexivity.
Qed.

(** user1 writes on an account of user2 and moves the row away again: the
    rows of user2 never change. *)
Lemma writes_leave_others_alone_witness :
  let d1 := fst (handle Sample.opened "user1"
                   (Create (Sample.entry "acct1_user2" 100 "Refund") "tx1")
                   Sample.ts1) in
  let d2 := fst (handle d1 "user1"
                   (Update "tx1" (Sample.move_to "acct1_user1")) Sample.ts2) in
  accounts_of d2 "user2" = accounts_of Sample.opened "user2".
Proof.
  intros d1 d2.
  destruct (writes_leave_others_alone Sample.opened "user1"
              (Create (Sample.entry "acct1_user2" 100 "Refund") "tx1")
              Sample.ts1 "user2") as [_ A1]; [discriminate|].
  destruct (writes_leave_others_alone d1 "user1"
              (Update "tx1" (Sample.move_to "acct1_user1")) Sample.ts2
              "user2") as [_ A2]; [discriminate|].
  fold d1 in A1. fold d2 in A2. now rewrite A2, A1.
Defined.

(** ** Editing an account *)

Lemma set_accounts_same (d : db) : set_accounts d (accounts d) = d.
Proof. now destruct d. Qed.

(** X10.  [PUT /api/accounts/:account_id] answers 404 exactly when the
    caller has no account with that id, and then the database is as it
    was.  When the caller has one it answers 200, with (ids unique) the
    edited row, which
    is the row now stored and the one [GET /api/accounts/:account_id]
    answers: the name, type, initial balance and currency are those of the
    body where it gives them and the old ones otherwise, [updated_at] is
    the time of the request, and id, owner, creation time and current
    balance are unchanged.  Rows of another owner or with another id stay
    as they are, and no row is added. *)
Theorem account_edit_scope (d : db) (user_id account_id : string)
  (b : Body.account) (timestamp : string) :
  let r := Server.put_account d user_id account_id b timestamp in
  ((forall a, In a (accounts d) -> Account.id a = account_id ->
      Account.user_id a <> user_id) ->
   r = (d, mkResponse 404 (Message "Account not found or not authorized")))
  /\ (forall a, In a (accounts d) -> Account.id a = account_id ->
        Account.user_id a = user_id -> status (snd r) = 200)
  /\ (forall a, pk_accounts d -> In a (accounts d) ->
        Account.id a = account_id -> Account.user_id a = user_id ->
        exists row, snd r = mkResponse 200 (AccountRow (Some row))
          /\ In row (accounts (fst r))
          /\ Routes.get_account (fst r) user_id account_id = Json 200 row
          /\ Account.id row = account_id /\ Account.user_id row = user_id
          /\ Account.created_at row = Account.created_at a
          /\ Account.current_balance row = Account.current_balance a
          /\ Account.updated_at row = timestamp
          /\ given_or_kept (Body.account_name b) (Account.account_name a)
               (Account.account_name row)
          /\ given_or_kept (Body.account_type b) (Account.account_type a)
               (Account.account_type row)
          /\ given_or_kept (Js.param (Body.initial_balance b))
               (Account.initial_balance a) (Account.initial_balance row)
          /\ given_or_kept (Body.currency b) (Account.currency a)
               (Account.currency row))
  /\ (forall a, In a (accounts d) ->
        ~ (Account.id a = account_id /\ Account.user_id a = user_id) ->
        In a (accounts (fst r)))
  /\ (forall a', In a' (accounts (fst r)) ->
        In a' (accounts d)
        \/ Account.id a' = account_id /\ Account.user_id a' = user_id)
  /\ List.length (accounts (fst r)) = List.length (accounts d).
Proof.
  cbv zeta. unfold Server.put_account, Sql.update_account.
  assert (Wspec : forall a, Sql.account_where account_id user_id a = true
                    <-> Account.id a = account_id
                        /\ Account.user_id a = user_id).
  { intros a. unfold Sql.account_where.
    now rewrite andb_true_iff, !String.eqb_eq. }
  set (edit := Sql.edit_account_row (Body.account_name b)
                 (Body.account_type b) (Js.param (Body.initial_balance b))
                 (Body.currency b) timestamp).
  assert (Frame : (forall a, In a (accounts d) ->
                     ~ (Account.id a = account_id
                        /\ Account.user_id a = user_id) ->
                     In a (map (fun a => if Sql.account_where account_id
                                               user_id a
                                         then edit a else a) (accounts d)))
                  /\ (forall a',
                        In a' (map (fun a => if Sql.account_where account_id
                                                  user_id a
                                            then edit a else a) (accounts d))
                        -> In a' (accounts d)
                           \/ Account.id a' = account_id
                              /\ Account.user_id a' = user_id)
                  /\ List.length
                       (map (fun a => if Sql.account_where account_id
                                           user_id a
                                     then edit a else a) (accounts d))
                     = List.length (accounts d)).
  { split; [|split].
    - intros a Ha Na. apply in_map_iff. exists a. split; [|exact Ha].
      destruct (Sql.account_where account_id user_id a) eqn:W;
        [|reflexivity].
      apply Wspec in W. now destruct Na.
    - intros a' Ha'. apply in_map_iff in Ha'. destruct Ha' as (a & <- & Ha).
      destruct (Sql.account_where account_id user_id a) eqn:W;
        [|now left].
      right. apply Wspec in W. exact W.
    - apply length_map. }
  split; [|split; [|split]].
  - intros O.
    assert (F : forall a, In a (accounts d) ->
                  Sql.account_where account_id user_id a = false).
    { intros a Ha. destruct (Sql.account_where account_id user_id a) eqn:W;
        [|reflexivity].
      apply Wspec in W. destruct W as [W1 W2]. now destruct (O a Ha W1). }
    rewrite (filter_nothing _ _ F), (map_if_none _ _ _ F). simpl.
    now rewrite set_accounts_same.
  - intros a Ha Hid Hu.
    assert (X : In a (filter (Sql.account_where account_id user_id)
                        (accounts d))).
    { apply filter_In. split; [exact Ha|]. now apply Wspec. }
    destruct (filter _ (accounts d)) as [|a0 l]; [destruct X|].
    reflexivity.
  - intros a Pk Ha Hid Hu.
    assert (W : Sql.account_where account_id user_id a = true)
      by now apply Wspec.
    assert (S1 : filter (Sql.account_where account_id user_id) (accounts d)
                 = [a]).
    { apply (filter_key Account.id); auto.
      intros x X. apply Wspec in X. destruct X as [X _]. congruence. }
    rewrite S1. cbn [map fst snd accounts set_accounts].
    exists (edit a). split; [reflexivity|]. split; [|split].
    + apply in_map_iff. exists a. split; [now rewrite W | exact Ha].
    + unfold Routes.get_account. cbn [accounts set_accounts].
      rewrite filter_map_if by reflexivity. rewrite S1. simpl.
      now rewrite W.
    + unfold edit. simpl.
      destruct (Body.account_name b), (Body.account_type b),
        (Body.initial_balance b), (Body.currency b); simpl;
        repeat split; auto.
  - destruct (map edit (filter _ (accounts d)));
      cbn [fst accounts set_accounts]; exact Frame.
Qed.

Lemma account_edit_scope_witness :
  let rename := Body.mkAccount (Some "Everyday") None Js.Undefined None in
  Server.put_account Sample.opened "user1" "acct1_user2" rename Sample.ts1
  = (Sample.opened,
     mkResponse 404 (Message "Account not found or not authorized"))
  /\ exists row,
       snd (Server.put_account Sample.opened "user1" "acct1_user1" rename
              Sample.ts1) = mkResponse 200 (AccountRow (Some row))
       /\ Account.account_name row = "Everyday"
       /\ Account.account_type row = "checking"
       /\ Account.current_balance row = 1200%Q.
Proof.
  intros rename. split.
  - apply (account_edit_scope Sample.opened "user1" "acct1_user2").
    intros a Ha Hid. vm_compute in Ha.
    destruct Ha as [<-|[<-|[<-|[]]]]; discriminate.
  - destruct (account_edit_scope Sample.opened "user1" "acct1_user1" rename
                Sample.ts1) as (_ & _ & H & _).
    destruct (H (Account.mk "acct1_user1" "user1" "Checking" "checking"
                   1200 1200 "USD" Sample.ts0 Sample.ts0))
      as (row & R & _ & _ & _ & _ & _ & C & _ & N & T & _);
      [| now left | reflexivity | reflexivity |].
    + repeat constructor; simpl; intuition discriminate.
    + exists row. split; [exact R|]. split; [exact N|].
      split; [exact T | exact C].
Defined.

(** ** The categorizer on longer rule lists, other letter cases and
    extreme keywords *)

(** X11.  The categorizer on a concatenation of rule lists: the result on
    the first list when it has one, otherwise the result on the second.
    Rules that come later never override a match of an earlier rule. *)
Theorem categorize_app (description : string)
  (rows more : list KeywordRule.t) :
  categorize description (rows ++ more)
  = match categorize description rows with
    | Some c => Some c
    | None => categorize description more
    end.
Proof.
  induction rows as [|row rows IH]; [reflexivity|]. simpl.
  destruct (Js.includes _ _); [reflexivity | exact IH].
Qed.

(** X12.  On ASCII text the categorizer does not look at the case of
    letters: two descriptions that agree up to case get the same category,
    and so do two rule lists whose keywords agree up to case, rule by
    rule. *)
Theorem categorize_ignores_case (description description' : string)
  (rows rows' : list KeywordRule.t) :
  ascii_text description = true -> ascii_text description' = true ->
  ascii_rules rows -> ascii_rules rows' ->
  same_text description description' ->
  Forall2
    (fun r r' =>
       KeywordRule.category_id r' = KeywordRule.category_id r
       /\ same_text (KeywordRule.keyword r) (KeywordRule.keyword r'))
    rows rows' ->
  categorize description rows = categorize description' rows'.
Proof.
  intros _ _ _ _ D R. apply same_text_lower in D.
  induction R as [|r r' rows rows' (C & K) _ IH]; [reflexivity|].
  apply same_text_lower in K. simpl. rewrite D, K, C, IH. reflexivity.
Qed.

Lemma same_text_refl (s : string) : same_text s s.
Proof. apply same_text_lower. reflexivity. Qed.

Lemma categorize_ignores_case_witness :
  categorize "STARBUCKS Coffee Run" (keyword_rules Sample.empty)
  = categorize "starbucks coffee run"
      [KeywordRule.mk "cat1" "starBUCKS"; KeywordRule.mk "cat2" "uber";
       KeywordRule.mk "cat3" "ELECTRIC"].
Proof.
  apply categorize_ignores_case.
  - reflexivity.
  - reflexivity.
  - intros k Hk. vm_compute in Hk.
    destruct Hk as [<-|[<-|[<-|[]]]]; reflexivity.
  - intros k Hk.
    destruct Hk as [<-|[<-|[<-|[]]]]; reflexivity.
  - apply same_text_lower. reflexivity.
  - simpl.
    repeat (apply Forall2_cons;
            [split; [reflexivity | apply same_text_lower; reflexivity]|]).
    apply Forall2_nil.
Defined.

Lemma toLowerCase_length (s : string) :
  String.length (Js.toLowerCase s) = String.length s.
Proof. induction s as [|c s IH]; simpl; [reflexivity | now rewrite IH]. Qed.

Lemma append_length (s t : string) :
  String.length (s ++ t)%string = (String.length s + String.length t)%nat.
Proof. induction s as [|c s IH]; simpl; [reflexivity | now rewrite IH]. Qed.

(** X13.  The extremes of keyword matching: a rule with the empty keyword
    matches every description, so the loop never gets past it; on ASCII
    text a rule whose keyword is longer than the description is skipped,
    and a rule whose keyword is the whole description up to case
    matches. *)
Theorem keyword_extremes (description : string) (row : KeywordRule.t)
  (rest : list KeywordRule.t) :
  (KeywordRule.keyword row = "" ->
   categorize description (row :: rest) = Some (KeywordRule.category_id row))
  /\ (ascii_text description = true ->
      ascii_text (KeywordRule.keyword row) = true ->
      (String.length description < String.length (KeywordRule.keyword row))%nat
      -> categorize description (row :: rest) = categorize description rest)
  /\ (ascii_text description = true ->
      ascii_text (KeywordRule.keyword row) = true ->
      same_text (KeywordRule.keyword row) description ->
      categorize description (row :: rest)
      = Some (KeywordRule.category_id row)).
Proof.
  split; [|split].
  - intros E. simpl. rewrite E. simpl.
    destruct (Js.toLowerCase description); reflexivity.
  - intros _ _ L. simpl.
    destruct (Js.includes _ _) eqn:I; [|reflexivity]. exfalso.
    apply includes_occurs in I. destruct I as (x & y & E).
    apply (f_equal String.length) in E.
    rewrite !append_length, !toLowerCase_length in E. lia.
  - intros _ _ T. simpl.
    assert (I : Js.includes (Js.toLowerCase description)
                  (Js.toLowerCase (KeywordRule.keyword row)) = true).
    { apply includes_ci_substring. exists "", description, "".
      split; [|exact T]. simpl.
      clear. induction description as [|c s IH]; simpl; [reflexivity|].
      now rewrite <- IH. }
    now rewrite I.
Qed.

Lemma keyword_extremes_witness :
  categorize "Uber" [KeywordRule.mk "cat9" ""; KeywordRule.mk "cat2" "Uber"]
  = Some "cat9"
  /\ categorize "Uber" [KeywordRule.mk "cat3" "Electric";
                        KeywordRule.mk "cat2" "UBER"]
     = Some "cat2".
Proof.
  split.
  - destruct (keyword_extremes "Uber" (KeywordRule.mk "cat9" "")
                [KeywordRule.mk "cat2" "Uber"]) as (E & _).
    apply E. reflexivity.
  - destruct (keyword_extremes "Uber" (KeywordRule.mk "cat3" "Electric")
                [KeywordRule.mk "cat2" "UBER"]) as (_ & S & _).
    rewrite S; [|reflexivity|reflexivity|simpl; lia].
    destruct (keyword_extremes "Uber" (KeywordRule.mk "cat2" "UBER") [])
      as (_ & _ & W).
    apply W; [reflexivity|reflexivity|]. apply same_text_lower. reflexivity.
Defined.

(** ** Adding a keyword rule *)

(** X14.  [POST /api/keyword_rules] refuses a missing or empty keyword or
    category with 400, and leaves the table as it was unless it answers
    201.  After a 201 the new rule has a non-empty keyword and an existing
    category, it is the last rule, and every description keeps the
    category it had: the new rule only decides descriptions that no
    earlier rule matched. *)
Theorem rule_added_last (s : rulebook) (keyword category_id : Js.text)
  (id timestamp : string) :
  let r := RuleRoutes.post_keyword_rules s keyword category_id id timestamp in
  (Js.truthy keyword = false \/ Js.truthy category_id = false ->
   r = (s, Failure 400 "Missing required fields"))
  /\ (code (snd r) <> 201 -> fst r = s)
  /\ (code (snd r) = 201 ->
      exists k c,
        let row := Rule.mk id k c timestamp timestamp in
        keyword = Some k /\ category_id = Some c /\ k <> "" /\ c <> ""
        /\ In c (rule_categories s)
        /\ snd r = Json 201 (Some row)
        /\ rules (fst r) = rules s ++ [row]
        /\ forall description,
             categorize description (selected_rules (fst r))
             = match categorize description (selected_rules s) with
               | Some x => Some x
               | None => categorize description [KeywordRule.mk c k]
               end).
Proof.
  cbv zeta. unfold RuleRoutes.post_keyword_rules.
  destruct (negb (Js.truthy keyword) || negb (Js.truthy category_id)) eqn:V.
  - split; [reflexivity|]. split; [reflexivity|]. discriminate.
  - apply orb_false_iff in V. destruct V as [Vk Vc].
    apply negb_false_iff in Vk, Vc.
    split; [intros [E|E]; congruence|].
    unfold RuleRoutes.insert_rule.
    destruct keyword as [k|]; [|discriminate].
    destruct category_id as [c|]; [|discriminate].
    destruct (negb (Sql.mem id (map Rule.id (rules s)))
              && Sql.mem c (rule_categories s)) eqn:X.
    + split; [intros N; now destruct N|]. intros _.
      apply andb_true_iff in X. destruct X as [_ Fk]. apply mem_In in Fk.
      exists k, c. cbn [fst snd hd_error rules].
      repeat split; auto; try (now apply truthy_text).
      intros description. unfold selected_rules. cbn [rules].
      rewrite map_app. apply categorize_app.
    + split; [reflexivity | discriminate].
Qed.

Lemma rule_added_last_witness :
  let s := mkRulebook ["cat1"; "cat3"]
             [Rule.mk "kw3" "Electric" "cat3" Sample.ts0 Sample.ts0] in
  let r := RuleRoutes.post_keyword_rules s (Some "Electricity")
             (Some "cat1") "kw4" Sample.ts1 in
  categorize "Electricity bill" (selected_rules (fst r)) = Some "cat3"
  /\ RuleRoutes.post_keyword_rules s (Some "") (Some "cat1") "kw5" Sample.ts1
     = (s, Failure 400 "Missing required fields").
Proof.
  intros s r. split.
  - destruct (rule_added_last s (Some "Electricity") (Some "cat1") "kw4"
                Sample.ts1) as (_ & _ & H).
    destruct (H eq_refl) as (k & c & _ & _ & _ & _ & _ & _ & _ & K).
    fold r in K. now rewrite K.
  - apply (rule_added_last s (Some "") (Some "cat1") "kw5" Sample.ts1).
    now left.
Defined.

(** ** The authentication middleware *)

Lemma spaceless_cons (c : ascii) (s : string) :
  spaceless (String c s) = true -> c <> " "%char /\ spaceless s = true.
Proof.
  unfold spaceless. cbn [Js.includes]. rewrite negb_true_iff, orb_false_iff.
  intros [P I]. split; [|now rewrite I].
  intros E. subst c.
  assert (T : String.prefix " " (String " " s) = true)
    by (apply prefix_append; now exists s).
  congruence.
Qed.

Lemma append_assoc (a b c : string) :
  ((a ++ b) ++ c)%string = (a ++ (b ++ c))%string.
Proof. induction a as [|x a IH]; simpl; [reflexivity | now rewrite IH]. Qed.

Lemma split_from_spaceless (piece s : string) :
  spaceless s = true -> Auth.split_from piece s = [(piece ++ s)%string].
Proof.
  revert piece. induction s as [|c s IH]; intros piece S.
  - simpl. f_equal. clear. induction piece as [|x p IH]; simpl; congruence.
  - apply spaceless_cons in S. destruct S as [N S]. simpl.
    apply Ascii.eqb_neq in N. rewrite N, (IH _ S).
    now rewrite append_assoc.
Qed.

Lemma split_from_space (piece a rest : string) :
  spaceless a = true ->
  Auth.split_from piece (a ++ String " " rest)
  = (piece ++ a)%string :: Auth.split_from "" rest.
Proof.
  revert piece. induction a as [|c a IH]; intros piece S.
  - simpl. f_equal. clear. induction piece as [|x p IH]; simpl; congruence.
  - apply spaceless_cons in S. destruct S as [N S]. simpl.
    apply Ascii.eqb_neq in N. rewrite N, (IH _ S).
    now rewrite append_assoc.
Qed.

(** X15.  The middleware answers 401 when the Authorization header is
    absent, empty or has no space in it.  For a header [scheme token] it
    does not look at the scheme word: the outcome is 401 when the token is
    empty, 403 when [jwt.verify] rejects the token, and otherwise the
    request goes on as the user of the token. *)
Theorem authenticate_by_second_word (verify : string -> option claims) :
  Auth.authenticateToken verify None = Refused 401 "Missing token"
  /\ (forall header, spaceless header = true ->
        Auth.authenticateToken verify (Some header)
        = Refused 401 "Missing token")
  /\ (forall scheme token,
        spaceless scheme = true -> spaceless token = true ->
        Auth.authenticateToken verify
          (Some (scheme ++ String " " token)%string)
        = if String.eqb token ""
          then Refused 401 "Missing token"
          else match verify token with
               | Some user => Next user
               | None => Refused 403 "Invalid token"
               end).
Proof.
  split; [reflexivity|]. split.
  - intros header S. unfold Auth.authenticateToken.
    destruct (Js.truthy (Some header)) eqn:T.
    + unfold Auth.split. rewrite (split_from_spaceless _ _ S). reflexivity.
    + now rewrite T.
  - intros scheme token S T. unfold Auth.authenticateToken.
    assert (H : Js.truthy (Some (scheme ++ String " " token)%string) = true).
    { destruct scheme; reflexivity. }
    rewrite H. unfold Auth.split.
    rewrite (split_from_space _ _ _ S), (split_from_spaceless _ _ T).
    simpl. destruct (String.eqb token ""); reflexivity.
Qed.

Lemma authenticate_by_second_word_witness :
  let verify (t : string) :=
    if String.eqb t "abc" then Some (mkClaims "user1" "alice@mail.com")
    else None in
  Auth.authenticateToken verify (Some "Bearer abc")
  = Next (mkClaims "user1" "alice@mail.com")
  /\ Auth.authenticateToken verify (Some "Basic abc")
     = Next (mkClaims "user1" "alice@mail.com")
  /\ Auth.authenticateToken verify (Some "abc")
     = Refused 401 "Missing token".
Proof.
  intros verify.
  destruct (authenticate_by_second_word verify) as (_ & H1 & H2).
  split; [|split].
  - apply (H2 "Bearer" "abc"); reflexivity.
  - apply (H2 "Basic" "abc"); reflexivity.
  - apply (H1 "abc"). reflexivity.
Defined.

(** ** Registration and login *)

Lemma by_email_none (users : list User.t) (e : string) :
  Users.by_email users e = [] ->
  Sql.mem e (map User.email users) = false.
Proof.
  intros F. destruct (Sql.mem _ _) eqn:M; [|reflexivity]. exfalso.
  apply mem_In, in_map_iff in M. destruct M as (u & E & Hu).
  assert (X : In u (Users.by_email users e)).
  { apply filter_In. split; [exact Hu|]. rewrite E. apply String.eqb_refl. }
  rewrite F in X. destruct X.
Qed.

(** The outcomes of [POST /api/auth/register]. *)
Lemma register_cases (users : list User.t) (email password name : Js.text)
  (hashedPassword id timestamp : string) :
  let r := Users.register users email password name hashedPassword id
             timestamp in
  (fst r = users /\ code (snd r) <> 201)
  \/ exists e,
       let row := User.mk id e hashedPassword (Js.or_else name (Some ""))
                    timestamp timestamp in
       email = Some e /\ e <> "" /\ Js.truthy password = true
       /\ Users.by_email users e = []
       /\ Sql.mem id (map User.id users) = false
       /\ r = (users ++ [row], Json 201 (Some (profile row))).
Proof.
  cbv zeta. unfold Users.register.
  destruct email as [e|]; [|left; split; [reflexivity | discriminate]].
  destruct (negb (Js.truthy (Some e)) || negb (Js.truthy password)) eqn:V;
    [left; split; [reflexivity | discriminate]|].
  apply orb_false_iff in V. destruct V as [Ve Vp].
  apply negb_false_iff in Ve, Vp.
  destruct (Users.by_email users e) eqn:B;
    [|left; split; [reflexivity | discriminate]].
  unfold Users.insert_user. cbn [User.id User.email].
  rewrite (by_email_none _ _ B). simpl negb. rewrite andb_true_r.
  destruct (Sql.mem id (map User.id users)) eqn:Pk; simpl negb; cbv iota.
  - left. split; [reflexivity | discriminate].
  - right. exists e. repeat split; auto. now apply truthy_text.
Qed.

(** X16.  Registration keeps ids and emails unique and never touches an
    existing user: the table afterwards is the table before, followed by at
    most one new row.  A request for an email that is already registered
    answers 409 and adds nothing. *)
Theorem register_keeps_users_unique (users : list User.t)
  (email password name : Js.text) (hashedPassword id timestamp : string) :
  users_unique users ->
  let r := Users.register users email password name hashedPassword id
             timestamp in
  users_unique (fst r)
  /\ (exists added, fst r = users ++ added /\ (List.length added <= 1)%nat)
  /\ (forall u, In u users -> email = Some (User.email u) ->
        User.email u <> "" -> Js.truthy password = true ->
        r = (users, Failure 409 "User with this email already exists")).
Proof.
  intros [Pk Uq]. cbv zeta. split; [|split].
  - destruct (register_cases users email password name hashedPassword id
                timestamp) as [[E _]|(e & _ & _ & _ & B & M & E)];
      rewrite E; [now split|]. cbn [fst]. unfold users_unique.
    rewrite !map_app. cbn [map User.id User.email]. split.
    + apply NoDup_app; [exact Pk | constructor; [intros [] | constructor] |].
      intros x Hx [<-|[]]. apply mem_In in Hx. congruence.
    + apply NoDup_app; [exact Uq | constructor; [intros [] | constructor] |].
      intros x Hx [<-|[]]. apply mem_In in Hx.
      rewrite (by_email_none _ _ B) in Hx. discriminate.
  - destruct (register_cases users email password name hashedPassword id
                timestamp) as [[E _]|(e & _ & _ & _ & _ & _ & E)]; rewrite E.
    + exists []. split; [now rewrite app_nil_r | simpl; lia].
    + eexists. split; [reflexivity | simpl; lia].
  - intros u Hu -> Ne Tp. unfold Users.register.
    apply truthy_text in Ne. rewrite Ne, Tp. simpl.
    destruct (Users.by_email users (User.email u)) eqn:B; [|reflexivity].
    exfalso. assert (X : In u (Users.by_email users (User.email u))).
    { apply filter_In. split; [exact Hu | apply String.eqb_refl]. }
    rewrite B in X. destruct X.
Qed.

Lemma register_keeps_users_unique_witness :
  let alice := User.mk "user1" "alice@mail.com" "hashed_password_1"
                 (Some "Alice") Sample.ts0 Sample.ts0 in
  Users.register [alice] (Some "alice@mail.com") (Some "secret") None
    "hashed_password_9" "user9" Sample.ts1
  = ([alice], Failure 409 "User with this email already exists").
Proof.
  intros alice.
  destruct (register_keeps_users_unique [alice] (Some "alice@mail.com")
              (Some "secret") None "hashed_password_9" "user9" Sample.ts1)
    as (_ & _ & H).
  - split; repeat constructor; intros [].
  - apply (H alice); [now left | reflexivity | discriminate | reflexivity].
Defined.

(** X17.  A user who has just registered can log in: given that
    [bcrypt.compare] accepts the password against the hash that was stored,
    the login with the same email and password answers 200 with the token
    signed for the new id and email and the profile the registration
    answered.  A login that is refused with 401 gets the same reply whether
    the email is unknown or the password wrong. *)
Theorem login_after_register (compare : string -> string -> bool)
  (sign : claims -> string) (users : list User.t) :
  (forall email password name hashedPassword id timestamp users' p e pw,
     Users.register users email password name hashedPassword id timestamp
     = (users', Json 201 (Some p)) ->
     email = Some e -> password = Some pw ->
     compare pw hashedPassword = true ->
     Users.login compare sign users' email password
     = Json 200 (sign (mkClaims id e), p))
  /\ (forall email password,
        code (Users.login compare sign users email password) = 401 ->
        Users.login compare sign users email password
        = Failure 401 "Invalid credentials").
Proof.
  split.
  - intros email password name hashedPassword id timestamp users' p e pw
      R -> -> C.
    destruct (register_cases users (Some e) (Some pw) name hashedPassword id
                timestamp) as [[_ N]|(e' & Ee & Ne & Tp & B & _ & E)].
    + rewrite R in N. now destruct N.
    + injection Ee as <-. rewrite R in E. injection E as -> ->.
      unfold Users.login. apply truthy_text in Ne. rewrite Ne, Tp. simpl.
      unfold Users.by_email. rewrite filter_app.
      fold (Users.by_email users e). rewrite B. simpl.
      rewrite String.eqb_refl. cbn [User.password_hash]. rewrite C.
      reflexivity.
  - intros email password. unfold Users.login.
    destruct email as [e|]; [|discriminate].
    destruct password as [pw|]; [|discriminate].
    destruct (negb _ || negb _); [discriminate|].
    destruct (Users.by_email users e) as [|user rest]; [reflexivity|].
    destruct (compare pw (User.password_hash user));
      [discriminate | reflexivity].
Qed.

Lemma login_after_register_witness :
  let compare (password hash : string) :=
    String.eqb hash ("hashed_" ++ password)%string in
  let sign (c : claims) := ("token_of_" ++ claim_id c)%string in
  let users' := fst (Users.register [] (Some "dora@mail.com")
                       (Some "secret") None "hashed_secret" "user4"
                       Sample.ts1) in
  code (Users.login compare sign users' (Some "dora@mail.com")
          (Some "secret")) = 200.
Proof.
  intros compare sign users'.
  destruct (login_after_register compare sign []) as [H _].
  erewrite (H (Some "dora@mail.com") (Some "secret") None "hashed_secret"
              "user4" Sample.ts1 users' _ "dora@mail.com" "secret");
    reflexivity.
Defined.

(** X18.  [PATCH /api/users/me] sets the name to what the body carries,
    also when it carries none: the stored name becomes NULL.  It never
    changes an id, an email, a password hash or a creation time, leaves
    every other user as it was, and answers 404 without any change when
    the user does not exist. *)
Theorem patch_me_overwrites_name (users : list User.t) (user_id : string)
  (name : Js.text) (timestamp : string) :
  let r := Users.patch_me users user_id name timestamp in
  Forall2
    (fun u u' =>
       User.id u' = User.id u /\ User.email u' = User.email u
       /\ User.password_hash u' = User.password_hash u
       /\ User.created_at u' = User.created_at u
       /\ (User.id u = user_id /\ User.name u' = name \/ u' = u))
    users (fst r)
  /\ ((forall u, In u users -> User.id u <> user_id) ->
      r = (users, Failure 404 "User not found"))
  /\ (forall u, In u users -> User.id u = user_id ->
        exists p, snd r = Json 200 p
          /\ Profile.id p = user_id /\ Profile.name p = name).
Proof.
  cbv zeta. unfold Users.patch_me. split; [|split].
  - assert (G : Forall2
              (fun u u' =>
                 User.id u' = User.id u /\ User.email u' = User.email u
                 /\ User.password_hash u' = User.password_hash u
                 /\ User.created_at u' = User.created_at u
                 /\ (User.id u = user_id /\ User.name u' = name \/ u' = u))
              users
              (map (fun u => if String.eqb (User.id u) user_id
                             then Users.rename name timestamp u else u)
                 users)).
    { apply Forall2_map_self. intros u _.
      destruct (String.eqb_spec (User.id u) user_id) as [E|_];
        simpl; repeat split; auto. }
    destruct (map _ (Users.by_id users user_id)); exact G.
  - intros N.
    assert (B : Users.by_id users user_id = []).
    { unfold Users.by_id. induction users as [|u l IH]; [reflexivity|].
      simpl. destruct (String.eqb_spec (User.id u) user_id) as [E|_].
      - now destruct (N u (or_introl eq_refl)).
      - apply IH. intros; apply N; now right. }
    rewrite B. simpl. f_equal.
    rewrite <- (map_id users) at 2. apply map_ext_in. intros u Hu.
    destruct (String.eqb_spec (User.id u) user_id) as [E|_]; [|reflexivity].
    now destruct (N u Hu).
  - intros u Hu E.
    assert (X : In u (Users.by_id users user_id)).
    { apply filter_In. split; [exact Hu|]. rewrite E.
      apply String.eqb_refl. }
    destruct (Users.by_id users user_id) as [|u0 l] eqn:B; [destruct X|].
    assert (X0 : In u0 (Users.by_id users user_id))
      by (rewrite B; now left).
    apply filter_In in X0. destruct X0 as [_ E0].
    apply String.eqb_eq in E0. simpl. eexists. split; [reflexivity|].
    simpl. auto.
Qed.

Lemma patch_me_overwrites_name_witness :
  let alice := User.mk "user1" "alice@mail.com" "hashed_password_1"
                 (Some "Alice") Sample.ts0 Sample.ts0 in
  exists p, snd (Users.patch_me [alice] "user1" None Sample.ts1) = Json 200 p
    /\ Profile.name p = None.
Proof.
  intros alice.
  destruct (patch_me_overwrites_name [alice] "user1" None Sample.ts1)
    as (_ & _ & H).
  destruct (H alice) as (p & E & _ & N); [now left | reflexivity|].
  exists p. now split.
Defined.

(** ** Marking a notification *)

Lemma mine_spec (id user_id : string) (n : Notification.t) :
  Notifications.mine id user_id n = true
  <-> Notification.id n = id /\ Notification.user_id n = user_id.
Proof.
  unfold Notifications.mine. now rewrite andb_true_iff, !String.eqb_eq.
Qed.

Lemma mine_none (id user_id : string) (rows : list Notification.t) :
  (forall n, In n rows -> Notification.id n = id ->
     Notification.user_id n <> user_id) ->
  filter (Notifications.mine id user_id) rows = [].
Proof.
  intros N. induction rows as [|n l IH]; [reflexivity|]. simpl.
  destruct (Notifications.mine id user_id n) eqn:M.
  - apply mine_spec in M. destruct M as [E U].
    now destruct (N n (or_introl eq_refl) E).
  - apply IH. intros; apply N; auto. now right.
Qed.

Lemma mine_some (id user_id : string) (rows : list Notification.t)
  (n : Notification.t) :
  In n rows -> Notification.id n = id -> Notification.user_id n = user_id ->
  exists n0 rest,
    filter (Notifications.mine id user_id) rows = n0 :: rest
    /\ Notification.id n0 = id /\ Notification.user_id n0 = user_id.
Proof.
  intros Hn E U.
  assert (X : In n (filter (Notifications.mine id user_id) rows)).
  { apply filter_In. split; [exact Hn|]. now apply mine_spec. }
  destruct (filter _ rows) as [|n0 rest] eqn:F; [destruct X|].
  exists n0, rest. split; [reflexivity|].
  assert (X0 : In n0 (filter (Notifications.mine id user_id) rows))
    by (rewrite F; now left).
  apply filter_In in X0. destruct X0 as [_ M]. now apply mine_spec.
Qed.

(** X19.  [PATCH /api/notifications/:notification_id]:
    - answers 404 and changes nothing when the caller has no notification
      with that id, whatever the body;
    - answers 500 and changes nothing when the caller has it and the body
      carries no [is_read];
    - otherwise answers 200 and sets [is_read] on the rows of the caller
      with that id, leaving every other field and every other row as it
      was; doing it a second time changes nothing more. *)
Theorem patch_notification_effects (rows : list Notification.t)
  (user_id notification_id : string) (is_read : option bool) :
  let r := Notifications.patch_notification rows user_id notification_id
             is_read in
  ((forall n, In n rows -> Notification.id n = notification_id ->
      Notification.user_id n <> user_id) ->
   r = (rows, Failure 404 "Notification not found"))
  /\ (forall n, In n rows -> Notification.id n = notification_id ->
        Notification.user_id n = user_id ->
        (is_read = None ->
         r = (rows, Failure 500 "Error updating notification"))
        /\ (forall v, is_read = Some v ->
              code (snd r) = 200
              /\ Forall2
                   (fun n n' =>
                      Notification.id n' = Notification.id n
                      /\ Notification.user_id n' = Notification.user_id n
                      /\ Notification.notification_type n'
                         = Notification.notification_type n
                      /\ Notification.message n' = Notification.message n
                      /\ Notification.created_at n'
                         = Notification.created_at n
                      /\ (Notification.id n = notification_id
                          /\ Notification.user_id n = user_id
                          /\ Notification.is_read n' = v
                          \/ n' = n))
                   rows (fst r)
              /\ fst (Notifications.patch_notification (fst r) user_id
                        notification_id is_read) = fst r)).
Proof.
  cbv zeta. unfold Notifications.patch_notification,
    Notifications.update_is_read. split.
  - intros N. rewrite (mine_none _ _ _ N).
    destruct is_read as [v|]; [|reflexivity]. simpl. f_equal.
    rewrite <- (map_id rows) at 2. apply map_ext_in. intros n Hn.
    destruct (Notifications.mine notification_id user_id n) eqn:M;
      [|reflexivity].
    apply mine_spec in M. destruct M as [E U]. now destruct (N n Hn E).
  - intros n Hn E U.
    destruct (mine_some _ _ _ _ Hn E U) as (n0 & rest & F & _).
    split.
    + intros ->. now rewrite F.
    + intros v ->. rewrite F. cbn [map fst snd code]. split; [reflexivity|].
      split.
      * apply Forall2_map_self. intros x _.
        destruct (Notifications.mine notification_id user_id x) eqn:M;
          simpl; repeat split; auto.
        apply mine_spec in M. left. tauto.
      * assert (F' : exists y ys,
                  map (Notifications.mark v)
                    (filter (Notifications.mine notification_id user_id)
                       (map (fun x =>
                               if Notifications.mine notification_id
                                    user_id x
                               then Notifications.mark v x else x) rows))
                  = y :: ys).
        { clear F. induction rows as [|x l IH]; [destruct Hn|].
          simpl. destruct (Notifications.mine notification_id user_id x)
                   eqn:M.
          - assert (M' : Notifications.mine notification_id user_id
                           (Notifications.mark v x) = true) by exact M.
            rewrite M'. simpl. eauto.
          - rewrite M. destruct Hn as [->|Hn].
            + assert (T : Notifications.mine notification_id user_id n
                          = true) by now apply mine_spec. congruence.
            + now apply IH. }
        destruct F' as (y & ys & F'). rewrite F'. cbn [fst].
        rewrite map_map. apply map_ext. intros x.
        destruct (Notifications.mine notification_id user_id x) eqn:M.
        -- assert (M' : Notifications.mine notification_id user_id
                          (Notifications.mark v x) = true) by exact M.
           now rewrite M'.
        -- now rewrite M.
Qed.

Lemma patch_notification_effects_witness :
  let welcome := Notification.mk "not1" "user1" "welcome"
                   "Welcome to Personal Finance Tracker!" false
                   "2023-01-01T09:15:00Z" in
  Notifications.patch_notification [welcome] "user1" "not1" None
  = ([welcome], Failure 500 "Error updating notification")
  /\ Notifications.patch_notification [welcome] "user2" "not1" (Some true)
     = ([welcome], Failure 404 "Notification not found").
Proof.
  intros welcome. split.
  - destruct (patch_notification_effects [welcome] "user1" "not1" None)
      as [_ H].
    destruct (H welcome) as [H0 _]; [now left | reflexivity | reflexivity|].
    now apply H0.
  - destruct (patch_notification_effects [welcome] "user2" "not1"
                (Some true)) as [H _].
    apply H. intros n [<-|[]] _. discriminate.
Defined.

(** ** User settings *)

Lemma of_user_insert (s : settings_store) (id user_id : string)
  (n o timestamp : string) (s1 : settings_store) (rows : list Setting.t) :
  Settings.insert_settings s id user_id (Some n) (Some o) timestamp
  = Some (s1, rows) ->
  let row := Setting.mk id user_id n o timestamp timestamp in
  rows = [row] /\ setting_users s1 = setting_users s
  /\ settings s1 = settings s ++ [row].
Proof.
  unfold Settings.insert_settings.
  destruct (negb _ && _); [|discriminate].
  intros E. injection E as <- <-. auto.
Qed.

Lemma filter_rewrite (user_id n o timestamp : string)
  (l : list Setting.t) (other : string) :
  filter (Settings.of_user other)
    (map (fun r => if Settings.of_user user_id r
                   then Settings.rewrite n o timestamp r else r) l)
  = map (fun r => if Settings.of_user user_id r
                  then Settings.rewrite n o timestamp r else r)
      (filter (Settings.of_user other) l).
Proof.
  induction l as [|r l IH]; [reflexivity|]. simpl.
  assert (K : Settings.of_user other
                (if Settings.of_user user_id r
                 then Settings.rewrite n o timestamp r else r)
              = Settings.of_user other r).
  { now destruct (Settings.of_user user_id r). }
  rewrite K. destruct (Settings.of_user other r); simpl; now rewrite IH.
Qed.

(** X20.  [GET /api/user_settings] gets or creates: when it answers 200, a
    second [GET] answers the same row and changes nothing; a row it creates
    has both preferences set to the empty object; and it never gives a
    user a second row. *)
Theorem settings_get_or_create (s : settings_store)
  (user_id id timestamp id' timestamp' : string) :
  let r := Settings.get_user_settings s user_id id timestamp in
  (code (snd r) = 200 ->
   Settings.get_user_settings (fst r) user_id id' timestamp' = r)
  /\ (filter (Settings.of_user user_id) (settings s) = [] ->
      code (snd r) = 200 ->
      snd r = Json 200 (Some (Setting.mk id user_id "{}" "{}" timestamp
                                timestamp)))
  /\ (one_setting_each s -> one_setting_each (fst r)).
Proof.
  cbv zeta. unfold Settings.get_user_settings.
  destruct (filter (Settings.of_user user_id) (settings s))
    as [|row rest] eqn:F.
  - destruct (Settings.insert_settings s id user_id (Some "{}") (Some "{}")
                timestamp) as [[s1 rows]|] eqn:I.
    + apply of_user_insert in I. cbv zeta in I. destruct I as (-> & U & E).
      cbn [fst snd hd_error]. split; [|split].
      * intros _. rewrite E, filter_app, F. simpl.
        unfold Settings.of_user at 1. simpl. now rewrite String.eqb_refl.
      * reflexivity.
      * intros O other. rewrite E, filter_app, length_app. simpl.
        unfold Settings.of_user at 2. simpl.
        destruct (String.eqb_spec user_id other) as [<-|_]; simpl.
        -- rewrite F. simpl. lia.
        -- specialize (O other). lia.
    + split; [discriminate|]. split; [discriminate | auto].
  - cbn [fst snd]. split; [|split].
    + intros _. now rewrite F.
    + discriminate.
    + auto.
Qed.

Lemma settings_get_or_create_witness :
  let s := mkSettings ["user1"; "user2"] [] in
  let r := Settings.get_user_settings s "user1" "set1" Sample.ts1 in
  Settings.get_user_settings (fst r) "user1" "set2" Sample.ts2 = r.
Proof.
  intros s r.
  apply (settings_get_or_create s "user1" "set1" Sample.ts1 "set2"
           Sample.ts2).
  reflexivity.
Defined.

(** X21.  [PUT /api/user_settings] followed by [GET]: when the [PUT]
    answers 200, both preferences were given, and the [GET] answers a row
    of the caller that carries exactly them, without changing anything.  A
    [PUT] that leaves one preference out answers 500 and changes nothing.
    The [PUT] never gives a user a second row. *)
Theorem settings_round_trip (s : settings_store) (user_id : string)
  (notification_preferences other_preferences : Js.text)
  (id timestamp id' timestamp' : string) :
  let r := Settings.put_user_settings s user_id notification_preferences
             other_preferences id timestamp in
  (code (snd r) = 200 ->
   exists n o row,
     notification_preferences = Some n /\ other_preferences = Some o
     /\ Settings.get_user_settings (fst r) user_id id' timestamp'
        = (fst r, Json 200 (Some row))
     /\ Setting.user_id row = user_id
     /\ Setting.notification_preferences row = n
     /\ Setting.other_preferences row = o)
  /\ (notification_preferences = None \/ other_preferences = None ->
      r = (s, Failure 500 "Error updating user settings"))
  /\ (one_setting_each s -> one_setting_each (fst r)).
Proof.
  cbv zeta. unfold Settings.put_user_settings.
  destruct (filter (Settings.of_user user_id) (settings s))
    as [|row rest] eqn:F.
  - destruct notification_preferences as [n|];
      [|split; [discriminate | split; [reflexivity | auto]]].
    destruct other_preferences as [o|];
      [|split; [discriminate | split; [reflexivity | auto]]].
    destruct (Settings.insert_settings s id user_id (Some n) (Some o)
                timestamp) as [[s1 rows]|] eqn:I.
    + apply of_user_insert in I. cbv zeta in I. destruct I as (-> & U & E).
      cbn [fst snd hd_error]. split; [|split].
      * intros _.
        exists n, o, (Setting.mk id user_id n o timestamp timestamp).
        split; [reflexivity|]. split; [reflexivity|].
        split; [|now repeat split].
        unfold Settings.get_user_settings.
        rewrite E, filter_app, F. simpl.
        unfold Settings.of_user at 1. simpl. now rewrite String.eqb_refl.
      * intros [X|X]; discriminate.
      * intros O other. rewrite E, filter_app, length_app. simpl.
        unfold Settings.of_user at 2. simpl.
        destruct (String.eqb_spec user_id other) as [<-|_]; simpl.
        -- rewrite F. simpl. lia.
        -- specialize (O other). lia.
    + split; [discriminate|]. split; [intros [X|X]; discriminate | auto].
  - assert (K : Settings.of_user user_id row = true).
    { assert (X : In row (filter (Settings.of_user user_id) (settings s)))
        by (rewrite F; now left).
      now apply filter_In in X. }
    unfold Settings.update_settings. rewrite F.
    destruct notification_preferences as [n|];
      [|split; [discriminate | split; [reflexivity | auto]]].
    destruct other_preferences as [o|];
      [|split; [discriminate | split; [reflexivity | auto]]].
    cbn [fst snd hd_error map]. split; [|split].
    + intros _.
      exists n, o, (Settings.rewrite n o timestamp row).
      split; [reflexivity|]. split; [reflexivity|]. split; [|split].
      * unfold Settings.get_user_settings. cbn [settings].
        rewrite filter_rewrite, F. cbn [map]. now rewrite K.
      * simpl. now apply String.eqb_eq in K.
      * now split.
    + intros [X|X]; discriminate.
    + intros O other. cbn [settings]. rewrite filter_rewrite, length_map.
      apply O.
Qed.

Lemma settings_round_trip_witness :
  let s := mkSettings ["user1"] [] in
  let r := Settings.put_user_settings s "user1" (Some "{}") None "set1"
             Sample.ts1 in
  r = (s, Failure 500 "Error updating user settings").
Proof.
  intros s r.
  apply (settings_round_trip s "user1" (Some "{}") None "set1" Sample.ts1
           "set2" Sample.ts2).
  now right.
Defined.

(** ** Bills and budgets *)

Lemma bill_where_spec (id user_id : string) (b : Bill.t) :
  Bills.bill_where id user_id b = true
  <-> Bill.id b = id /\ Bill.user_id b = user_id.
Proof.
  unfold Bills.bill_where. now rewrite andb_true_iff, !String.eqb_eq.
Qed.

Lemma budget_where_spec (id user_id : string) (b : Budget.t) :
  Budgets.budget_where id user_id b = true
  <-> Budget.id b = id /\ Budget.user_id b = user_id.
Proof.
  unfold Budgets.budget_where. now rewrite andb_true_iff, !String.eqb_eq.
Qed.

Lemma bill_where_fresh (id user_id : string) (l : list Bill.t) :
  Sql.mem id (map Bill.id l) = false ->
  filter (Bills.bill_where id user_id) l = [].
Proof.
  intros M. apply filter_nothing. intros x Hx.
  destruct (Bills.bill_where id user_id x) eqn:E; [|reflexivity].
  apply bill_where_spec in E. destruct E as [E _].
  assert (T : Sql.mem id (map Bill.id l) = true).
  { apply mem_In. rewrite <- E. now apply in_map. }
  congruence.
Qed.

Lemma budget_where_fresh (id user_id : string) (l : list Budget.t) :
  Sql.mem id (map Budget.id l) = false ->
  filter (Budgets.budget_where id user_id) l = [].
Proof.
  intros M. apply filter_nothing. intros x Hx.
  destruct (Budgets.budget_where id user_id x) eqn:E; [|reflexivity].
  apply budget_where_spec in E. destruct E as [E _].
  assert (T : Sql.mem id (map Budget.id l) = true).
  { apply mem_In. rewrite <- E. now apply in_map. }
  congruence.
Qed.

(** X22.  [POST /api/bills].  When it answers 201 the name, amount, due
    date and reminder offset were all given; the stored bill belongs to
    the caller, is [pending], recurs as the body says or [none] when the
    body says nothing or the empty string; [GET /api/bills/:bill_id] then
    answers that bill and [GET /api/bills] lists it last.  When it does
    not answer 201 nothing is stored.  A [null] amount or reminder offset
    passes the check of the required fields and is answered 500, not
    400. *)
Theorem post_bills_outcomes (s : bill_store) (user_id : string)
  (b : BillBody.t) (id timestamp : string) :
  let r := Bills.post_bills s user_id b id timestamp in
  (code (snd r) = 201 ->
   exists n a d o,
     BillBody.bill_name b = Some n /\ BillBody.amount b = Js.Num a
     /\ BillBody.due_date b = Some d
     /\ BillBody.reminder_offset b = Js.Num o
     /\ let row := Bill.mk id user_id n a d
                     (match BillBody.recurrence b with
                      | None | Some EmptyString => "none"
                      | Some rc => rc
                      end) o "pending" timestamp timestamp in
        snd r = Json 201 (Some row)
        /\ Bills.get_bill (fst r) user_id id = Json 200 row
        /\ Bills.get_bills (fst r) user_id
           = Json 200 (sent_rows (Bills.get_bills s user_id) ++ [row]))
  /\ (code (snd r) <> 201 -> fst r = s)
  /\ (Js.truthy (BillBody.bill_name b) = true ->
      Js.truthy (BillBody.due_date b) = true ->
      BillBody.amount b <> Js.Undefined ->
      BillBody.reminder_offset b <> Js.Undefined ->
      BillBody.amount b = Js.Null \/ BillBody.reminder_offset b = Js.Null ->
      r = (s, Failure 500 "Error creating bill")).
Proof.
  cbv zeta. unfold Bills.post_bills.
  assert (R : Js.or_else (BillBody.recurrence b) (Some "none")
              = Some (match BillBody.recurrence b with
                      | None | Some EmptyString => "none"
                      | Some rc => rc
                      end)).
  { unfold Js.or_else. destruct (BillBody.recurrence b) as [[|c rc]|];
      reflexivity. }
  rewrite R. clear R.
  destruct (BillBody.bill_name b) as [[|c n]|],
    (BillBody.due_date b) as [[|c' d]|],
    (BillBody.amount b) as [| |a],
    (BillBody.reminder_offset b) as [| |o];
    cbn [Js.truthy String.eqb negb orb Js.is_undefined Js.param
         Bills.insert_bill fst snd code];
    try (split;
         [discriminate
         |split;
          [reflexivity
          |intros T1 T2 A1 A2 X;
           first [reflexivity | discriminate | congruence
                 | now destruct X]]]).
  destruct (Sql.mem id (map Bill.id (bills s))) eqn:M;
    [split; [discriminate | split; [reflexivity | intros _ _ _ _ [X|X];
                                                   discriminate]]|].
  destruct (Sql.mem user_id (bill_users s)) eqn:U;
    [|split; [discriminate | split; [reflexivity | intros _ _ _ _ [X|X];
                                                   discriminate]]].
  cbn [negb andb fst snd hd_error code]. split; [|split].
  - intros _. exists (String c n), a, (String c' d), o.
    split; [reflexivity|]. split; [reflexivity|]. split; [reflexivity|].
    split; [reflexivity|]. cbv zeta. split; [reflexivity|]. split.
    + unfold Bills.get_bill. cbn [bills].
      rewrite filter_app, (bill_where_fresh _ _ _ M). simpl.
      unfold Bills.bill_where. simpl. now rewrite !String.eqb_refl.
    + unfold Bills.get_bills. cbn [bills sent_rows].
      rewrite filter_app. simpl. unfold Bills.of_user at 2. simpl.
      now rewrite String.eqb_refl.
  - intros X. now destruct X.
  - intros _ _ _ _ [X|X]; discriminate.
Qed.

Lemma post_bills_outcomes_witness :
  let s := mkBills ["user1"] [] in
  let b := BillBody.mk (Some "Electricity Bill") Js.Null
             (Some "2023-03-15") None (Js.Num 3) None in
  Bills.post_bills s "user1" b "bill1" Sample.ts1
  = (s, Failure 500 "Error creating bill").
Proof.
  intros s b.
  apply (post_bills_outcomes s "user1" b "bill1" Sample.ts1);
    try reflexivity; try discriminate.
  now left.
Defined.

(** X23.  [PUT /api/bills/:bill_id].  When the caller has no bill with
    that id the route answers 404 and changes nothing.  When the caller
    has one, the route answers 200 with the bill as it now is, and
    [GET /api/bills/:bill_id] answers the same: every field the body
    gives (and does not give as [null]) has the body's value, every other
    field is what it was, the id, the owner and the creation time are
    never changed; bills with another id stay as they are. *)
Theorem put_bill_partial (s : bill_store) (user_id bill_id : string)
  (b : BillBody.t) (timestamp : string) :
  let r := Bills.put_bill s user_id bill_id b timestamp in
  ((forall x, In x (bills s) -> Bill.id x = bill_id ->
      Bill.user_id x <> user_id) ->
   r = (s, Failure 404 "Bill not found"))
  /\ (forall old,
        pk_bills s -> In old (bills s) -> Bill.id old = bill_id ->
        Bill.user_id old = user_id ->
        exists new,
          snd r = Json 200 new
          /\ Bills.get_bill (fst r) user_id bill_id = Json 200 new
          /\ Bill.id new = bill_id /\ Bill.user_id new = user_id
          /\ Bill.created_at new = Bill.created_at old
          /\ Bill.updated_at new = timestamp
          /\ given_or_kept (BillBody.bill_name b) (Bill.bill_name old)
               (Bill.bill_name new)
          /\ given_or_kept (Js.param (BillBody.amount b)) (Bill.amount old)
               (Bill.amount new)
          /\ given_or_kept (BillBody.due_date b) (Bill.due_date old)
               (Bill.due_date new)
          /\ given_or_kept (BillBody.recurrence b) (Bill.recurrence old)
               (Bill.recurrence new)
          /\ given_or_kept (Js.param (BillBody.reminder_offset b))
               (Bill.reminder_offset old) (Bill.reminder_offset new)
          /\ given_or_kept (BillBody.status b) (Bill.status old)
               (Bill.status new)
          /\ (forall x, In x (bills s) -> Bill.id x <> bill_id ->
                In x (bills (fst r)))
          /\ map Bill.id (bills (fst r)) = map Bill.id (bills s)).
Proof.
  cbv zeta. unfold Bills.put_bill, Bills.update_bill. split.
  - intros N.
    assert (F : forall x, In x (bills s) ->
                  Bills.bill_where bill_id user_id x = false).
    { intros x Hx. destruct (Bills.bill_where bill_id user_id x) eqn:E;
        [|reflexivity].
      apply bill_where_spec in E. destruct E as [E U].
      now destruct (N x Hx E). }
    rewrite (filter_nothing _ _ F), (map_if_none _ _ _ F). simpl.
    now destruct s.
  - intros old Pk Hin E U.
    assert (W : Bills.bill_where bill_id user_id old = true)
      by now apply bill_where_spec.
    assert (S1 : filter (Bills.bill_where bill_id user_id) (bills s)
                 = [old]).
    { apply (filter_key Bill.id); auto.
      intros x X. apply bill_where_spec in X. destruct X as [X _].
      congruence. }
    rewrite S1. cbn [map fst snd bills]. eexists. split; [reflexivity|].
    split.
    { unfold Bills.get_bill. cbn [bills].
      rewrite filter_map_if by reflexivity. rewrite S1. simpl.
      now rewrite W. }
    simpl.
    destruct (BillBody.bill_name b), (BillBody.amount b),
      (BillBody.due_date b), (BillBody.recurrence b),
      (BillBody.reminder_offset b), (BillBody.status b); simpl;
      (repeat (split; [solve [auto]|]));
      (split;
       [intros x Hx Nx; apply in_map_iff; exists x; split; auto;
        destruct (Bills.bill_where bill_id user_id x) eqn:X; auto;
        apply bill_where_spec in X; destruct X as [X _]; now destruct Nx
       |rewrite map_map; apply map_ext; intros x;
        now destruct (Bills.bill_where bill_id user_id x)]).
Qed.

Lemma put_bill_partial_witness :
  let old := Bill.mk "bill1" "user1" "Electricity Bill" 90 "2023-03-15"
               "monthly" 3 "pending" Sample.ts0 Sample.ts0 in
  let s := mkBills ["user1"; "user2"] [old] in
  let paid := BillBody.mk None Js.Undefined None None Js.Undefined
                (Some "paid") in
  Bills.put_bill s "user2" "bill1" paid Sample.ts1
  = (s, Failure 404 "Bill not found")
  /\ exists new,
       snd (Bills.put_bill s "user1" "bill1" paid Sample.ts1)
       = Json 200 new
       /\ Bill.status new = "paid" /\ Bill.amount new = 90%Q.
Proof.
  intros old s paid. split.
  - destruct (put_bill_partial s "user2" "bill1" paid Sample.ts1)
      as [H _].
    apply H. intros x [<-|[]] _. discriminate.
  - destruct (put_bill_partial s "user1" "bill1" paid Sample.ts1)
      as [_ H].
    destruct (H old) as (new & R & _ & _ & _ & _ & _ & _ & A & _ & _ & _
                         & S & _).
    + repeat constructor. intros [].
    + now left.
    + reflexivity.
    + reflexivity.
    + exists new. split; [exact R|]. split; [exact S | exact A].
Defined.

(** X24.  [DELETE /api/bills/:bill_id] and
    [DELETE /api/budgets/:budget_id] answer 204 whether or not there was
    anything to delete.  Afterwards the table holds the rows it held,
    without those of the caller with that id; the [GET] of that id answers
    404; and nothing changes when the id is not one of the caller's. *)
Theorem deletes_answer_204 (bs : bill_store) (gs : budget_store)
  (user_id id : string) :
  let r := Bills.delete_bill bs user_id id in
  let q := Budgets.delete_budget gs user_id id in
  snd r = Sent 204 /\ snd q = Sent 204
  /\ (forall x, In x (bills (fst r))
                <-> In x (bills bs)
                    /\ ~ (Bill.id x = id /\ Bill.user_id x = user_id))
  /\ (forall x, In x (budgets (fst q))
                <-> In x (budgets gs)
                    /\ ~ (Budget.id x = id /\ Budget.user_id x = user_id))
  /\ Bills.get_bill (fst r) user_id id = Failure 404 "Bill not found"
  /\ Budgets.get_budget (fst q) user_id id
     = Failure 404 "Budget not found"
  /\ ((forall x, In x (bills bs) -> Bill.id x = id ->
         Bill.user_id x <> user_id) -> fst r = bs)
  /\ ((forall x, In x (budgets gs) -> Budget.id x = id ->
         Budget.user_id x <> user_id) -> fst q = gs).
Proof.
  cbv zeta. unfold Bills.delete_bill, Budgets.delete_budget,
    Bills.delete_bill_row, Budgets.delete_budget_row. cbn [fst snd].
  split; [reflexivity|]. split; [reflexivity|]. split; [|split].
  - intros x. cbn [bills]. rewrite filter_In, negb_true_iff.
    rewrite <- bill_where_spec.
    destruct (Bills.bill_where id user_id x); intuition congruence.
  - intros x. cbn [budgets]. rewrite filter_In, negb_true_iff.
    rewrite <- budget_where_spec.
    destruct (Budgets.budget_where id user_id x); intuition congruence.
  - split; [|split; [|split]].
    + unfold Bills.get_bill. cbn [bills].
      rewrite filter_nothing; [reflexivity|].
      intros x Hx. apply filter_In in Hx. destruct Hx as [_ Hx].
      now apply negb_true_iff in Hx.
    + unfold Budgets.get_budget. cbn [budgets].
      rewrite filter_nothing; [reflexivity|].
      intros x Hx. apply filter_In in Hx. destruct Hx as [_ Hx].
      now apply negb_true_iff in Hx.
    + intros N. destruct bs as [us rows]. cbn [bill_users bills] in *.
      f_equal. induction rows as [|x l IH]; [reflexivity|]. simpl.
      destruct (Bills.bill_where id user_id x) eqn:E.
      * apply bill_where_spec in E. destruct E as [E U].
        now destruct (N x (or_introl eq_refl) E).
      * simpl. f_equal. apply IH. intros; apply N; auto. now right.
    + intros N. destruct gs as [us cs rows].
      cbn [budget_users budget_categories budgets] in *.
      f_equal. induction rows as [|x l IH]; [reflexivity|]. simpl.
      destruct (Budgets.budget_where id user_id x) eqn:E.
      * apply budget_where_spec in E. destruct E as [E U].
        now destruct (N x (or_introl eq_refl) E).
      * simpl. f_equal. apply IH. intros; apply N; auto. now right.
Qed.

Lemma deletes_answer_204_witness :
  let old := Bill.mk "bill1" "user1" "Electricity Bill" 90 "2023-03-15"
               "monthly" 3 "pending" Sample.ts0 Sample.ts0 in
  let s := mkBills ["user1"; "user2"] [old] in
  fst (Bills.delete_bill s "user2" "bill1") = s.
Proof.
  intros old s.
  destruct (deletes_answer_204 s (mkBudgets [] [] []) "user2" "bill1")
    as (_ & _ & _ & _ & _ & _ & H & _).
  apply H. intros x [<-|[]] _. discriminate.
Defined.

(** X25.  [POST /api/budgets] and the category.  A budget it creates has
    no category when the body gives none or the empty string, and
    otherwise the category of the body, which is then one of the table;
    [GET /api/budgets/:budget_id] answers the created budget.  With a
    category that is not in the table nothing is created.  An amount of
    zero passes the check of the required fields. *)
Theorem post_budgets_category (s : budget_store) (user_id : string)
  (b : BudgetBody.t) (id timestamp : string) :
  let r := Budgets.post_budgets s user_id b id timestamp in
  (code (snd r) = 201 ->
   exists row,
     snd r = Json 201 (Some row)
     /\ Budget.id row = id /\ Budget.user_id row = user_id
     /\ match BudgetBody.category_id b with
        | None | Some EmptyString => Budget.category_id row = None
        | Some c =>
            Budget.category_id row = Some c /\ In c (budget_categories s)
        end
     /\ Budgets.get_budget (fst r) user_id id = Json 200 row)
  /\ (forall c, BudgetBody.category_id b = Some c -> c <> "" ->
        ~ In c (budget_categories s) ->
        code (snd r) <> 201 /\ fst r = s)
  /\ (BudgetBody.budget_amount b = Js.Num 0 ->
      Js.truthy (BudgetBody.period b) = true ->
      Js.truthy (BudgetBody.start_date b) = true ->
      Js.truthy (BudgetBody.end_date b) = true ->
      code (snd r) <> 400).
Proof.
  cbv zeta. unfold Budgets.post_budgets.
  destruct (Js.is_undefined (BudgetBody.budget_amount b)) eqn:A.
  { cbn [orb fst snd code]. split; [discriminate|]. split.
    - intros; split; [discriminate | reflexivity].
    - intros E. rewrite E in A. discriminate. }
  destruct (Js.truthy (BudgetBody.period b)) eqn:P;
    [|cbn [negb orb fst snd code]; split; [discriminate|]; split;
      [intros; split; [discriminate | reflexivity] | discriminate]].
  destruct (Js.truthy (BudgetBody.start_date b)) eqn:S;
    [|cbn [negb orb fst snd code]; split; [discriminate|]; split;
      [intros; split; [discriminate | reflexivity] | discriminate]].
  destruct (Js.truthy (BudgetBody.end_date b)) eqn:E;
    [|cbn [negb orb fst snd code]; split; [discriminate|]; split;
      [intros; split; [discriminate | reflexivity] | discriminate]].
  cbn [negb orb].
  assert (R : Js.or_else (BudgetBody.category_id b) None
              = match BudgetBody.category_id b with
                | None | Some EmptyString => None
                | Some c => Some c
                end).
  { unfold Js.or_else. destruct (BudgetBody.category_id b) as [[|c rc]|];
      reflexivity. }
  rewrite R. clear R. unfold Budgets.insert_budget.
  destruct (Js.param (BudgetBody.budget_amount b)) as [a|];
    [|cbn [fst snd code]; split; [discriminate|]; split;
      [intros; split; [discriminate | reflexivity] | discriminate]].
  destruct (BudgetBody.period b) as [p|]; [|discriminate].
  destruct (BudgetBody.start_date b) as [sd|]; [|discriminate].
  destruct (BudgetBody.end_date b) as [ed|]; [|discriminate].
  destruct (Sql.mem id (map Budget.id (budgets s))) eqn:M;
    [cbn [negb andb fst snd code]; split; [discriminate|]; split;
      [intros; split; [discriminate | reflexivity] | discriminate]|].
  destruct (Sql.mem user_id (budget_users s)) eqn:U;
    [|cbn [negb andb fst snd code]; split; [discriminate|]; split;
      [intros; split; [discriminate | reflexivity] | discriminate]].
  cbn [negb andb].
  destruct (Budgets.category_fk s _) eqn:K.
  - cbn [fst snd code hd_error]. split; [|split; [|discriminate]].
    + intros _. eexists. split; [reflexivity|]. cbn [Budget.id
        Budget.user_id Budget.category_id].
      split; [reflexivity|]. split; [reflexivity|]. split.
      * destruct (BudgetBody.category_id b) as [[|c rc]|]; auto.
        split; [reflexivity|]. now apply mem_In.
      * unfold Budgets.get_budget. cbn [budgets].
        rewrite filter_app, (budget_where_fresh _ _ _ M). simpl.
        unfold Budgets.budget_where. simpl. now rewrite !String.eqb_refl.
    + intros c C Nc Hc. rewrite C in K. destruct c as [|c0 rc];
        [now destruct Nc|].
      simpl in K. apply mem_In in K. now destruct Hc.
  - cbn [fst snd code]. split; [discriminate|]. split; [|discriminate].
    intros; split; [discriminate | reflexivity].
Qed.

Lemma post_budgets_category_witness :
  let s := mkBudgets ["user1"] ["cat1"] [] in
  let b := BudgetBody.mk (Js.Num 500) (Some "monthly")
             (Some "2023-03-01") (Some "2023-03-31") (Some "cat9") in
  fst (Budgets.post_budgets s "user1" b "budget1" Sample.ts1) = s.
Proof.
  intros s b.
  apply (post_budgets_category s "user1" b "budget1" Sample.ts1) with "cat9".
  - reflexivity.
  - discriminate.
  - intros [X|[]]. discriminate.
Defined.

(** X26.  [PUT /api/budgets/:budget_id] cannot take the category of a
    budget away.  On a budget of the caller: without a category in the
    body the route answers 200 and the category stays what it was; with a
    category of the table it answers 200 and the budget has that
    category; with another one that the budget does not already have (the
    empty string included) it answers 500 and changes nothing. *)
Theorem put_budget_category (s : budget_store) (user_id budget_id : string)
  (b : BudgetBody.t) (timestamp : string) (old : Budget.t) :
  pk_budgets s -> In old (budgets s) -> Budget.id old = budget_id ->
  Budget.user_id old = user_id ->
  let r := Budgets.put_budget s user_id budget_id b timestamp in
  (BudgetBody.category_id b = None ->
   exists new,
     snd r = Json 200 new
     /\ Budget.category_id new = Budget.category_id old
     /\ Budgets.get_budget (fst r) user_id budget_id = Json 200 new)
  /\ (forall c, BudgetBody.category_id b = Some c ->
        In c (budget_categories s) ->
        exists new,
          snd r = Json 200 new /\ Budget.category_id new = Some c
          /\ Budgets.get_budget (fst r) user_id budget_id = Json 200 new)
  /\ (forall c, BudgetBody.category_id b = Some c ->
        Budget.category_id old <> Some c ->
        ~ In c (budget_categories s) ->
        r = (s, Failure 500 "Error updating budget")).
Proof.
  intros Pk Hin E U. cbv zeta.
  unfold Budgets.put_budget, Budgets.update_budget.
  assert (W : Budgets.budget_where budget_id user_id old = true)
    by now apply budget_where_spec.
  assert (S1 : filter (Budgets.budget_where budget_id user_id) (budgets s)
               = [old]).
  { apply (filter_key Budget.id); auto.
    intros x X. apply budget_where_spec in X. destruct X as [X _].
    congruence. }
  rewrite S1. cbn [forallb map andb Budgets.edit_budget_row
                   Budget.category_id].
  rewrite andb_true_r.
  assert (G : forall e,
            Budgets.get_budget
              (mkBudgets (budget_users s) (budget_categories s)
                 (map (fun x => if Budgets.budget_where budget_id user_id x
                                then Budgets.edit_budget_row
                                       (Js.param
                                          (BudgetBody.budget_amount b))
                                       (BudgetBody.period b)
                                       (BudgetBody.start_date b)
                                       (BudgetBody.end_date b) e timestamp x
                                else x) (budgets s)))
              user_id budget_id
            = Json 200
                (Budgets.edit_budget_row
                   (Js.param (BudgetBody.budget_amount b))
                   (BudgetBody.period b) (BudgetBody.start_date b)
                   (BudgetBody.end_date b) e timestamp old)).
  { intros e. unfold Budgets.get_budget. cbn [budgets].
    rewrite filter_map_if by reflexivity. rewrite S1. simpl.
    now rewrite W. }
  split; [|split].
  - intros C. rewrite C. cbn [Sql.coalesce_null].
    assert (T : Sql.text_eqb (Budget.category_id old)
                  (Budget.category_id old) = true).
    { destruct (Budget.category_id old); simpl; auto.
      apply String.eqb_refl. }
    rewrite T. cbn [orb fst snd]. eexists. split; [reflexivity|].
    split; [reflexivity|]. apply G.
  - intros c C Hc. rewrite C. cbn [Sql.coalesce_null Budgets.category_fk].
    assert (M : Sql.mem c (budget_categories s) = true) by now apply mem_In.
    rewrite M, orb_true_r. cbn [fst snd]. eexists.
    split; [reflexivity|]. split; [reflexivity|]. apply G.
  - intros c C Nc Hc. rewrite C. cbn [Sql.coalesce_null Budgets.category_fk].
    assert (M : Sql.mem c (budget_categories s) = false).
    { destruct (Sql.mem c (budget_categories s)) eqn:M; [|reflexivity].
      apply mem_In in M. now destruct Hc. }
    assert (T : Sql.text_eqb (Budget.category_id old) (Some c) = false).
    { destruct (Budget.category_id old) as [c0|]; simpl; [|reflexivity].
      destruct (String.eqb_spec c0 c); [|reflexivity]. subst.
      now destruct Nc. }
    now rewrite M, T.
Qed.

Lemma put_budget_category_witness :
  let old := Budget.mk "budget1" "user1" 500 "monthly" "2023-03-01"
               "2023-03-31" (Some "cat1") Sample.ts0 Sample.ts0 in
  let s := mkBudgets ["user1"] ["cat1"; "cat2"] [old] in
  let b := BudgetBody.mk Js.Undefined None None None (Some "") in
  Budgets.put_budget s "user1" "budget1" b Sample.ts1
  = (s, Failure 500 "Error updating budget").
Proof.
  intros old s b.
  destruct (put_budget_category s "user1" "budget1" b Sample.ts1 old)
    as (_ & _ & H).
  - repeat constructor. intros [].
  - now left.
  - reflexivity.
  - reflexivity.
  - apply (H ""); [reflexivity | discriminate |].
    intros [X|[X|[]]]; discriminate.
Defined.

(** ** The notification slice of the client store *)

(** X27.  [mark_notification_as_read] of the client store: marking twice
    is marking once, two markings can be done in either order, the ids
    and their order stay, every notification with the id is read
    afterwards (all of them when the id occurs more than once), the
    others are untouched, and marking after [add_notification] is adding
    the notification, marked when it has the id, after marking. *)
Theorem mark_notification_as_read_properties (id1 id2 : string)
  (n : Store.Notification) (state : list Store.Notification) :
  let mark := Store.mark_notification_as_read in
  mark id1 (mark id1 state) = mark id1 state
  /\ mark id1 (mark id2 state) = mark id2 (mark id1 state)
  /\ map Store.id (mark id1 state) = map Store.id state
  /\ (forall x, In x (mark id1 state) -> Store.id x = id1 ->
        Store.is_read x = true)
  /\ (forall x, In x state -> Store.id x <> id1 -> In x (mark id1 state))
  /\ mark id1 (Store.add_notification n state)
     = mark id1 state ++ mark id1 [n].
Proof.
  cbv zeta. unfold Store.mark_notification_as_read, Store.add_notification.
  split; [|split; [|split; [|split; [|split]]]].
  - rewrite map_map. apply map_ext. intros x.
    destruct (String.eqb (Store.id x) id1) eqn:E; simpl; now rewrite E.
  - rewrite !map_map. apply map_ext. intros x.
    destruct (String.eqb (Store.id x) id1) eqn:E1,
      (String.eqb (Store.id x) id2) eqn:E2; simpl;
      rewrite ?E1, ?E2; reflexivity.
  - rewrite map_map. apply map_ext. intros x.
    now destruct (String.eqb (Store.id x) id1).
  - intros x Hx Ex. apply in_map_iff in Hx. destruct Hx as (y & <- & _).
    destruct (String.eqb (Store.id y) id1) eqn:E; [reflexivity|].
    apply String.eqb_neq in E. now destruct E.
  - intros x Hx Nx. apply in_map_iff. exists x. split; [|exact Hx].
    apply String.eqb_neq in Nx. now rewrite Nx.
  - apply map_app.
Qed.

Lemma mark_notification_as_read_properties_witness :
  let n := Store.mkNotification "not1" "welcome"
             "Welcome to Personal Finance Tracker!" false
             "2023-01-01T09:15:00Z" in
  Forall (fun x => Store.is_read x = true)
    (Store.mark_notification_as_read "not1" [n; n]).
Proof.
  intros n. apply Forall_forall. intros x Hx.
  destruct (mark_notification_as_read_properties "not1" "not1" n [n; n])
    as (_ & _ & _ & H & _).
  apply (H x Hx).
  destruct Hx as [<-|[<-|[]]]; reflexivity.
Defined.

(** ** A run on the caller's own accounts *)

Lemma ledger_invariant_on_own_accounts_witness :
  let coffee := Create (Sample.entry "acct1_user1" (-50)
                          "Starbucks coffee run") "tx1" in
  let d1 := fst (handle Sample.opened "user1" coffee Sample.ts1) in
  let d2 := fst (handle d1 "user1" (Update "tx1" (Sample.reprice (-75)))
                   Sample.ts2) in
  let d3 := fst (handle d2 "user1" (Delete "tx1") Sample.ts2) in
  ledger_invariant d3.
Proof.
  intros coffee d1 d2 d3.
  apply (ledger_invariant_on_own_accounts Sample.opened).
  - split; [constructor | split; [intros r [] |]].
    apply ledger_invariantb_spec. reflexivity.
  - apply (own_step _ "user1" coffee Sample.ts1).
    { intros k E a Ha Ek. injection E as <-.
      destruct Ha as [<-|[<-|[<-|[]]]]; [reflexivity | discriminate
                                         | discriminate]. }
    { exact I. }
    apply (own_step _ "user1" (Update "tx1" (Sample.reprice (-75)))
             Sample.ts2).
    { split; [discriminate | intros k E; discriminate]. }
    { intros old [<-|[]] _. split; vm_compute; reflexivity. }
    apply (own_step _ "user1" (Delete "tx1") Sample.ts2); [exact I | |].
    { intros old [<-|[]]. split; vm_compute; reflexivity. }
    apply own_done.
Defined.
